(** * Bi-directional HubSpot / Google Sheets sync engine

    A shallow embedding of the sync core of the repository:

    - [src/services/sync/sheets-to-hubspot.ts]: the Sheet->CRM orchestrator
      [SheetsToHubSpotSync] and the [DataTransformer] class bundled in the
      same file;
    - [src/services/sync/hubspot-to-sheets.ts]: the CRM->Sheet orchestrator
      [HubSpotToSheetsSync];
    - [src/lib/googlesheets/client.ts]: [calculateRowHash], [findRows],
      [getColumnLetter], [getColumnIndex] and the split of [readSheet].

    JavaScript values are an inductive type, numbers are IEEE doubles
    (Rocq's primitive floats), strings are ASCII text: the case and
    white-space functions are those of JavaScript on code units below 128.
    What the JavaScript runtime supplies (number printing and parsing,
    [Date], [Intl], [JSON], SHA-256, dynamic code) is a record [Host] of
    functions taken as a parameter; [jsonPrint] and [jsonRead] are [JSON]
    itself on the values and texts without escapes.  The CRM, the spreadsheet service and
    the database are an oracle [World] that answers every external call from
    the history of the calls made so far; asynchronous code is sequential
    (every call is awaited), so a run is a function from a state and a
    history to an outcome, a state and a longer history. *)

From Stdlib Require Import ZArith List String Ascii Bool Lia Floats DecimalString.
From Stdlib Require Import Sorted Permutation.
Import ListNotations.
Set Warnings "-register-all".
Open Scope string_scope.
Open Scope list_scope.
Open Scope nat_scope.

(** String concatenation, written apart from list append. *)
Infix "+++" := String.append (at level 60, right associativity).

(* ===================================================================== *)
(** ** JavaScript values and the built-ins the sync code uses            *)
(* ===================================================================== *)

Module JS.

(** A JavaScript value as the sync code meets them: cells of a sheet,
    CRM properties, transform configurations. *)
Inductive value : Type :=
| VUndefined
| VNull
| VBool (b : bool)
| VNum (f : float)
| VStr (s : string)
| VArr (items : list value)
| VObj (fields : list (string * value)).

(** The result of code that may throw: [Throw msg] carries [error.message]. *)
Inductive outcome (A : Type) : Type :=
| Ok (a : A)
| Throw (msg : string).
Arguments Ok {A} a.
Arguments Throw {A} msg.

Definition obind {A B} (o : outcome A) (k : A -> outcome B) : outcome B :=
  match o with
  | Ok a => k a
  | Throw m => Throw m
  end.

(** *** Characters and strings *)

(** The double quote, as a one-character string. *)
Definition dq : string := String (ascii_of_nat 34) EmptyString.

Definition code (c : ascii) : nat := nat_of_ascii c.

(** White space of [String.prototype.trim] and of the regular-expression
    class [\s], within ASCII: TAB, LF, VT, FF, CR, SP. *)
Definition is_ws (c : ascii) : bool :=
  let n := code c in
  ((9 <=? n) && (n <=? 13)) || (n =? 32).

Definition is_digit (c : ascii) : bool :=
  let n := code c in (48 <=? n) && (n <=? 57).

Definition is_upper (c : ascii) : bool :=
  let n := code c in (65 <=? n) && (n <=? 90).

Definition is_lower (c : ascii) : bool :=
  let n := code c in (97 <=? n) && (n <=? 122).

(** The class [\w]: letters, digits and the underscore. *)
Definition is_word (c : ascii) : bool :=
  is_upper c || is_lower c || is_digit c || (code c =? 95).

Definition lower_char (c : ascii) : ascii :=
  if is_upper c then ascii_of_nat (code c + 32) else c.

Definition upper_char (c : ascii) : ascii :=
  if is_lower c then ascii_of_nat (code c - 32) else c.

Fixpoint map_chars (f : ascii -> ascii) (s : string) : string :=
  match s with
  | EmptyString => EmptyString
  | String c s' => String (f c) (map_chars f s')
  end.

Fixpoint filter_chars (p : ascii -> bool) (s : string) : string :=
  match s with
  | EmptyString => EmptyString
  | String c s' => if p c then String c (filter_chars p s') else filter_chars p s'
  end.

Fixpoint all_chars (p : ascii -> bool) (s : string) : bool :=
  match s with
  | EmptyString => true
  | String c s' => p c && all_chars p s'
  end.

Definition toLowerCase (s : string) : string := map_chars lower_char s.
Definition toUpperCase (s : string) : string := map_chars upper_char s.

Fixpoint trimStart (s : string) : string :=
  match s with
  | EmptyString => EmptyString
  | String c s' => if is_ws c then trimStart s' else s
  end.

(** [trimEnd] keeps a character when it is not white space or when
    something survives after it. *)
Fixpoint trimEnd (s : string) : string :=
  match s with
  | EmptyString => EmptyString
  | String c s' =>
      match trimEnd s' with
      | EmptyString => if is_ws c then EmptyString else String c EmptyString
      | rest => String c rest
      end
  end.

Definition trim (s : string) : string := trimEnd (trimStart s).

(** [s.slice(a, b)] for [0 <= a <= b]. *)
Definition slice (a b : nat) (s : string) : string := substring a (b - a) s.

(** [s.slice(a)] for [0 <= a]. *)
Definition sliceFrom (a : nat) (s : string) : string :=
  substring a (String.length s - a) s.

(** [s.padStart(n, "0")]. *)
Fixpoint zeros (n : nat) : string :=
  match n with
  | O => EmptyString
  | S k => String "0" (zeros k)
  end.

Definition padStart0 (n : nat) (s : string) : string :=
  zeros (n - String.length s) +++ s.

(** [s.split(sep)] with a string separator: the occurrences are taken
    leftmost first and do not overlap; an empty separator splits into code
    units.  [skip] counts the characters of a separator still to pass. *)
Fixpoint split_go (sep : string) (s : string) (skip : nat) (cur : string)
  : list string :=
  match s with
  | EmptyString => [cur]
  | String c s' =>
      match skip with
      | S k => split_go sep s' k cur
      | O =>
          if prefix sep s
          then cur :: split_go sep s' (String.length sep - 1) EmptyString
          else split_go sep s' 0 (cur +++ String c EmptyString)
      end
  end.

Definition split (sep : string) (s : string) : list string :=
  match sep with
  | EmptyString => map (fun c => String c EmptyString) (list_ascii_of_string s)
  | _ => split_go sep s 0 EmptyString
  end.

(** [Array.prototype.join] on strings. *)
Definition join (sep : string) (l : list string) : string := String.concat sep l.

(** Decimal text of an integer, as a template literal prints an integral
    number. *)
Definition Z_to_string (z : Z) : string := NilZero.string_of_int (Z.to_int z).

(** *** Coercions *)

(** [!!v]. *)
Definition truthy (v : value) : bool :=
  match v with
  | VUndefined | VNull => false
  | VBool b => b
  | VNum f => negb (PrimFloat.is_nan f || PrimFloat.is_zero f)
  | VStr s => negb (String.eqb s "")
  | VArr _ | VObj _ => true
  end.

(** [v === w] on primitives; two arrays or objects read from different
    places are never the same reference. *)
Definition strictEq (v w : value) : bool :=
  match v, w with
  | VUndefined, VUndefined => true
  | VNull, VNull => true
  | VBool a, VBool b => Bool.eqb a b
  | VNum a, VNum b => PrimFloat.eqb a b
  | VStr a, VStr b => String.eqb a b
  | _, _ => false
  end.

Definition is_nullish (v : value) : bool :=
  match v with
  | VUndefined | VNull => true
  | _ => false
  end.

(** [a || b] and [a ?? b]. *)
Definition or_else (a b : value) : value := if truthy a then a else b.
Definition nullish_else (a b : value) : value := if is_nullish a then b else a.

Fixpoint lookup_field (k : string) (fs : list (string * value)) : value :=
  match fs with
  | [] => VUndefined
  | (k', v) :: fs' => if String.eqb k k' then v else lookup_field k fs'
  end.

(** The members that every plain object inherits from [Object.prototype]:
    [o[k]] finds them when [o] has no field of its own named [k]. *)
Definition inheritedNames : list string :=
  ["constructor"; "hasOwnProperty"; "isPrototypeOf"; "propertyIsEnumerable";
   "toLocaleString"; "toString"; "valueOf"; "__proto__"; "__defineGetter__";
   "__defineSetter__"; "__lookupGetter__"; "__lookupSetter__"].

Definition inherits (k : string) : bool := existsb (String.eqb k) inheritedNames.

(** The field of its own that an object has under a name, if any. *)
Fixpoint own_field (k : string) (fs : list (string * value)) : option value :=
  match fs with
  | [] => None
  | (k', v) :: fs' => if String.eqb k k' then Some v else own_field k fs'
  end.

(** [!!o[k]] on a plain object: a field of its own decides; without one,
    an inherited member is a function, which is truthy.  [__proto__] is
    an accessor: it reads as the prototype, an object, whatever was
    assigned to it. *)
Definition truthyAt (k : string) (fs : list (string * value)) : bool :=
  if String.eqb k "__proto__" then true
  else match own_field k fs with
       | Some v => truthy v
       | None => inherits k
       end.

(** [o?.k] for the configuration keys the code reads: absent on anything
    that is not an object. *)
Definition getOpt (o : value) (k : string) : value :=
  match o with
  | VObj fs => lookup_field k fs
  | _ => VUndefined
  end.

(** [o.k]: a [TypeError] on [null] and [undefined]. *)
Definition getStrict (o : value) (k : string) : outcome value :=
  match o with
  | VUndefined => Throw ("Cannot read properties of undefined (reading '" +++ k +++ "')")
  | VNull => Throw ("Cannot read properties of null (reading '" +++ k +++ "')")
  | _ => Ok (getOpt o k)
  end.

(** [row[i]] for an integer index: [undefined] outside the array. *)
Definition nthZ (l : list value) (i : Z) : value :=
  if (i <? 0)%Z then VUndefined else nth (Z.to_nat i) l VUndefined.

(** [headers.indexOf(name)]: the first position, or [-1]. *)
Fixpoint indexOf_from (name : string) (l : list string) (i : Z) : Z :=
  match l with
  | [] => (-1)%Z
  | h :: t => if String.eqb h name then i else indexOf_from name t (i + 1)%Z
  end.

Definition indexOf (l : list string) (name : string) : Z := indexOf_from name l 0%Z.

Definition includes (l : list string) (name : string) : bool :=
  existsb (fun h => String.eqb h name) l.

(** *** JSON *)

(** A character that [JSON.stringify] copies into a string literal as it
    is: printable ASCII but the double quote and the backslash. *)
Definition plain_char (c : ascii) : bool :=
  let n := code c in
  (32 <=? n) && (n <? 127) && negb (n =? 34) && negb (n =? 92).

(** A character of a number literal: digits, [-], [+], [.], [e], [E]. *)
Definition number_char (c : ascii) : bool :=
  let n := code c in
  is_digit c || (n =? 45) || (n =? 43) || (n =? 46) || (n =? 101) || (n =? 69).

(** What a number literal starts with: a digit or [-]. *)
Definition starts_number (c : ascii) : bool := is_digit c || (code c =? 45).

(** [JSON.stringify(v)] without indentation, on [null], booleans, finite
    numbers, texts of plain characters, and arrays and objects of these;
    [numToString] is [String] on numbers.  An [undefined] array element
    prints as [null]. *)
Fixpoint jsonPrint (numToString : float -> string) (v : value) : string :=
  match v with
  | VUndefined | VNull => "null"
  | VBool true => "true"
  | VBool false => "false"
  | VNum f => numToString f
  | VStr s => dq +++ s +++ dq
  | VArr items => "[" +++ String.concat "," (map (jsonPrint numToString) items) +++ "]"
  | VObj fields =>
      "{" +++ String.concat ","
                (map (fun kv => match kv with
                                | (k, x) => dq +++ k +++ dq +++ ":" +++ jsonPrint numToString x
                                end) fields) +++ "}"
  end.

(** The longest prefix of characters of a class, and what follows it. *)
Fixpoint span (p : ascii -> bool) (s : string) : string * string :=
  match s with
  | String c s' =>
      if p c then let (a, b) := span p s' in (String c a, b) else (EmptyString, s)
  | EmptyString => (EmptyString, EmptyString)
  end.

(** A string literal without escapes, after its opening quote. *)
Definition readText (s : string) : option (string * string) :=
  let (body, after) := span plain_char s in
  match after with
  | String q rest => if code q =? 34 then Some (body, rest) else None
  | EmptyString => None
  end.

(** The text after a word, when the text starts with the word. *)
Fixpoint readWord (word s : string) : option string :=
  match word with
  | EmptyString => Some s
  | String c word' =>
      match s with
      | String d s' => if Ascii.eqb c d then readWord word' s' else None
      | EmptyString => None
      end
  end.

(** [JSON.parse] on the texts [jsonPrint] writes, which have no white
    space, no escapes and no repeated names: one value and the text after
    it.  [fuel] bounds the nesting and the number of elements;
    [parseFloat] reads a number literal. *)
Fixpoint readValue (parseFloat : string -> float) (fuel : nat) (s : string)
  : option (value * string) :=
  match fuel with
  | O => None
  | S n =>
      match s with
      | EmptyString => None
      | String c rest =>
          if starts_number c then
            let (token, after) := span number_char s in
            Some (VNum (parseFloat token), after)
          else if code c =? 34 then
            match readText rest with
            | Some (body, after) => Some (VStr body, after)
            | None => None
            end
          else if Ascii.eqb c "n" then
            match readWord "ull" rest with
            | Some after => Some (VNull, after)
            | None => None
            end
          else if Ascii.eqb c "t" then
            match readWord "rue" rest with
            | Some after => Some (VBool true, after)
            | None => None
            end
          else if Ascii.eqb c "f" then
            match readWord "alse" rest with
            | Some after => Some (VBool false, after)
            | None => None
            end
          else if Ascii.eqb c "[" then
            match readWord "]" rest with
            | Some after => Some (VArr [], after)
            | None =>
                match readItems parseFloat n rest with
                | Some (items, after) => Some (VArr items, after)
                | None => None
                end
            end
          else if Ascii.eqb c "{" then
            match readWord "}" rest with
            | Some after => Some (VObj [], after)
            | None =>
                match readFields parseFloat n rest with
                | Some (fields, after) => Some (VObj fields, after)
                | None => None
                end
            end
          else None
      end
  end
with readItems (parseFloat : string -> float) (fuel : nat) (s : string)
  : option (list value * string) :=
  match fuel with
  | O => None
  | S n =>
      match readValue parseFloat n s with
      | Some (x, String c rest) =>
          if Ascii.eqb c "," then
            match readItems parseFloat n rest with
            | Some (xs, after) => Some (x :: xs, after)
            | None => None
            end
          else if Ascii.eqb c "]" then Some ([x], rest)
          else None
      | _ => None
      end
  end
with readFields (parseFloat : string -> float) (fuel : nat) (s : string)
  : option (list (string * value) * string) :=
  match fuel with
  | O => None
  | S n =>
      match readWord dq s with
      | Some rest =>
          match readText rest with
          | Some (k, rest') =>
              match readWord ":" rest' with
              | Some rest'' =>
                  match readValue parseFloat n rest'' with
                  | Some (x, String c rest3) =>
                      if Ascii.eqb c "," then
                        match readFields parseFloat n rest3 with
                        | Some (fs, after) => Some ((k, x) :: fs, after)
                        | None => None
                        end
                      else if Ascii.eqb c "}" then Some ([(k, x)], rest3)
                      else None
                  | _ => None
                  end
              | None => None
              end
          | None => None
          end
      | None => None
      end
  end.

(** [JSON.parse(s)] on such a text: the value, when the text is one value
    and nothing more; the length of the text is fuel enough. *)
Definition jsonRead (parseFloat : string -> float) (s : string) : outcome value :=
  match readValue parseFloat (String.length s) s with
  | Some (v, EmptyString) => Ok v
  | _ => Throw "Unexpected token in JSON"
  end.

(** A number that prints as a number literal which reads back as the
    number: finite, and not [-0], which prints as [0]. *)
Definition jsonNumber (numToString : float -> string) (parseFloat : string -> float)
    (f : float) : Prop :=
  match numToString f with
  | String c rest => starts_number c = true /\ all_chars number_char rest = true
  | EmptyString => False
  end
  /\ parseFloat (numToString f) = f.

(** A name that an object keeps where it was added and that prints
    without escapes: objects list the names that are array indexes first,
    and [__proto__] names the prototype. *)
Definition jsonKey (k : string) : Prop :=
  all_chars plain_char k = true
  /\ match k with
     | String c _ => is_digit c = false
     | EmptyString => True
     end
  /\ k <> "__proto__".

(** The values that [JSON] writes and reads without loss: [null],
    booleans, such numbers, texts of plain characters, arrays of these and
    objects of these under distinct such names. *)
Inductive jsonValue (numToString : float -> string) (parseFloat : string -> float)
  : value -> Prop :=
| JNull : jsonValue numToString parseFloat VNull
| JBool (b : bool) : jsonValue numToString parseFloat (VBool b)
| JNum (f : float) :
    jsonNumber numToString parseFloat f -> jsonValue numToString parseFloat (VNum f)
| JStr (s : string) :
    all_chars plain_char s = true -> jsonValue numToString parseFloat (VStr s)
| JArr (items : list value) :
    Forall (jsonValue numToString parseFloat) items ->
    jsonValue numToString parseFloat (VArr items)
| JObj (fields : list (string * value)) :
    NoDup (map fst fields) ->
    Forall (fun kv => jsonKey (fst kv) /\ jsonValue numToString parseFloat (snd kv)) fields ->
    jsonValue numToString parseFloat (VObj fields).

End JS.

(* ===================================================================== *)
(** ** The runtime the code runs on                                      *)
(* ===================================================================== *)

Module Runtime.
Import JS.

(** What Node supplies and the repository only calls.  Times are the
    millisecond time values of [Date]; an invalid date has time [NaN]. *)
Record Host : Type := {
  (** [String(n)] on a number *)
  numToString : float -> string;
  (** [parseFloat(s)] and [parseInt(s)] *)
  parseFloat : string -> float;
  parseInt : string -> float;
  (** [new Date(v).getTime()] *)
  dateTime : value -> float;
  (** [new Date(year, monthIndex, day).getTime()] *)
  dateOfParts : float -> float -> float -> float;
  (** [getMonth()], [getDate()], [getFullYear()] of a valid time, local zone *)
  dateMonth : float -> float;
  dateDay : float -> float;
  dateYear : float -> float;
  (** [toLocaleDateString()] of a time ([NaN] prints as an invalid date) *)
  toLocaleDateString : float -> string;
  (** [n.toFixed(d)]: a [RangeError] outside 0..100 *)
  toFixed : float -> value -> outcome string;
  (** [n.toLocaleString()] *)
  numToLocaleString : float -> string;
  (** [new Intl.NumberFormat('en-US', {style: 'currency', currency}).format(n)]:
      a [RangeError] on a malformed currency code *)
  intlCurrency : value -> float -> outcome string;
  (** [JSON.stringify(v)] for a [v] other than [undefined] *)
  jsonText : value -> string;
  (** [JSON.parse(s)]: a [SyntaxError] on malformed text *)
  jsonParse : string -> outcome value;
  (** [new AsyncFunction('value', 'prisma', src)] applied to the value; its
      effects on the database are outside the model *)
  runCustom : value -> value -> outcome value;
  (** [crypto.createHash('sha256').update(s).digest('hex')] *)
  sha256Hex : string -> string
}.

Section WithHost.
Variable h : Host.

(** Text of an array element inside [join] and [String(array)]. *)
Fixpoint toStr (v : value) : string :=
  match v with
  | VUndefined => "undefined"
  | VNull => "null"
  | VBool true => "true"
  | VBool false => "false"
  | VNum f => numToString h f
  | VStr s => s
  | VArr items =>
      String.concat ","
        (map (fun x => match x with
                       | VUndefined | VNull => ""
                       | _ => toStr x
                       end) items)
  | VObj _ => "[object Object]"
  end.

Definition elemStr (x : value) : string :=
  match x with
  | VUndefined | VNull => ""
  | _ => toStr x
  end.

(** [items.join(sep)] on an array of values. *)
Definition arrJoin (sep : string) (items : list value) : string :=
  String.concat sep (map elemStr items).

(** [JSON.stringify(v)]. *)
Definition jsonStringify (v : value) : value :=
  match v with
  | VUndefined => VUndefined
  | _ => VStr (jsonText h v)
  end.

(** [GoogleSheetsClient.calculateRowHash]: SHA-256 of the JSON text. *)
Definition calculateRowHash (rowData : list value) : string :=
  sha256Hex h (jsonText h (VArr rowData)).

(** The own property of an array named by a key: the element whose index
    prints as the key. *)
Fixpoint elemByKey {A} (l : list A) (i : Z) (k : string) : option A :=
  match l with
  | [] => None
  | x :: t => if String.eqb (Z_to_string i) k then Some x else elemByKey t (i + 1)%Z k
  end.

(** The [length] of an array or a text, as a number. *)
Definition lengthOf (n : nat) : value :=
  VNum (PrimFloat.of_uint63 (Uint63.of_Z (Z.of_nat n))).

(** [o[key]] on own properties: the fields of an object, the elements and
    the length of an array, the characters and the length of a text.  The
    members that a value inherits (the methods of its prototype) are
    functions, which are outside the model: they read as [undefined]. *)
Definition getKey (o : value) (key : value) : value :=
  match o with
  | VObj fs => lookup_field (toStr key) fs
  | VArr items =>
      if String.eqb (toStr key) "length" then lengthOf (List.length items)
      else match elemByKey items 0%Z (toStr key) with
           | Some v => v
           | None => VUndefined
           end
  | VStr s =>
      if String.eqb (toStr key) "length" then lengthOf (String.length s)
      else match elemByKey (list_ascii_of_string s) 0%Z (toStr key) with
           | Some c => VStr (String c EmptyString)
           | None => VUndefined
           end
  | _ => VUndefined
  end.

End WithHost.
End Runtime.

(* ===================================================================== *)
(** ** [DataTransformer] (sheets-to-hubspot.ts, second class)            *)
(* ===================================================================== *)

Module DataTransformer.
Import JS Runtime.

(** The labels of the two [switch (transformType)] statements. *)
Inductive transform : Type :=
| DATE_FORMAT | NUMBER_FORMAT | CURRENCY_FORMAT | BOOLEAN_TO_TEXT
| ENUM_TO_TEXT | CONCATENATE | SPLIT | UPPERCASE | LOWERCASE | TITLE_CASE
| TRIM | PHONE_FORMAT | EMAIL_NORMALIZE | JSON_TO_STRING | ARRAY_TO_STRING
| CUSTOM_FUNCTION.

Definition transformName (t : transform) : string :=
  match t with
  | DATE_FORMAT => "DATE_FORMAT"
  | NUMBER_FORMAT => "NUMBER_FORMAT"
  | CURRENCY_FORMAT => "CURRENCY_FORMAT"
  | BOOLEAN_TO_TEXT => "BOOLEAN_TO_TEXT"
  | ENUM_TO_TEXT => "ENUM_TO_TEXT"
  | CONCATENATE => "CONCATENATE"
  | SPLIT => "SPLIT"
  | UPPERCASE => "UPPERCASE"
  | LOWERCASE => "LOWERCASE"
  | TITLE_CASE => "TITLE_CASE"
  | TRIM => "TRIM"
  | PHONE_FORMAT => "PHONE_FORMAT"
  | EMAIL_NORMALIZE => "EMAIL_NORMALIZE"
  | JSON_TO_STRING => "JSON_TO_STRING"
  | ARRAY_TO_STRING => "ARRAY_TO_STRING"
  | CUSTOM_FUNCTION => "CUSTOM_FUNCTION"
  end.

Definition recognized : list transform :=
  [DATE_FORMAT; NUMBER_FORMAT; CURRENCY_FORMAT; BOOLEAN_TO_TEXT; ENUM_TO_TEXT;
   CONCATENATE; SPLIT; UPPERCASE; LOWERCASE; TITLE_CASE; TRIM; PHONE_FORMAT;
   EMAIL_NORMALIZE; JSON_TO_STRING; ARRAY_TO_STRING; CUSTOM_FUNCTION].

(** Which [case] label a [transformType] string selects, if any. *)
Definition caseOf (transformType : string) : option transform :=
  find (fun t => String.eqb transformType (transformName t)) recognized.

Section WithHost.
Variable h : Host.

(** [formatDate(value, format)] *)
Definition formatDate (value format : value) : string :=
  if negb (truthy value) then "" else
  let t := dateTime h value in
  if PrimFloat.is_nan t then toStr h value else
  let month := padStart0 2 (numToString h (PrimFloat.add (dateMonth h t) 1%float)) in
  let day := padStart0 2 (numToString h (dateDay h t)) in
  let year := numToString h (dateYear h t) in
  if strictEq format (VStr "MM/DD/YYYY") then month +++ "/" +++ day +++ "/" +++ year
  else if strictEq format (VStr "DD/MM/YYYY") then day +++ "/" +++ month +++ "/" +++ year
  else if strictEq format (VStr "YYYY-MM-DD") then year +++ "-" +++ month +++ "-" +++ day
  else toLocaleDateString h t.

(** [parseDate(value, format)]: the time value of the date parsed, with no
    check that the date is valid. *)
Definition parseDate (value format : value) : float :=
  if negb (truthy value) then 0%float else
  let dateStr := toStr h value in
  if strictEq format (VStr "MM/DD/YYYY") then
    match split "/" dateStr with
    | [p0; p1; p2] =>
        dateOfParts h (parseInt h p2)
                      (PrimFloat.sub (parseInt h p0) 1%float)
                      (parseInt h p1)
    | _ => dateTime h (VStr dateStr)
    end
  else dateTime h (VStr dateStr).

(** [formatNumber(value, config)] *)
Definition formatNumber (value config : value) : outcome string :=
  let num := parseFloat h (toStr h value) in
  if PrimFloat.is_nan num then Ok (toStr h value) else
  match getOpt config "decimals" with
  | VUndefined =>
      if truthy (getOpt config "thousands") then Ok (numToLocaleString h num)
      else Ok (numToString h num)
  | decimals => toFixed h num decimals
  end.

Definition is_numeric_char (c : ascii) : bool :=
  is_digit c || (code c =? 46) || (code c =? 45).

(** [parseFloat(str) || 0] *)
Definition parseFloatOrZero (str : string) : value :=
  or_else (VNum (parseFloat h str)) (VNum 0%float).

(** [parseNumber(value)] *)
Definition parseNumber (value : value) : JS.value :=
  match value with
  | VNum _ => value
  | _ => parseFloatOrZero (filter_chars is_numeric_char (toStr h value))
  end.

(** [formatCurrency(value, currency)] *)
Definition formatCurrency (value currency : value) : outcome string :=
  let num := parseFloat h (toStr h value) in
  if PrimFloat.is_nan num then Ok (toStr h value)
  else intlCurrency h currency num.

(** [parseCurrency(value)] *)
Definition parseCurrency (value : value) : JS.value :=
  match value with
  | VNum _ => value
  | _ => parseFloatOrZero (filter_chars is_numeric_char (toStr h value))
  end.

(** [booleanToText(value, config)] *)
Definition booleanToText (value config : value) : JS.value :=
  let isTrue :=
    strictEq value (VBool true) || strictEq value (VStr "true")
    || strictEq value (VNum 1%float) in
  if truthy (getOpt config "trueValue") && truthy (getOpt config "falseValue")
  then (if isTrue then getOpt config "trueValue" else getOpt config "falseValue")
  else (if isTrue then VStr "Yes" else VStr "No").

(** [textToBoolean(value, config)] *)
Definition textToBoolean (value config : value) : bool :=
  if truthy (getOpt config "trueValue")
  then strictEq value (getOpt config "trueValue")
  else
    let str := toLowerCase (toStr h value) in
    String.eqb str "yes" || String.eqb str "true" || String.eqb str "1".

(** [enumToText(value, mapping)] *)
Definition enumToText (value mapping : value) : JS.value :=
  if negb (truthy mapping) then VStr (toStr h value)
  else or_else (getKey h mapping value) value.

(** [textToEnum(value, reverseMapping)] *)
Definition textToEnum (value reverseMapping : value) : JS.value :=
  if negb (truthy reverseMapping) then VStr (toStr h value)
  else or_else (getKey h reverseMapping value) value.

(** [value[field] || ''] inside [concatenateFields]: reading a member of
    [null] or [undefined] is a [TypeError]. *)
Definition fieldOrEmpty (value field : value) : outcome JS.value :=
  if is_nullish value
  then Throw ("Cannot read properties of " +++ toStr h value)
  else Ok (or_else (getKey h value field) (VStr "")).

Fixpoint mapOutcome {A B} (f : A -> outcome B) (l : list A) : outcome (list B) :=
  match l with
  | [] => Ok []
  | x :: t =>
      obind (f x) (fun y => obind (mapOutcome f t) (fun ys => Ok (y :: ys)))
  end.

(** [concatenateFields(value, config)] *)
Definition concatenateFields (value config : value) : outcome string :=
  match getOpt config "fields" with
  | VArr fields =>
      obind (mapOutcome (fieldOrEmpty value) fields) (fun parts =>
        Ok (arrJoin h (toStr h (or_else (getOpt config "separator") (VStr " "))) parts))
  | _ => Ok (toStr h value)
  end.

(** [parts[config.index]] on the array of parts: an element, the [length],
    or nothing. *)
Inductive partAt : Type :=
| PartStr (s : string)
| PartLength
| PartNone.

Definition partOf (parts : list string) (index : value) : partAt :=
  match elemByKey parts 0%Z (toStr h index) with
  | Some s => PartStr s
  | None => if String.eqb (toStr h index) "length" then PartLength else PartNone
  end.

Definition firstOrEmpty (parts : list string) : string :=
  match parts with
  | [] => ""
  | p :: _ => p
  end.

(** [splitField(value, config)] *)
Definition splitField (value config : value) : outcome string :=
  let str := toStr h value in
  let parts := split (toStr h (or_else (getOpt config "separator") (VStr ","))) str in
  match getOpt config "index" with
  | VUndefined => Ok (firstOrEmpty parts)
  | index =>
      match partOf parts index with
      | PartStr s => if String.eqb s "" then Ok (firstOrEmpty parts) else Ok (trim s)
      | PartLength =>
          match parts with
          | [] => Ok (firstOrEmpty parts)
          | _ => Throw "parts[config.index].trim is not a function"
          end
      | PartNone => Ok (firstOrEmpty parts)
      end
  end.

(** [joinField(value, config)] *)
Definition joinField (value config : value) : string :=
  match value with
  | VArr items => arrJoin h (toStr h (or_else (getOpt config "separator") (VStr ","))) items
  | _ => toStr h value
  end.

(** [toTitleCase(str)]: every match of [\w\S*] gets its first character
    in upper case and the rest in lower case.  [inMatch] says whether the
    scan is inside a match. *)
Fixpoint titleCase_go (s : string) (inMatch : bool) : string :=
  match s with
  | EmptyString => EmptyString
  | String c s' =>
      if inMatch then
        if is_ws c then String c (titleCase_go s' false)
        else String (lower_char c) (titleCase_go s' true)
      else
        if is_word c then String (upper_char c) (titleCase_go s' true)
        else String c (titleCase_go s' false)
  end.

Definition toTitleCase (str : string) : string := titleCase_go str false.

(** [formatPhone(value, format)] *)
Definition formatPhone (value format : value) : string :=
  let digits := filter_chars is_digit (toStr h value) in
  if strictEq format (VStr "US") && (String.length digits =? 10)
  then "(" +++ slice 0 3 digits +++ ") " +++ slice 3 6 digits +++ "-" +++ sliceFrom 6 digits
  else digits.

(** [parsePhone(value)] *)
Definition parsePhone (value : value) : string :=
  filter_chars is_digit (toStr h value).

(** [applyCustomFunction(value, functionStr)] *)
Definition applyCustomFunction (value functionStr : value) : JS.value :=
  if negb (truthy functionStr) then value
  else match runCustom h functionStr value with
       | Ok r => r
       | Throw _ => value
       end.

Definition okStr (o : outcome string) : outcome value :=
  obind o (fun s => Ok (VStr s)).

(** [applyTransformation(value, transformType, config)]: HubSpot to Sheets. *)
Definition applyTransformation (value : value) (transformType : string)
    (config : JS.value) : outcome JS.value :=
  match caseOf transformType with
  | Some DATE_FORMAT =>
      Ok (VStr (formatDate value (or_else (getOpt config "format") (VStr "MM/DD/YYYY"))))
  | Some NUMBER_FORMAT => okStr (formatNumber value config)
  | Some CURRENCY_FORMAT =>
      okStr (formatCurrency value (or_else (getOpt config "currency") (VStr "USD")))
  | Some BOOLEAN_TO_TEXT => Ok (booleanToText value config)
  | Some ENUM_TO_TEXT => Ok (enumToText value (getOpt config "mapping"))
  | Some CONCATENATE => okStr (concatenateFields value config)
  | Some SPLIT => okStr (splitField value config)
  | Some UPPERCASE => Ok (VStr (toUpperCase (toStr h value)))
  | Some LOWERCASE => Ok (VStr (toLowerCase (toStr h value)))
  | Some TITLE_CASE => Ok (VStr (toTitleCase (toStr h value)))
  | Some TRIM => Ok (VStr (trim (toStr h value)))
  | Some PHONE_FORMAT =>
      Ok (VStr (formatPhone value (or_else (getOpt config "format") (VStr "US"))))
  | Some EMAIL_NORMALIZE => Ok (VStr (trim (toLowerCase (toStr h value))))
  | Some JSON_TO_STRING => Ok (jsonStringify h value)
  | Some ARRAY_TO_STRING =>
      match value with
      | VArr items =>
          Ok (VStr (arrJoin h (toStr h (or_else (getOpt config "separator") (VStr ", "))) items))
      | _ => Ok value
      end
  | Some CUSTOM_FUNCTION => Ok (applyCustomFunction value (getOpt config "function"))
  | None => Ok value
  end.

(** [applyReverseTransformation(value, transformType, config)]: Sheets to
    HubSpot. *)
Definition applyReverseTransformation (value : value) (transformType : string)
    (config : JS.value) : outcome JS.value :=
  match caseOf transformType with
  | Some DATE_FORMAT =>
      Ok (VNum (parseDate value (or_else (getOpt config "format") (VStr "MM/DD/YYYY"))))
  | Some NUMBER_FORMAT => Ok (parseNumber value)
  | Some CURRENCY_FORMAT => Ok (parseCurrency value)
  | Some BOOLEAN_TO_TEXT => Ok (VBool (textToBoolean value config))
  | Some ENUM_TO_TEXT => Ok (textToEnum value (getOpt config "reverseMapping"))
  | Some CONCATENATE => Ok value
  | Some SPLIT => Ok (VStr (joinField value config))
  | Some UPPERCASE | Some LOWERCASE | Some TITLE_CASE | Some TRIM => Ok value
  | Some PHONE_FORMAT => Ok (VStr (parsePhone value))
  | Some EMAIL_NORMALIZE => Ok (VStr (trim (toLowerCase (toStr h value))))
  | Some JSON_TO_STRING =>
      match jsonParse h (toStr h value) with
      | Ok r => Ok r
      | Throw _ => Ok value
      end
  | Some ARRAY_TO_STRING =>
      Ok (VArr (map VStr (split (toStr h (or_else (getOpt config "separator") (VStr ", ")))
                                (toStr h value))))
  | Some CUSTOM_FUNCTION =>
      Ok (applyCustomFunction value (getOpt config "reverseFunction"))
  | None => Ok value
  end.

End WithHost.
End DataTransformer.

(* ===================================================================== *)
(** ** External calls: the CRM, the spreadsheet service, the database    *)
(* ===================================================================== *)

Module Effects.
Import JS.

(** [SheetData] as [GoogleSheetsClient.readSheet] returns it (the fields
    the sync code reads). *)
Record SheetData : Type := {
  headers : list string;
  rows : list (list value)
}.

(** A row of the table [sheetSyncState]. *)
Record SyncState : Type := {
  sheetRowNumber : Z;
  syncHash : string
}.

(** The [data] of [prisma.syncJob.update]: [status], [recordsProcessed],
    [recordsCreated], [recordsUpdated], [recordsFailed], [errorMessage];
    [completedAt] is left out. *)
Record JobUpdate : Type := {
  jobStatus : string;
  jobProcessed : option nat;
  jobCreated : option nat;
  jobUpdated : option nat;
  jobFailed : option nat;
  errorMessage : option string
}.

(** One entry of the [updates] of [GoogleSheetsClient.updateCells]. *)
Record CellUpdate : Type := {
  range : string;
  values : list (list value)
}.

(** One awaited call on a collaborator, with its arguments. *)
Inductive event : Type :=
| EJobCreate (syncConfigId : string) (status : string)
| EJobUpdate (jobId : string) (data : JobUpdate)
| EReadSheet (spreadsheetId sheetName : string)
| ESearch (entityType propertyName : string) (v : value)
| ECreate (entityType : string) (properties : list (string * value))
| EUpdate (entityType : string) (recordId : value) (properties : list (string * value))
| ELog (syncJobId operation entityType : string) (entityId : value)
       (status : string) (message : option string)
| EStateUpsert (spreadsheetId : string) (hubspotEntityId : value)
               (sheetRowNumber : Z) (syncHash : string)
| EStateFindMany (spreadsheetId : string)
| EGetPage (entityType : string) (after : value) (properties : list string)
| EClearRange (spreadsheetId sheetName range : string)
| EWriteSheet (spreadsheetId sheetName : string) (data : list (list value)) (startCell : string)
| EAppendToSheet (spreadsheetId sheetName : string) (data : list (list value))
| EUpdateCells (spreadsheetId : string) (updates : list CellUpdate).

Definition history : Type := list event.

(** The collaborators: each call is answered from the calls made before
    it and its own arguments, with a value or with an exception. *)
Record World : Type := {
  jobCreate : history -> string -> outcome string;
  jobUpdate : history -> string -> JobUpdate -> outcome unit;
  readSheet : history -> string -> string -> outcome SheetData;
  search : history -> string -> string -> value -> outcome value;
  create : history -> string -> list (string * value) -> outcome value;
  update : history -> string -> value -> list (string * value) -> outcome value;
  logCreate : history -> event -> outcome unit;
  stateUpsert : history -> event -> outcome unit;
  stateFindMany : history -> string -> outcome (list SyncState);
  getPage : history -> string -> value -> list string -> outcome value;
  clearRange : history -> string -> string -> string -> outcome unit;
  writeSheet : history -> string -> string -> list (list value) -> string -> outcome unit;
  appendToSheet : history -> string -> string -> list (list value) -> outcome unit;
  updateCells : history -> string -> list CellUpdate -> outcome unit
}.

(** A computation over a mutable state [S] (the [result] object of a run)
    and the history of external calls.  The state survives an exception,
    as a mutated object does. *)
Definition M (S A : Type) : Type := S -> history -> outcome A * S * history.

Definition ret {S A} (a : A) : M S A := fun s hs => (Ok a, s, hs).

Definition throw {S A} (msg : string) : M S A := fun s hs => (Throw msg, s, hs).

Definition bind {S A B} (m : M S A) (k : A -> M S B) : M S B :=
  fun s hs =>
    match m s hs with
    | (Ok a, s', hs') => k a s' hs'
    | (Throw msg, s', hs') => (Throw msg, s', hs')
    end.

(** [try { m } catch (error) { handler(error.message) }] *)
Definition tryCatch {S A} (m : M S A) (handler : string -> M S A) : M S A :=
  fun s hs =>
    match m s hs with
    | (Ok a, s', hs') => (Ok a, s', hs')
    | (Throw msg, s', hs') => handler msg s' hs'
    end.

Definition get {S} : M S S := fun s hs => (Ok s, s, hs).

Definition modify {S} (f : S -> S) : M S unit := fun s hs => (Ok tt, f s, hs).

Definition lift {S A} (o : outcome A) : M S A := fun s hs => (o, s, hs).

(** An external call: the world answers from the history, and the call
    joins the history whatever the answer. *)
Definition call {S A} (e : event) (answer : history -> outcome A) : M S A :=
  fun s hs => (answer hs, s, hs ++ [e]).

Notation "x <- m ;; k" := (bind m (fun x => k))
  (at level 61, m at next level, right associativity).
Notation "m ;;; k" := (bind m (fun _ => k))
  (at level 61, right associativity).

End Effects.

(* ===================================================================== *)
(** ** [Map]: insertion-ordered, one entry per key                       *)
(* ===================================================================== *)

Module JSMap.
Section Ops.
Context {K V : Type}.
Variable eqb : K -> K -> bool.

(** [m.set(k, v)]: an existing key keeps its place. *)
Fixpoint set (k : K) (v : V) (m : list (K * V)) : list (K * V) :=
  match m with
  | [] => [(k, v)]
  | (k', v') :: t => if eqb k k' then (k, v) :: t else (k', v') :: set k v t
  end.

(** [m.get(k)]: [None] is [undefined]. *)
Fixpoint get (k : K) (m : list (K * V)) : option V :=
  match m with
  | [] => None
  | (k', v') :: t => if eqb k k' then Some v' else get k t
  end.

(** [m.delete(k)] *)
Fixpoint delete (k : K) (m : list (K * V)) : list (K * V) :=
  match m with
  | [] => []
  | (k', v') :: t => if eqb k k' then delete k t else (k', v') :: delete k t
  end.

Definition keys (m : list (K * V)) : list K := map fst m.

End Ops.
End JSMap.

(* ===================================================================== *)
(** ** [SheetsToHubSpotSync] (sheets-to-hubspot.ts, first class)         *)
(* ===================================================================== *)

Module SheetsToHubSpot.
Import JS Runtime Effects.

(** One entry of [SheetsToHubSpotSyncConfig.fieldMappings]. *)
Record FieldMapping : Type := {
  sheetColumn : string;
  columnIndex : Z;
  hubspotProperty : string;
  isRequired : bool;
  transformType : option string
}.

Record SheetsToHubSpotSyncConfig : Type := {
  syncConfigId : string;
  userId : string;
  spreadsheetId : string;
  sheetName : string;
  hubspotEntityType : string;
  fieldMappings : list FieldMapping;
  identifierColumn : string;
  updateExisting : bool;
  createNew : bool;
  skipInvalid : bool
}.

Record RowError : Type := {
  row : Z;
  data : list value;
  error : string
}.

Record SheetsSyncResult : Type := {
  success : bool;
  rowsProcessed : nat;
  recordsCreated : nat;
  recordsUpdated : nat;
  recordsSkipped : nat;
  errors : list RowError
}.

Definition initialResult : SheetsSyncResult :=
  {| success := false; rowsProcessed := 0; recordsCreated := 0;
     recordsUpdated := 0; recordsSkipped := 0; errors := [] |}.

(** The [type] of an entry of [detectChanges]. *)
Inductive changeKind : Type := New | Modified | Deleted.

(** An entry [{ row, type }] of [detectChanges]. *)
Record Change : Type := {
  changeRow : Z;
  changeType : changeKind
}.

(** The mutations of [result]. *)
Definition incSkipped (r : SheetsSyncResult) : SheetsSyncResult :=
  {| success := success r; rowsProcessed := rowsProcessed r;
     recordsCreated := recordsCreated r; recordsUpdated := recordsUpdated r;
     recordsSkipped := S (recordsSkipped r); errors := errors r |}.

Definition incUpdated (r : SheetsSyncResult) : SheetsSyncResult :=
  {| success := success r; rowsProcessed := rowsProcessed r;
     recordsCreated := recordsCreated r; recordsUpdated := S (recordsUpdated r);
     recordsSkipped := recordsSkipped r; errors := errors r |}.

Definition incCreated (r : SheetsSyncResult) : SheetsSyncResult :=
  {| success := success r; rowsProcessed := rowsProcessed r;
     recordsCreated := S (recordsCreated r); recordsUpdated := recordsUpdated r;
     recordsSkipped := recordsSkipped r; errors := errors r |}.

Definition incProcessed (r : SheetsSyncResult) : SheetsSyncResult :=
  {| success := success r; rowsProcessed := S (rowsProcessed r);
     recordsCreated := recordsCreated r; recordsUpdated := recordsUpdated r;
     recordsSkipped := recordsSkipped r; errors := errors r |}.

Definition pushError (e : RowError) (r : SheetsSyncResult) : SheetsSyncResult :=
  {| success := success r; rowsProcessed := rowsProcessed r;
     recordsCreated := recordsCreated r; recordsUpdated := recordsUpdated r;
     recordsSkipped := recordsSkipped r; errors := errors r ++ [e] |}.

Definition setSuccess (r : SheetsSyncResult) : SheetsSyncResult :=
  {| success := match errors r with [] => true | _ => false end;
     rowsProcessed := rowsProcessed r;
     recordsCreated := recordsCreated r; recordsUpdated := recordsUpdated r;
     recordsSkipped := recordsSkipped r; errors := errors r |}.

(** [validateHeaders(headers, fieldMappings)] *)
Fixpoint validateHeaders (headers : list string) (mappings : list FieldMapping)
  : outcome unit :=
  match mappings with
  | [] => Ok tt
  | m :: rest =>
      if includes headers (sheetColumn m) then validateHeaders headers rest
      else Throw ("Column " +++ dq +++ sheetColumn m +++ dq +++ " not found in sheet")
  end.

(** [properties[k] = v] on an object. *)
Definition setField (k : string) (v : value) (fs : list (string * value))
  : list (string * value) := JSMap.set String.eqb k v fs.

Section WithHostAndWorld.
Variable h : Host.
Variable W : World.

(** [isEmptyRow(row)] *)
Definition isEmptyRow (row : list value) : bool :=
  forallb (fun cell => negb (truthy cell) || String.eqb (trim (toStr h cell)) "") row.

(** The regular expression [[^0-9.-]] removes all but these. *)
Definition is_numeric_char (c : ascii) : bool :=
  is_digit c || (code c =? 46) || (code c =? 45).

(** [applyTransformation(value, transformType, propertyName)] *)
Definition applyTransformation (value : value) (transformType : option string)
  : JS.value :=
  match transformType with
  | None => value
  | Some t =>
      if String.eqb t "" then value
      else if String.eqb t "DATE_TO_TIMESTAMP" then
        let time := dateTime h value in
        if PrimFloat.is_nan time then value else VNum time
      else if String.eqb t "STRING_TO_NUMBER" then
        or_else (VNum (parseFloat h (filter_chars is_numeric_char (toStr h value))))
                (VNum 0%float)
      else if String.eqb t "BOOLEAN_TO_STRING" then
        if String.eqb (toLowerCase (toStr h value)) "true" then VStr "true" else VStr "false"
      else if String.eqb t "TRIM" then VStr (trim (toStr h value))
      else if String.eqb t "LOWERCASE" then VStr (toLowerCase (toStr h value))
      else if String.eqb t "UPPERCASE" then VStr (toUpperCase (toStr h value))
      else if String.eqb t "EMAIL_NORMALIZE" then VStr (trim (toLowerCase (toStr h value)))
      else if String.eqb t "PHONE_FORMAT" then VStr (filter_chars is_digit (toStr h value))
      else value
  end.

(** The cells that [transformRowToHubSpot] maps: neither [null], nor
    [undefined], nor the empty string. *)
Definition has_content (v : value) : bool :=
  match v with
  | VUndefined | VNull => false
  | VStr s => negb (String.eqb s "")
  | _ => true
  end.

(** [transformRowToHubSpot(row, fieldMappings)], from the properties
    collected so far. *)
Fixpoint transformRow_from (properties : list (string * value)) (row : list value)
    (mappings : list FieldMapping) : list (string * value) :=
  match mappings with
  | [] => properties
  | m :: rest =>
      let value := nthZ row (columnIndex m) in
      if has_content value
      then transformRow_from
             (setField (hubspotProperty m) (applyTransformation value (transformType m))
                       properties)
             row rest
      else transformRow_from properties row rest
  end.

Definition transformRowToHubSpot (row : list value) (mappings : list FieldMapping)
  : list (string * value) := transformRow_from [] row mappings.

(** [validateRequiredFields(data, fieldMappings).missingFields]: the test
    [!data[mapping.hubspotProperty]] also finds what [data] inherits. *)
Fixpoint missingFields (data : list (string * value)) (mappings : list FieldMapping)
  : list string :=
  match mappings with
  | [] => []
  | m :: rest =>
      if isRequired m && negb (truthyAt (hubspotProperty m) data)
      then sheetColumn m :: missingFields data rest
      else missingFields data rest
  end.

(** [validateRequiredFields(data, fieldMappings).valid] *)
Definition valid (data : list (string * value)) (mappings : list FieldMapping) : bool :=
  match missingFields data mappings with
  | [] => true
  | _ => false
  end.

(** [searchResults?.results?.[0]] *)
Definition firstResult (searchResults : value) : value :=
  match getOpt searchResults "results" with
  | VArr (x :: _) => x
  | VObj fs => lookup_field "0" fs
  | VStr (String c _) => VStr (String c EmptyString)
  | _ => VUndefined
  end.

Definition doSearch {S} (entityType propertyName : string) (v : value) : M S value :=
  call (ESearch entityType propertyName v)
       (fun hs => search W hs entityType propertyName v).

(** The [switch (entityType)] of [findHubSpotRecord]: what is left in
    [searchResults]. *)
Definition searchFor {S} (entityType identifierProperty : string)
    (identifierValue : value) : M S value :=
  if String.eqb entityType "contacts" then
    if String.eqb identifierProperty "email"
    then doSearch "contacts" "email" identifierValue
    else ret VUndefined
  else if String.eqb entityType "companies" then
    doSearch "companies" identifierProperty identifierValue
  else if String.eqb entityType "deals" then
    doSearch "deals" identifierProperty identifierValue
  else ret VUndefined.

(** [findHubSpotRecord(entityType, identifierProperty, identifierValue)] *)
Definition findHubSpotRecord {S} (entityType identifierProperty : string)
    (identifierValue : value) : M S value :=
  tryCatch
    (searchResults <- searchFor entityType identifierProperty identifierValue ;;
     ret (or_else (firstResult searchResults) VNull))
    (fun _ => ret VNull).

Definition supported (entityType : string) : bool :=
  String.eqb entityType "contacts" || String.eqb entityType "companies"
  || String.eqb entityType "deals".

(** [createHubSpotRecord(entityType, properties)] *)
Definition createHubSpotRecord {S} (entityType : string)
    (properties : list (string * value)) : M S value :=
  if supported entityType
  then call (ECreate entityType properties) (fun hs => create W hs entityType properties)
  else throw ("Unsupported entity type: " +++ entityType).

(** [updateHubSpotRecord(entityType, recordId, properties)] *)
Definition updateHubSpotRecord {S} (entityType : string) (recordId : value)
    (properties : list (string * value)) : M S value :=
  if supported entityType
  then call (EUpdate entityType recordId properties)
            (fun hs => update W hs entityType recordId properties)
  else throw ("Unsupported entity type: " +++ entityType).

(** [logSyncOperation(syncJobId, operation, entityType, entityId, status, message)] *)
Definition logSyncOperation {S} (syncJobId operation entityType : string)
    (entityId : value) (status : string) (message : option string) : M S unit :=
  let e := ELog syncJobId operation (toUpperCase entityType) entityId status message in
  call e (fun hs => logCreate W hs e).

(** [updateSyncState(spreadsheetId, hubspotEntityId, sheetRowNumber)]: the
    hash is stored empty, to be calculated on the next sync. *)
Definition updateSyncState {S} (spreadsheetId : string) (hubspotEntityId : value)
    (sheetRowNumber : Z) : M S unit :=
  let e := EStateUpsert spreadsheetId hubspotEntityId sheetRowNumber "" in
  call e (fun hs => stateUpsert W hs e).

Definition missingMessage (missing : list string) : string :=
  "Missing required fields: " +++ join ", " missing.

(** The branch [if (existingRecord)] of the row body. *)
Definition whenFound (config : SheetsToHubSpotSyncConfig) (jobId : string)
    (existingRecord : value) (hubspotData : list (string * value))
  : M SheetsSyncResult unit :=
  if updateExisting config then
    updateHubSpotRecord (hubspotEntityType config)
      (getOpt existingRecord "id") hubspotData ;;;
    modify incUpdated ;;;
    logSyncOperation jobId "UPDATE" (hubspotEntityType config)
      (getOpt existingRecord "id") "SUCCESS" None
  else modify incSkipped.

(** The branch [else] of [if (existingRecord)]. *)
Definition whenNotFound (config : SheetsToHubSpotSyncConfig) (jobId : string)
    (rowNumber : Z) (hubspotData : list (string * value))
  : M SheetsSyncResult unit :=
  if createNew config then
    newRecord <- createHubSpotRecord (hubspotEntityType config) hubspotData ;;
    modify incCreated ;;;
    newId <- lift (getStrict newRecord "id") ;;
    logSyncOperation jobId "CREATE" (hubspotEntityType config) newId "SUCCESS" None ;;;
    updateSyncState (spreadsheetId config) newId rowNumber
  else modify incSkipped.

(** The body of the row-level [try] of [executeSync]. *)
Definition rowBody (config : SheetsToHubSpotSyncConfig) (jobId : string)
    (identifierIndex : Z) (rowNumber : Z) (row : list value)
  : M SheetsSyncResult unit :=
  if isEmptyRow row then modify incSkipped
  else
    let hubspotData := transformRowToHubSpot row (fieldMappings config) in
    let missing := missingFields hubspotData (fieldMappings config) in
    if negb (valid hubspotData (fieldMappings config)) then
      if skipInvalid config then
        modify incSkipped ;;;
        modify (pushError {| row := rowNumber; data := row;
                             error := missingMessage missing |})
      else
        throw ("Row " +++ Z_to_string rowNumber +++ ": " +++ missingMessage missing)
    else
      let identifier := nthZ row identifierIndex in
      existingRecord <- findHubSpotRecord (hubspotEntityType config)
                          (identifierColumn config) identifier ;;
      (if truthy existingRecord
       then whenFound config jobId existingRecord hubspotData
       else whenNotFound config jobId rowNumber hubspotData) ;;;
      modify incProcessed.

(** The row-level [catch]. *)
Definition rowCatch (config : SheetsToHubSpotSyncConfig) (jobId : string)
    (rowNumber : Z) (row : list value) (message : string)
  : M SheetsSyncResult unit :=
  modify (pushError {| row := rowNumber; data := row; error := message |}) ;;;
  logSyncOperation jobId "SKIP" (hubspotEntityType config) (VStr "") "ERROR" (Some message).

(** One turn of the [for] loop. *)
Definition processRow (config : SheetsToHubSpotSyncConfig) (jobId : string)
    (identifierIndex : Z) (rowIndex : Z) (row : list value)
  : M SheetsSyncResult unit :=
  let rowNumber := (rowIndex + 2)%Z in
  tryCatch (rowBody config jobId identifierIndex rowNumber row)
           (rowCatch config jobId rowNumber row).

(** The [for] loop over [sheetData.rows], from [rowIndex] on. *)
Fixpoint rowLoop (config : SheetsToHubSpotSyncConfig) (jobId : string)
    (identifierIndex : Z) (rowIndex : Z) (rows : list (list value))
  : M SheetsSyncResult unit :=
  match rows with
  | [] => ret tt
  | row :: rest =>
      processRow config jobId identifierIndex rowIndex row ;;;
      rowLoop config jobId identifierIndex (rowIndex + 1)%Z rest
  end.

(** The [data] of the closing [prisma.syncJob.update]. *)
Definition finalJobUpdate (r : SheetsSyncResult) : JobUpdate :=
  {| jobStatus := if success r then "COMPLETED" else "FAILED";
     jobProcessed := Some (rowsProcessed r);
     jobCreated := Some (recordsCreated r);
     jobUpdated := Some (recordsUpdated r);
     jobFailed := Some (List.length (errors r));
     errorMessage :=
       match errors r with
       | [] => None
       | _ => Some (Z_to_string (Z.of_nat (List.length (errors r)))
                    +++ " records failed to sync")
       end |}.

Definition failedJobUpdate (message : string) : JobUpdate :=
  {| jobStatus := "FAILED"; jobProcessed := None; jobCreated := None;
     jobUpdated := None; jobFailed := None; errorMessage := Some message |}.

Definition doJobUpdate {S} (jobId : string) (d : JobUpdate) : M S unit :=
  call (EJobUpdate jobId d) (fun hs => jobUpdate W hs jobId d).

(** The outer [try] of [executeSync]. *)
Definition syncBody (config : SheetsToHubSpotSyncConfig) (jobId : string)
  : M SheetsSyncResult unit :=
  sheetData <- call (EReadSheet (spreadsheetId config) (sheetName config))
                 (fun hs => readSheet W hs (spreadsheetId config) (sheetName config)) ;;
  lift (validateHeaders (headers sheetData) (fieldMappings config)) ;;;
  let identifierIndex := indexOf (headers sheetData) (identifierColumn config) in
  (if (identifierIndex =? -1)%Z
   then throw ("Identifier column " +++ dq +++ identifierColumn config +++ dq +++ " not found")
   else ret tt) ;;;
  rowLoop config jobId identifierIndex 0%Z (rows sheetData) ;;;
  modify setSuccess ;;;
  r <- get ;;
  doJobUpdate jobId (finalJobUpdate r).

(** [executeSync(config)] on its [result] object. *)
Definition executeSync_on (config : SheetsToHubSpotSyncConfig)
  : M SheetsSyncResult SheetsSyncResult :=
  jobId <- call (EJobCreate (syncConfigId config) "IN_PROGRESS")
             (fun hs => jobCreate W hs (syncConfigId config)) ;;
  tryCatch (syncBody config jobId)
           (fun message => doJobUpdate jobId (failedJobUpdate message) ;;; throw message) ;;;
  get.

(** [executeSync(config)]: the result returned or the exception raised,
    and the calls made. *)
Definition executeSync (config : SheetsToHubSpotSyncConfig) (hs : history)
  : outcome SheetsSyncResult * history :=
  let '(o, _, hs') := executeSync_on config initialResult hs in (o, hs').

(** [stateMap]: one [set] per stored state, in the order read. *)
Definition stateMapOf (syncStates : list SyncState) : list (Z * string) :=
  fold_left (fun m st => JSMap.set Z.eqb (sheetRowNumber st) (syncHash st) m)
            syncStates [].

(** What one current row adds to [changes]: [!existingHash] holds for a
    missing entry and for an empty stored hash. *)
Definition classify (rowNumber : Z) (existingHash : option string)
    (currentHash : string) : list Change :=
  match existingHash with
  | None => [{| changeRow := rowNumber; changeType := New |}]
  | Some e =>
      if String.eqb e "" then [{| changeRow := rowNumber; changeType := New |}]
      else if negb (String.eqb e currentHash)
      then [{| changeRow := rowNumber; changeType := Modified |}]
      else []
  end.

(** The [forEach] over [sheetData.rows], from [index] on: the working copy
    of the map and the changes collected. *)
Fixpoint scanRows (rows : list (list value)) (index : Z)
    (stateMap : list (Z * string)) (changes : list Change)
  : list (Z * string) * list Change :=
  match rows with
  | [] => (stateMap, changes)
  | r :: rest =>
      let rowNumber := (index + 2)%Z in
      let currentHash := calculateRowHash h r in
      let existingHash := JSMap.get Z.eqb rowNumber stateMap in
      scanRows rest (index + 1)%Z
               (JSMap.delete Z.eqb rowNumber stateMap)
               (changes ++ classify rowNumber existingHash currentHash)
  end.

(** The changes computed from the sheet rows and the stored states. *)
Definition changesOf (rows : list (list value)) (syncStates : list SyncState)
  : list Change :=
  let '(remaining, changes) := scanRows rows 0%Z (stateMapOf syncStates) [] in
  changes ++ map (fun rowNumber => {| changeRow := rowNumber; changeType := Deleted |})
                 (JSMap.keys remaining).

(** [detectChanges(spreadsheetId, sheetName)] *)
Definition detectChanges {S} (spreadsheetId sheetName : string) : M S (list Change) :=
  sheetData <- call (EReadSheet spreadsheetId sheetName)
                 (fun hs => readSheet W hs spreadsheetId sheetName) ;;
  syncStates <- call (EStateFindMany spreadsheetId)
                  (fun hs => stateFindMany W hs spreadsheetId) ;;
  ret (changesOf (rows sheetData) syncStates).

End WithHostAndWorld.
End SheetsToHubSpot.

(* ===================================================================== *)
(** ** [HubSpotToSheetsSync] (hubspot-to-sheets.ts)                      *)
(* ===================================================================== *)

Module HubSpotToSheets.
Import JS Runtime Effects.

(** One entry of [HubSpotToSheetsSyncConfig.fieldMappings]. *)
Record FieldMapping : Type := {
  hubspotProperty : string;
  sheetColumn : string;
  columnIndex : Z;
  transformType : option string
}.

Record HubSpotToSheetsSyncConfig : Type := {
  syncConfigId : string;
  userId : string;
  spreadsheetId : string;
  sheetName : string;
  hubspotEntityType : string;
  fieldMappings : list FieldMapping;
  syncMode : string;
  keyColumn : option string
}.

(** One entry of [SyncResult.errors]. *)
Record RecordError : Type := {
  record : value;
  error : string
}.

Record SyncResult : Type := {
  success : bool;
  recordsProcessed : nat;
  recordsCreated : nat;
  recordsUpdated : nat;
  recordsSkipped : nat;
  errors : list RecordError
}.

Definition initialResult : SyncResult :=
  {| success := false; recordsProcessed := 0; recordsCreated := 0;
     recordsUpdated := 0; recordsSkipped := 0; errors := [] |}.

Definition setCreated (n : nat) (r : SyncResult) : SyncResult :=
  {| success := success r; recordsProcessed := recordsProcessed r;
     recordsCreated := n; recordsUpdated := recordsUpdated r;
     recordsSkipped := recordsSkipped r; errors := errors r |}.

(** What [updateSheet] returns. *)
Record UpdateCounts : Type := {
  updated : nat;
  created : nat;
  skipped : nat
}.

Definition setCounts (c : UpdateCounts) (r : SyncResult) : SyncResult :=
  {| success := success r; recordsProcessed := recordsProcessed r;
     recordsCreated := created c; recordsUpdated := updated c;
     recordsSkipped := skipped c; errors := errors r |}.

(** [result.recordsProcessed = n; result.success = true] *)
Definition setDone (n : nat) (r : SyncResult) : SyncResult :=
  {| success := true; recordsProcessed := n;
     recordsCreated := recordsCreated r; recordsUpdated := recordsUpdated r;
     recordsSkipped := recordsSkipped r; errors := errors r |}.

Definition pushError (e : RecordError) (r : SyncResult) : SyncResult :=
  {| success := success r; recordsProcessed := recordsProcessed r;
     recordsCreated := recordsCreated r; recordsUpdated := recordsUpdated r;
     recordsSkipped := recordsSkipped r; errors := errors r ++ [e] |}.

(** [row[i] = v] on an array: inside, the element is replaced; beyond the
    end, the array grows and the gap reads as [undefined]; a negative index
    names no element. *)
Fixpoint arraySet_nat (l : list value) (i : nat) (v : value) : list value :=
  match i, l with
  | O, [] => [v]
  | O, _ :: t => v :: t
  | S k, [] => VUndefined :: arraySet_nat [] k v
  | S k, x :: t => x :: arraySet_nat t k v
  end.

Definition arraySet (l : list value) (i : Z) (v : value) : list value :=
  if (i <? 0)%Z then l else arraySet_nat l (Z.to_nat i) v.

(** [fieldMappings.sort((a, b) => a.columnIndex - b.columnIndex)]: stable,
    and in place, so the caller's array is sorted from then on. *)
Fixpoint insertMapping (m : FieldMapping) (sorted : list FieldMapping)
  : list FieldMapping :=
  match sorted with
  | [] => [m]
  | x :: t =>
      if (columnIndex m <=? columnIndex x)%Z then m :: x :: t
      else x :: insertMapping m t
  end.

Definition sortMappings (l : list FieldMapping) : list FieldMapping :=
  fold_right (fun m acc => insertMapping m acc) [] l.

(** [prepareHeaders(fieldMappings)] on the sorted mappings. *)
Definition prepareHeaders (sorted : list FieldMapping) : list string :=
  "HubSpot ID" :: map sheetColumn sorted.

(** The plan [updateSheet] builds before it writes. *)
Record Plan : Type := {
  updates : list CellUpdate;
  appends : list (list value);
  counts : UpdateCounts
}.

Definition emptyPlan : Plan :=
  {| updates := []; appends := [];
     counts := {| updated := 0; created := 0; skipped := 0 |} |}.

Definition planSkip (p : Plan) : Plan :=
  {| updates := updates p; appends := appends p;
     counts := {| updated := updated (counts p); created := created (counts p);
                  skipped := S (skipped (counts p)) |} |}.

Definition planUpdate (u : CellUpdate) (p : Plan) : Plan :=
  {| updates := updates p ++ [u]; appends := appends p;
     counts := {| updated := S (updated (counts p)); created := created (counts p);
                  skipped := skipped (counts p) |} |}.

Definition planAppend (row : list value) (p : Plan) : Plan :=
  {| updates := updates p; appends := appends p ++ [row];
     counts := {| updated := updated (counts p); created := S (created (counts p));
                  skipped := skipped (counts p) |} |}.

Section WithHostAndWorld.
Variable h : Host.
Variable W : World.

(** [applyTransformation(value, transformType)] *)
Definition applyTransformation (value : value) (transformType : option string)
  : JS.value :=
  match transformType with
  | None => value
  | Some t =>
      if String.eqb t "" || negb (truthy value) then value
      else if String.eqb t "DATE_FORMAT" then VStr (toLocaleDateString h (dateTime h value))
      else if String.eqb t "UPPERCASE" then VStr (toUpperCase (toStr h value))
      else if String.eqb t "LOWERCASE" then VStr (toLowerCase (toStr h value))
      else if String.eqb t "NUMBER" then
        or_else (VNum (parseFloat h (toStr h value))) (VNum 0%float)
      else if String.eqb t "BOOLEAN" then
        if strictEq value (VStr "true") || strictEq value (VBool true)
        then VStr "TRUE" else VStr "FALSE"
      else value
  end.

(** [record.properties?.[name]] *)
Definition propertyOf (record : value) (name : string) : outcome value :=
  obind (getStrict record "properties") (fun props => Ok (getOpt props name)).

(** The inner [for] of [transformData]: the cells of one record. *)
Fixpoint fillRow (record : value) (mappings : list FieldMapping) (row : list value)
  : outcome (list value) :=
  match mappings with
  | [] => Ok row
  | m :: rest =>
      obind (propertyOf record (hubspotProperty m)) (fun value =>
        let value' := applyTransformation value (transformType m) in
        fillRow record rest (arraySet row (columnIndex m) (or_else value' (VStr ""))))
  end.

(** One turn of the outer [for] of [transformData]: [new Array(n)], the
    cells, then the record id in front. *)
Definition transformRecord (mappings : list FieldMapping) (record : value)
  : outcome (list value) :=
  obind (fillRow record mappings (repeat VUndefined (List.length mappings))) (fun row =>
    obind (getStrict record "id") (fun id => Ok (id :: row))).

(** [transformData(hubspotRecords, fieldMappings)] *)
Fixpoint transformData (hubspotRecords : list value) (mappings : list FieldMapping)
  : outcome (list (list value)) :=
  match hubspotRecords with
  | [] => Ok []
  | record :: rest =>
      obind (transformRecord mappings record) (fun row =>
        obind (transformData rest mappings) (fun rows => Ok (row :: rows)))
  end.

(** [...response.results]: the elements of an array, the characters of a
    string; anything else is not iterable. *)
Definition spread (v : value) : outcome (list value) :=
  match v with
  | VArr items => Ok items
  | VStr s => Ok (map (fun c => VStr (String c EmptyString)) (list_ascii_of_string s))
  | _ => Throw "response.results is not iterable"
  end.

Definition supported (entityType : string) : bool :=
  String.eqb entityType "contacts" || String.eqb entityType "companies"
  || String.eqb entityType "deals".

(** The [do ... while (after)] of [fetchHubSpotData].  The loop has no
    bound of its own: [fuel] bounds the pages, and [None] says that the
    bound was reached with a cursor still pending. *)
Fixpoint fetchLoop {S} (fuel : nat) (entityType : string) (properties : list string)
    (results : list value) (after : value) : M S (option (list value)) :=
  match fuel with
  | O => ret None
  | S fuel' =>
      if supported entityType then
        response <- call (EGetPage entityType after properties)
                      (fun hs => getPage W hs entityType after properties) ;;
        found <- lift (obind (getStrict response "results") spread) ;;
        let after' := getOpt (getOpt (getOpt response "paging") "next") "after" in
        if truthy after'
        then fetchLoop fuel' entityType properties (results ++ found) after'
        else ret (Some (results ++ found))
      else throw ("Unsupported entity type: " +++ entityType)
  end.

(** [fetchHubSpotData(entityType, properties)] *)
Definition fetchHubSpotData {S} (fuel : nat) (entityType : string)
    (properties : list string) : M S (option (list value)) :=
  fetchLoop fuel entityType properties [] VUndefined.

(** [overwriteSheet(spreadsheetId, sheetName, headers, data)] *)
Definition overwriteSheet {S} (spreadsheetId sheetName : string)
    (headers : list string) (data : list (list value)) : M S unit :=
  call (EClearRange spreadsheetId sheetName "A:Z")
       (fun hs => clearRange W hs spreadsheetId sheetName "A:Z") ;;;
  let allData := map VStr headers :: data in
  call (EWriteSheet spreadsheetId sheetName allData "A1")
       (fun hs => writeSheet W hs spreadsheetId sheetName allData "A1").

(** [appendToSheet(spreadsheetId, sheetName, data)] *)
Definition appendToSheet {S} (spreadsheetId sheetName : string)
    (data : list (list value)) : M S unit :=
  call (EAppendToSheet spreadsheetId sheetName data)
       (fun hs => Effects.appendToSheet W hs spreadsheetId sheetName data).

(** The [forEach] that fills [existingRecords]: key text to row number. *)
Fixpoint indexRows (keyColumnIndex : Z) (rows : list (list value)) (index : Z)
    (existingRecords : list (string * Z)) : list (string * Z) :=
  match rows with
  | [] => existingRecords
  | row :: rest =>
      let key := nthZ row keyColumnIndex in
      indexRows keyColumnIndex rest (index + 1)%Z
        (if truthy key
         then JSMap.set String.eqb (toStr h key) (index + 2)%Z existingRecords
         else existingRecords)
  end.

(** The range of a targeted update: column A of the matched row. *)
Definition rangeOf (sheetName : string) (rowNumber : Z) : string :=
  "'" +++ sheetName +++ "'!A" +++ Z_to_string rowNumber.

(** One turn of the [for (const row of newData)] of [updateSheet]. *)
Definition planRow (sheetName : string) (existingRecords : list (string * Z))
    (keyColumnIndex : Z) (p : Plan) (row : list value) : Plan :=
  let keyValue := nthZ row (keyColumnIndex + 1)%Z in
  if negb (truthy keyValue) then planSkip p
  else
    match JSMap.get String.eqb (toStr h keyValue) existingRecords with
    | Some existingRowNumber =>
        if (existingRowNumber =? 0)%Z then planAppend row p
        else planUpdate {| range := rangeOf sheetName existingRowNumber;
                           values := [row] |} p
    | None => planAppend row p
    end.

Definition planRows (sheetName : string) (existingRecords : list (string * Z))
    (keyColumnIndex : Z) (newData : list (list value)) : Plan :=
  fold_left (planRow sheetName existingRecords keyColumnIndex) newData emptyPlan.

(** [updateSheet(spreadsheetId, sheetName, existingData, newData, keyColumn)] *)
Definition updateSheet {S} (spreadsheetId sheetName : string)
    (existingData : SheetData) (newData : list (list value)) (keyColumn : string)
  : M S UpdateCounts :=
  let keyColumnIndex := indexOf (headers existingData) keyColumn in
  if (keyColumnIndex =? -1)%Z
  then throw ("Key column " +++ dq +++ keyColumn +++ dq +++ " not found in sheet")
  else
    let existingRecords := indexRows keyColumnIndex (rows existingData) 0%Z [] in
    let p := planRows sheetName existingRecords keyColumnIndex newData in
    (match updates p with
     | [] => ret tt
     | _ => call (EUpdateCells spreadsheetId (updates p))
                 (fun hs => updateCells W hs spreadsheetId (updates p))
     end) ;;;
    (match appends p with
     | [] => ret tt
     | _ => call (EAppendToSheet spreadsheetId sheetName (appends p))
                 (fun hs => Effects.appendToSheet W hs spreadsheetId sheetName (appends p))
     end) ;;;
    ret (counts p).

(** [updateSyncState(spreadsheetId, data)]: one upsert per row, from
    [index] on. *)
Fixpoint updateSyncState {S} (spreadsheetId : string) (data : list (list value))
    (index : Z) : M S unit :=
  match data with
  | [] => ret tt
  | row :: rest =>
      let e := EStateUpsert spreadsheetId (nthZ row 0%Z) (index + 2)%Z
                 (calculateRowHash h row) in
      call e (fun hs => stateUpsert W hs e) ;;;
      updateSyncState spreadsheetId rest (index + 1)%Z
  end.

Definition doJobUpdate {S} (jobId : string) (d : JobUpdate) : M S unit :=
  call (EJobUpdate jobId d) (fun hs => jobUpdate W hs jobId d).

Definition completedJobUpdate (r : SyncResult) : JobUpdate :=
  {| jobStatus := "COMPLETED";
     jobProcessed := Some (recordsProcessed r);
     jobCreated := Some (recordsCreated r);
     jobUpdated := Some (recordsUpdated r);
     jobFailed := Some (List.length (errors r));
     errorMessage := None |}.

Definition failedJobUpdate (message : string) : JobUpdate :=
  {| jobStatus := "FAILED"; jobProcessed := None; jobCreated := None;
     jobUpdated := None; jobFailed := None; errorMessage := Some message |}.

Definition keyColumnOrEmail (keyColumn : option string) : string :=
  match keyColumn with
  | Some k => if String.eqb k "" then "email" else k
  | None => "email"
  end.

(** The [switch (config.syncMode)] of [executeSync]. *)
Definition writeByMode (config : HubSpotToSheetsSyncConfig) (sheetData : SheetData)
    (headers : list string) (transformedData : list (list value))
  : M SyncResult unit :=
  if String.eqb (syncMode config) "overwrite" then
    overwriteSheet (spreadsheetId config) (sheetName config) headers transformedData ;;;
    modify (setCreated (List.length transformedData))
  else if String.eqb (syncMode config) "append" then
    appendToSheet (spreadsheetId config) (sheetName config) transformedData ;;;
    modify (setCreated (List.length transformedData))
  else if String.eqb (syncMode config) "update" then
    updateResult <- updateSheet (spreadsheetId config) (sheetName config) sheetData
                      transformedData (keyColumnOrEmail (keyColumn config)) ;;
    modify (setCounts updateResult)
  else ret tt.

(** The [try] of [executeSync]; [None] when the paging did not end within
    [fuel] pages. *)
Definition syncBody (fuel : nat) (config : HubSpotToSheetsSyncConfig) (jobId : string)
  : M SyncResult (option unit) :=
  fetched <- fetchHubSpotData fuel (hubspotEntityType config)
               (map hubspotProperty (fieldMappings config)) ;;
  match fetched with
  | None => ret None
  | Some hubspotData =>
      sheetData <- call (EReadSheet (spreadsheetId config) (sheetName config))
                     (fun hs => readSheet W hs (spreadsheetId config) (sheetName config)) ;;
      let sorted := sortMappings (fieldMappings config) in
      let headers := prepareHeaders sorted in
      transformedData <- lift (transformData hubspotData sorted) ;;
      writeByMode config sheetData headers transformedData ;;;
      modify (setDone (List.length hubspotData)) ;;;
      r <- get ;;
      doJobUpdate jobId (completedJobUpdate r) ;;;
      updateSyncState (spreadsheetId config) transformedData 0%Z ;;;
      ret (Some tt)
  end.

(** The [catch] of [executeSync]: the error is recorded and the run still
    returns its result. *)
Definition syncCatch (jobId : string) (message : string) : M SyncResult (option unit) :=
  modify (pushError {| record := VNull; error := message |}) ;;;
  doJobUpdate jobId (failedJobUpdate message) ;;;
  ret (Some tt).

(** [executeSync(config)] on its [result] object. *)
Definition executeSync_on (fuel : nat) (config : HubSpotToSheetsSyncConfig)
  : M SyncResult (option SyncResult) :=
  jobId <- call (EJobCreate (syncConfigId config) "IN_PROGRESS")
             (fun hs => jobCreate W hs (syncConfigId config)) ;;
  finished <- tryCatch (syncBody fuel config jobId) (syncCatch jobId) ;;
  match finished with
  | None => ret None
  | Some _ => r <- get ;; ret (Some r)
  end.

(** [executeSync(config)]: the result returned ([Ok (Some r)]), the
    exception raised, or [Ok None] when the paging did not end within
    [fuel] pages; and the calls made. *)
Definition executeSync (fuel : nat) (config : HubSpotToSheetsSyncConfig) (hs : history)
  : outcome (option SyncResult) * history :=
  let '(o, _, hs') := executeSync_on fuel config initialResult hs in (o, hs').

End WithHostAndWorld.
End HubSpotToSheets.

(* ===================================================================== *)
(** ** [DataTransformer]: the two public methods over whole records      *)
(* ===================================================================== *)

Module RecordTransformer.
Import JS Runtime.

(** [FieldMapping] of the transformer; an absent [transformConfig] or
    [defaultValue] is [undefined]. *)
Record FieldMapping : Type := {
  hubspotProperty : string;
  sheetColumn : string;
  transformType : option string;
  transformConfig : value;
  isRequired : bool;
  defaultValue : value
}.

(** [mapping.transformType && value !== null && value !== undefined] *)
Definition transforms (m : FieldMapping) (v : value) : option string :=
  match transformType m with
  | Some t => if String.eqb t "" || is_nullish v then None else Some t
  | None => None
  end.

Section WithHost.
Variable h : Host.



Definition missingMessage (m : FieldMapping) : string :=
  "Required field " +++ dq +++ hubspotProperty m +++ dq +++ " is missing".

(** [transformSheetsToHubSpot(sheetData, mappings)], from the properties
    collected so far: a property is set when its value is neither [null]
    nor [undefined]; a required one that is throws. *)
Fixpoint sheetsToHubSpot_from (transformed : list (string * value))
    (sheetData : list (string * value)) (mappings : list FieldMapping)
  : outcome (list (string * value)) :=
  match mappings with
  | [] => Ok transformed
  | m :: rest =>
      let sourceValue := lookup_field (sheetColumn m) sheetData in
      let value := nullish_else sourceValue (defaultValue m) in
      obind (match transforms m value with
             | Some t =>
                 DataTransformer.applyReverseTransformation h value t (transformConfig m)
             | None => Ok value
             end)
            (fun value' =>
               if negb (is_nullish value')
               then sheetsToHubSpot_from
                      (JSMap.set String.eqb (hubspotProperty m) value' transformed)
                      sheetData rest
               else if isRequired m then Throw (missingMessage m)
               else sheetsToHubSpot_from transformed sheetData rest)
  end.

Definition transformSheetsToHubSpot (sheetData : list (string * value))
    (mappings : list FieldMapping) : outcome (list (string * value)) :=
  sheetsToHubSpot_from [] sheetData mappings.

End WithHost.
End RecordTransformer.

(* ===================================================================== *)
(** ** src/lib/googlesheets/client.ts: rows and columns                  *)
(* ===================================================================== *)

Module GoogleSheetsClient.
Import JS Runtime Effects.

(** The end of [readSheet]: the values of the response ([None] when the
    response has none) split into the header row, as texts, and the data
    rows. *)
Definition sheetOfValues (h : Host) (values : option (list (list value))) : SheetData :=
  let rows := match values with Some rows => rows | None => [] end in
  {| headers := map (toStr h) (match rows with first :: _ => first | [] => [] end);
     rows := List.tl rows |}.

(** The [while (index >= 0)] of [getColumnLetter], on an integer index:
    one letter is put in front per turn.  The loop has no bound of its
    own; [fuel] bounds the turns.  The source computes in doubles; these
    are the integers of the model as long as every value stays below
    2^53, and [index / 26] is rounded to the right side of its floor as
    long as the index stays below 2^50, which is where the statements
    about these functions stay. *)
Fixpoint letterLoop (fuel : nat) (index : Z) (letter : string) : string :=
  match fuel with
  | O => letter
  | S fuel' =>
      if (0 <=? index)%Z
      then letterLoop fuel' (index / 26 - 1)%Z
             (String (ascii_of_nat (Z.to_nat (index mod 26 + 65))) letter)
      else letter
  end.

(** [GoogleSheetsClient.getColumnLetter(index)]; the index shrinks on every
    turn, so [index + 2] turns are more than the loop takes. *)
Definition getColumnLetter (index : Z) : string :=
  letterLoop (Z.to_nat (index + 2)) index "".

(** The [for] of [getColumnIndex], from the running [index] on; in
    integers, which the doubles of the source are below 2^53. *)
Fixpoint indexLoop (letter : string) (index : Z) : Z :=
  match letter with
  | EmptyString => index
  | String c rest =>
      indexLoop rest (index * 26 + (Z.of_nat (nat_of_ascii c) - 65) + 1)%Z
  end.

(** [GoogleSheetsClient.getColumnIndex(letter)] *)
Definition getColumnIndex (letter : string) : Z := (indexLoop letter 0 - 1)%Z.

(** The [forEach] of [findRows] over the rows read, from [index] on. *)
Fixpoint matchRows (rows : list (list value)) (columnIndex : Z) (v : value)
    (index : Z) (matchingRows : list Z) : list Z :=
  match rows with
  | [] => matchingRows
  | row :: rest =>
      matchRows rest columnIndex v (index + 1)%Z
        (if strictEq (nthZ row columnIndex) v
         then matchingRows ++ [(index + 2)%Z] else matchingRows)
  end.

(** [findRows] on the rows that [readSheet] gave. *)
Definition findRowsIn (rows : list (list value)) (columnIndex : Z) (v : value) : list Z :=
  matchRows rows columnIndex v 0%Z [].

End GoogleSheetsClient.

(* ===================================================================== *)
(** ** A small host and small worlds, to run the code on examples        *)
(* ===================================================================== *)

Module Examples.
Import JS Runtime Effects.

(** The integer a finite float holds, its fraction dropped. *)
Definition floatToZ (f : float) : Z :=
  match Prim2SF f with
  | S754_finite sign m e =>
      let magnitude :=
        match e with
        | Zneg p => Z.shiftr (Zpos m) (Zpos p)
        | _ => Z.shiftl (Zpos m) e
        end in
      if sign then Z.opp magnitude else magnitude
  | _ => 0%Z
  end.

Fixpoint digitsValue (s : string) (acc : Z) : Z :=
  match s with
  | String c s' =>
      if is_digit c then digitsValue s' (acc * 10 + Z.of_nat (code c - 48))%Z else acc
  | EmptyString => acc
  end.

(** Reads the integral prefix of a text: [NaN] when there is none. *)
Definition readInteger (s : string) : float :=
  match trimStart s with
  | String c rest =>
      if is_digit c
      then PrimFloat.of_uint63 (Uint63.of_Z (digitsValue (String c rest) 0))
      else PrimFloat.nan
  | EmptyString => PrimFloat.nan
  end.

Definition printNumber (f : float) : string :=
  if PrimFloat.is_nan f then "NaN" else Z_to_string (floatToZ f).

(** A host for the examples: it prints and reads integral numbers, takes
    a number for its own time value and no text for a date, has no JSON
    reader and runs no custom code.  The digest is a tagged copy of the
    text, as distinct and as non-empty as a real one. *)
Definition exampleHost : Host :=
  {| numToString := printNumber;
     parseFloat := readInteger;
     parseInt := readInteger;
     dateTime := fun v => match v with VNum f => f | _ => PrimFloat.nan end;
     dateOfParts := fun _ _ _ => PrimFloat.nan;
     dateMonth := fun _ => 0%float;
     dateDay := fun _ => 1%float;
     dateYear := fun _ => 1970%float;
     toLocaleDateString := fun t => if PrimFloat.is_nan t then "Invalid Date" else "1/1/1970";
     toFixed := fun f _ => Ok (printNumber f);
     numToLocaleString := printNumber;
     intlCurrency := fun _ f => Ok ("$" +++ printNumber f);
     jsonText := fun v =>
       match v with
       | VArr items =>
           "[" +++ String.concat ","
                     (map (fun x => match x with VStr s => dq +++ s +++ dq | _ => "null" end)
                          items) +++ "]"
       | VStr s => dq +++ s +++ dq
       | _ => "null"
       end;
     jsonParse := fun _ => Throw "Unexpected token";
     runCustom := fun _ _ => Throw "not available";
     sha256Hex := fun s => "sha256:" +++ s |}.

(** The first millisecond of 1 January 2024 in the UTC zone. *)
Definition newYear2024 : float := 1704067200000%float.

(** A host in the UTC zone whose calendar knows that one day. *)
Definition newYearHost : Host :=
  {| numToString := numToString exampleHost;
     parseFloat := parseFloat exampleHost;
     parseInt := parseInt exampleHost;
     dateTime := dateTime exampleHost;
     dateOfParts := fun year monthIndex day =>
       if PrimFloat.eqb year 2024 && PrimFloat.eqb monthIndex 0 && PrimFloat.eqb day 1
       then newYear2024 else PrimFloat.nan;
     dateMonth := fun _ => 0%float;
     dateDay := fun _ => 1%float;
     dateYear := fun _ => 2024%float;
     toLocaleDateString := fun t => if PrimFloat.is_nan t then "Invalid Date" else "1/1/2024";
     toFixed := toFixed exampleHost;
     numToLocaleString := numToLocaleString exampleHost;
     intlCurrency := intlCurrency exampleHost;
     jsonText := jsonText exampleHost;
     jsonParse := jsonParse exampleHost;
     runCustom := runCustom exampleHost;
     sha256Hex := sha256Hex exampleHost |}.

(** A host that runs two custom functions on texts: one puts a mark in
    front of the text, the other takes the first character away. *)
Definition markingHost : Host :=
  {| numToString := numToString exampleHost;
     parseFloat := parseFloat exampleHost;
     parseInt := parseInt exampleHost;
     dateTime := dateTime exampleHost;
     dateOfParts := dateOfParts exampleHost;
     dateMonth := dateMonth exampleHost;
     dateDay := dateDay exampleHost;
     dateYear := dateYear exampleHost;
     toLocaleDateString := toLocaleDateString exampleHost;
     toFixed := toFixed exampleHost;
     numToLocaleString := numToLocaleString exampleHost;
     intlCurrency := intlCurrency exampleHost;
     jsonText := jsonText exampleHost;
     jsonParse := jsonParse exampleHost;
     runCustom := fun functionStr v =>
       match v with
       | VStr s =>
           if strictEq functionStr (VStr "return '#' + value")
           then Ok (VStr ("#" +++ s))
           else if strictEq functionStr (VStr "return value.slice(1)")
           then Ok (VStr (sliceFrom 1 s))
           else Throw "not available"
       | _ => Throw "not available"
       end;
     sha256Hex := sha256Hex exampleHost |}.

(** The same host with [JSON] as [jsonPrint] and [jsonRead] give it. *)
Definition jsonHost : Host :=
  {| numToString := numToString exampleHost;
     parseFloat := parseFloat exampleHost;
     parseInt := parseInt exampleHost;
     dateTime := dateTime exampleHost;
     dateOfParts := dateOfParts exampleHost;
     dateMonth := dateMonth exampleHost;
     dateDay := dateDay exampleHost;
     dateYear := dateYear exampleHost;
     toLocaleDateString := toLocaleDateString exampleHost;
     toFixed := toFixed exampleHost;
     numToLocaleString := numToLocaleString exampleHost;
     intlCurrency := intlCurrency exampleHost;
     jsonText := jsonPrint printNumber;
     jsonParse := jsonRead readInteger;
     runCustom := runCustom exampleHost;
     sha256Hex := sha256Hex exampleHost |}.

(** A CRM record as JSON holds it. *)
Definition jsonRecord : value :=
  VObj [("name", VStr "Ada Lovelace");
        ("tags", VArr [VStr "vip"; VNull; VBool true; VArr []]);
        ("visits", VNum 42%float);
        ("address", VObj [("city", VStr "London"); ("zip", VNull)])].

(** A world in which every call succeeds: the job is [job-1], the sheet
    is the one given, the CRM finds nothing and creates [{ id: "101" }],
    and one page holds all the records given. *)
Definition calmWorld (sheet : SheetData) (records : list value) : World :=
  {| jobCreate := fun _ _ => Ok "job-1";
     jobUpdate := fun _ _ _ => Ok tt;
     readSheet := fun _ _ _ => Ok sheet;
     search := fun _ _ _ _ => Ok (VObj [("results", VArr [])]);
     create := fun _ _ _ => Ok (VObj [("id", VStr "101")]);
     update := fun _ _ _ _ => Ok (VObj [("id", VStr "101")]);
     logCreate := fun _ _ => Ok tt;
     stateUpsert := fun _ _ => Ok tt;
     stateFindMany := fun _ _ => Ok [];
     getPage := fun _ _ _ _ => Ok (VObj [("results", VArr records)]);
     clearRange := fun _ _ _ _ => Ok tt;
     writeSheet := fun _ _ _ _ _ => Ok tt;
     appendToSheet := fun _ _ _ _ => Ok tt;
     updateCells := fun _ _ _ => Ok tt |}.

(** A world with another CRM search. *)
Definition withSearch (w : World)
    (answer : history -> string -> string -> value -> outcome value) : World :=
  {| jobCreate := jobCreate w; jobUpdate := jobUpdate w; readSheet := readSheet w;
     search := answer;
     create := create w; update := update w; logCreate := logCreate w;
     stateUpsert := stateUpsert w; stateFindMany := stateFindMany w;
     getPage := getPage w; clearRange := clearRange w; writeSheet := writeSheet w;
     appendToSheet := appendToSheet w; updateCells := updateCells w |}.

(** A world with another fingerprint store. *)
Definition withStateUpsert (w : World)
    (answer : history -> event -> outcome unit) : World :=
  {| jobCreate := jobCreate w; jobUpdate := jobUpdate w; readSheet := readSheet w;
     search := search w;
     create := create w; update := update w; logCreate := logCreate w;
     stateUpsert := answer; stateFindMany := stateFindMany w;
     getPage := getPage w; clearRange := clearRange w; writeSheet := writeSheet w;
     appendToSheet := appendToSheet w; updateCells := updateCells w |}.

(** A world with other stored fingerprints. *)
Definition withStates (w : World) (states : list SyncState) : World :=
  {| jobCreate := jobCreate w; jobUpdate := jobUpdate w; readSheet := readSheet w;
     search := search w;
     create := create w; update := update w; logCreate := logCreate w;
     stateUpsert := stateUpsert w; stateFindMany := fun _ _ => Ok states;
     getPage := getPage w; clearRange := clearRange w; writeSheet := writeSheet w;
     appendToSheet := appendToSheet w; updateCells := updateCells w |}.

(** The calm world with a CRM search that fails. *)
Definition searchDownWorld (sheet : SheetData) : World :=
  withSearch (calmWorld sheet []) (fun _ _ _ _ => Throw "HTTP 429").

(** The calm world with a CRM in which every search finds record 77. *)
Definition matchingWorld (sheet : SheetData) : World :=
  withSearch (calmWorld sheet [])
    (fun _ _ _ _ => Ok (VObj [("results", VArr [VObj [("id", VStr "77")]])])).

(** The calm world with a fingerprint store that rejects every upsert. *)
Definition stateDownWorld (sheet : SheetData) (records : list value) : World :=
  withStateUpsert (calmWorld sheet records) (fun _ _ => Throw "connection terminated").

(** A sheet of contacts: the first data row has no email, the second is
    complete. *)
Definition contactSheet : SheetData :=
  {| headers := ["email"; "firstname"];
     rows := [[VStr ""; VStr "Jo"]; [VStr "ada@x.com"; VStr "Ada"]] |}.

Definition contactMappings : list SheetsToHubSpot.FieldMapping :=
  [ {| SheetsToHubSpot.sheetColumn := "email"; SheetsToHubSpot.columnIndex := 0%Z;
       SheetsToHubSpot.hubspotProperty := "email"; SheetsToHubSpot.isRequired := true;
       SheetsToHubSpot.transformType := Some "EMAIL_NORMALIZE" |};
    {| SheetsToHubSpot.sheetColumn := "firstname"; SheetsToHubSpot.columnIndex := 1%Z;
       SheetsToHubSpot.hubspotProperty := "firstname"; SheetsToHubSpot.isRequired := false;
       SheetsToHubSpot.transformType := None |} ].

(** The configuration the API route queues, for an entity type, an
    identifier column and a choice of [skipInvalid]. *)
Definition sheetConfig (entityType identifierColumn : string) (skipInvalid : bool)
  : SheetsToHubSpot.SheetsToHubSpotSyncConfig :=
  {| SheetsToHubSpot.syncConfigId := "cfg-1";
     SheetsToHubSpot.userId := "user-1";
     SheetsToHubSpot.spreadsheetId := "sheet-1";
     SheetsToHubSpot.sheetName := "Contacts";
     SheetsToHubSpot.hubspotEntityType := entityType;
     SheetsToHubSpot.fieldMappings := contactMappings;
     SheetsToHubSpot.identifierColumn := identifierColumn;
     SheetsToHubSpot.updateExisting := true;
     SheetsToHubSpot.createNew := true;
     SheetsToHubSpot.skipInvalid := skipInvalid |}.

(** Two CRM contacts, as a page of the contacts API holds them. *)
Definition contactRecord (id email firstname : string) : value :=
  VObj [("id", VStr id);
        ("properties", VObj [("email", VStr email); ("firstname", VStr firstname)])].

Definition twoContacts : list value :=
  [contactRecord "1" "a@x.com" "Ann"; contactRecord "3" "c@x.com" "Cy"].

Definition crmMappings : list HubSpotToSheets.FieldMapping :=
  [ {| HubSpotToSheets.hubspotProperty := "email"; HubSpotToSheets.sheetColumn := "email";
       HubSpotToSheets.columnIndex := 0%Z; HubSpotToSheets.transformType := None |};
    {| HubSpotToSheets.hubspotProperty := "firstname";
       HubSpotToSheets.sheetColumn := "firstname";
       HubSpotToSheets.columnIndex := 1%Z; HubSpotToSheets.transformType := None |} ].

(** The configuration the API route queues for the CRM->Sheet direction,
    for a write mode. *)
Definition crmConfig (syncMode : string) : HubSpotToSheets.HubSpotToSheetsSyncConfig :=
  {| HubSpotToSheets.syncConfigId := "cfg-1";
     HubSpotToSheets.userId := "user-1";
     HubSpotToSheets.spreadsheetId := "sheet-1";
     HubSpotToSheets.sheetName := "Contacts";
     HubSpotToSheets.hubspotEntityType := "contacts";
     HubSpotToSheets.fieldMappings := crmMappings;
     HubSpotToSheets.syncMode := syncMode;
     HubSpotToSheets.keyColumn := None |}.

(** A sheet keyed by email: row 2 has no key, [a@x.com] is row 3 and
    [b@x.com] is row 4. *)
Definition keyedSheet : SheetData :=
  {| headers := ["email"; "firstname"];
     rows := [[VStr ""; VStr "(draft)"]; [VStr "a@x.com"; VStr "Ann"];
              [VStr "b@x.com"; VStr "Bob"]] |}.

(** The sheet as [overwrite] mode leaves it for three contacts: the
    header row of [prepareHeaders], then a row per record with the record
    id first.  [a@x.com] is row 3 and [b@x.com] is row 4. *)
Definition threeContacts : list value :=
  [contactRecord "7" "z@x.com" "Zed"; contactRecord "1" "a@x.com" "Ann";
   contactRecord "2" "b@x.com" "Bob"].

Definition writtenSheet : SheetData :=
  {| headers := ["HubSpot ID"; "email"; "firstname"];
     rows := [[VStr "7"; VStr "z@x.com"; VStr "Zed"]; [VStr "1"; VStr "a@x.com"; VStr "Ann"];
              [VStr "2"; VStr "b@x.com"; VStr "Bob"]] |}.

(** Fingerprints stored for [contactSheet]: row 2 as it is now, row 3
    with another content, and a row 8 that the sheet no longer has. *)
Definition storedStates : list SyncState :=
  [ {| sheetRowNumber := 2%Z;
       syncHash := calculateRowHash exampleHost [VStr ""; VStr "Jo"] |};
    {| sheetRowNumber := 3%Z; syncHash := "0f3a" |};
    {| sheetRowNumber := 8%Z; syncHash := "77c1" |} ].

(** The calm world with a job table that rejects every update. *)
Definition jobTableDownWorld (sheet : SheetData) (records : list value) : World :=
  let w := calmWorld sheet records in
  {| jobCreate := jobCreate w;
     jobUpdate := fun _ _ _ => Throw "connection terminated";
     readSheet := readSheet w;
     search := search w;
     create := create w; update := update w; logCreate := logCreate w;
     stateUpsert := stateUpsert w; stateFindMany := stateFindMany w;
     getPage := getPage w; clearRange := clearRange w; writeSheet := writeSheet w;
     appendToSheet := appendToSheet w; updateCells := updateCells w |}.

(** The calm world with a CRM that rejects every page request. *)
Definition crmDownWorld (sheet : SheetData) : World :=
  let w := calmWorld sheet [] in
  {| jobCreate := jobCreate w; jobUpdate := jobUpdate w; readSheet := readSheet w;
     search := search w;
     create := create w; update := update w; logCreate := logCreate w;
     stateUpsert := stateUpsert w; stateFindMany := stateFindMany w;
     getPage := fun _ _ _ _ => Throw "HTTP 502";
     clearRange := clearRange w; writeSheet := writeSheet w;
     appendToSheet := appendToSheet w; updateCells := updateCells w |}.

(** The calm world with a CRM whose every page names a next page. *)
Definition endlessWorld (sheet : SheetData) (records : list value) : World :=
  let w := calmWorld sheet records in
  {| jobCreate := jobCreate w; jobUpdate := jobUpdate w; readSheet := readSheet w;
     search := search w;
     create := create w; update := update w; logCreate := logCreate w;
     stateUpsert := stateUpsert w; stateFindMany := stateFindMany w;
     getPage := fun _ _ _ _ =>
       Ok (VObj [("results", VArr records);
                 ("paging", VObj [("next", VObj [("after", VStr "100")])])]);
     clearRange := clearRange w; writeSheet := writeSheet w;
     appendToSheet := appendToSheet w; updateCells := updateCells w |}.

End Examples.

(* ===================================================================== *)
(** ** Vocabulary of the properties                                      *)
(* ===================================================================== *)

Module Props.
Import JS Runtime Effects.

(** The [case] labels of [DataTransformer], as strings. *)
Definition transformerLabels : list string :=
  map DataTransformer.transformName DataTransformer.recognized.

(** The [case] labels of [SheetsToHubSpotSync.applyTransformation]. *)
Definition sheetLabels : list string :=
  ["DATE_TO_TIMESTAMP"; "STRING_TO_NUMBER"; "BOOLEAN_TO_STRING"; "TRIM";
   "LOWERCASE"; "UPPERCASE"; "EMAIL_NORMALIZE"; "PHONE_FORMAT"].

(** A cell that is [null], [undefined], or blank once trimmed. *)
Definition blankCell (h : Host) (cell : value) : Prop :=
  cell = VNull \/ cell = VUndefined \/ trim (toStr h cell) = "".

(** The kinds reported for one row number. *)
Definition entriesFor (n : Z) (changes : list SheetsToHubSpot.Change)
  : list SheetsToHubSpot.changeKind :=
  map SheetsToHubSpot.changeType
      (filter (fun c => Z.eqb (SheetsToHubSpot.changeRow c) n) changes).

(** The stored hash of a row number, if any. *)
Definition storedHash (syncStates : list SyncState) (n : Z) : option string :=
  JSMap.get Z.eqb n (SheetsToHubSpot.stateMapOf syncStates).

(** Whether the [switch] of [findHubSpotRecord] reaches a search call. *)
Definition searches (entityType identifierProperty : string) : bool :=
  (String.eqb entityType "contacts" && String.eqb identifierProperty "email")
  || String.eqb entityType "companies" || String.eqb entityType "deals".

(** A computation that never shortens the error list of the result. *)
Definition keeps {A : Type} (m : M SheetsToHubSpot.SheetsSyncResult A) : Prop :=
  forall s hs,
    List.length (SheetsToHubSpot.errors s)
    <= List.length (SheetsToHubSpot.errors (snd (fst (m s hs)))).

(** Forward, then reverse, with the same type and configuration. *)
Definition roundTrip (h : Host) (v : value) (transformType : string) (config : value)
  : outcome value :=
  obind (DataTransformer.applyTransformation h v transformType config)
        (fun w => DataTransformer.applyReverseTransformation h w transformType config).

(** The types for which the source calls a reverse function, that is all
    but [CONCATENATE] and the case and trim operations. *)
Definition hasReverse (t : DataTransformer.transform) : bool :=
  match t with
  | DataTransformer.CONCATENATE | DataTransformer.UPPERCASE
  | DataTransformer.LOWERCASE | DataTransformer.TITLE_CASE
  | DataTransformer.TRIM => false
  | _ => true
  end.

(** The separator a configuration gives, or the default of the type. *)
Definition separatorOf (h : Host) (config : value) (default : string) : string :=
  toStr h (or_else (getOpt config "separator") (VStr default)).

(** A text in which a character does not occur. *)
Definition lacks (c : ascii) (s : string) : Prop :=
  all_chars (fun x => negb (Ascii.eqb x c)) s = true.

(** A number that is not [NaN] and not [-0], and that the runtime reads
    back from its print. *)
Definition readableNumber (h : Host) (f : float) : Prop :=
  PrimFloat.is_nan f = false
  /\ (PrimFloat.is_zero f = true -> f = 0%float)
  /\ parseFloat h (numToString h f) = f.

(** A number that the configured print does not round: with [decimals],
    [toFixed] prints digits, points and minus signs that read back as the
    number; with [thousands], the print of the locale is the plain print
    with grouping marks; otherwise the plain print has no exponent. *)
Definition printsExactly (h : Host) (config : value) (f : float) : Prop :=
  match getOpt config "decimals" with
  | VUndefined =>
      if truthy (getOpt config "thousands")
      then filter_chars DataTransformer.is_numeric_char (numToLocaleString h f)
           = numToString h f
      else all_chars DataTransformer.is_numeric_char (numToString h f) = true
  | decimals =>
      exists text,
        toFixed h f decimals = Ok text
        /\ all_chars DataTransformer.is_numeric_char text = true
        /\ parseFloat h text = f
  end.

(** The month indexes of [getMonth()]. *)
Definition monthIndexes : list float :=
  [0; 1; 2; 3; 4; 5; 6; 7; 8; 9; 10; 11]%float.

(** A number of a date that the runtime prints without a slash and reads
    back, also behind leading zeros. *)
Definition readsInteger (h : Host) (x : float) : Prop :=
  lacks "/" (numToString h x)
  /\ forall n, parseInt h (padStart0 n (numToString h x)) = x.

(** A time that is the local midnight which starts its own day: the
    calendar gives it back from its year, month and day. *)
Definition localMidnight (h : Host) (time : float) : Prop :=
  In (dateMonth h time) monthIndexes
  /\ readsInteger h (PrimFloat.add (dateMonth h time) 1)
  /\ readsInteger h (dateDay h time)
  /\ readsInteger h (dateYear h time)
  /\ dateOfParts h (dateYear h time) (dateMonth h time) (dateDay h time) = time.

(** A runtime whose [JSON.stringify] and [JSON.parse] are [jsonPrint] and
    [jsonRead] on the values that JSON writes without loss. *)
Definition jsonRuntime (h : Host) : Prop :=
  forall w,
    jsonValue (numToString h) (parseFloat h) w ->
    jsonText h w = jsonPrint (numToString h) w
    /\ jsonParse h (jsonPrint (numToString h) w)
       = jsonRead (parseFloat h) (jsonPrint (numToString h) w).

(** The values and configurations on which forward then reverse gives the
    value back: what a well-formed value is for each type that has a
    reverse.

    - DATE_FORMAT: a time value, not 0, that [Date] keeps; under the
      format MM/DD/YYYY (the default) the local midnight that starts its
      day, under another format a time whose printed text [Date] reads
      back.
    - NUMBER_FORMAT: a number the runtime reads back from its print and
      the configured print does not round.
    - CURRENCY_FORMAT: such a number whose currency text, the characters
      other than digits, points and minus signs dropped, reads back as the
      number.
    - BOOLEAN_TO_TEXT: a boolean, with the default labels or two distinct
      non-empty labels.
    - ENUM_TO_TEXT: a code whose label the reverse mapping sends back.
    - SPLIT: a text with a single part, and no index configured.
    - PHONE_FORMAT: a text of digits.
    - EMAIL_NORMALIZE: a text in lower case and trimmed.
    - JSON_TO_STRING: a value that JSON writes without loss, on a runtime
      whose [JSON] is [jsonPrint] and [jsonRead] on such values.
    - ARRAY_TO_STRING: a non-empty array of texts none of which holds the
      first character of the separator.
    - CUSTOM_FUNCTION: any value when no function is configured; with
      both functions, a value on which the reverse function undoes the
      function.

    The five types without a reverse are not covered. *)
Definition readsBack (h : Host) (t : DataTransformer.transform) (config v : value)
  : Prop :=
  match t with
  | DataTransformer.DATE_FORMAT =>
      exists time,
        v = VNum time /\ truthy v = true /\ dateTime h v = time
        /\ let format := or_else (getOpt config "format") (VStr "MM/DD/YYYY") in
           if strictEq format (VStr "MM/DD/YYYY") then localMidnight h time
           else DataTransformer.formatDate h v format <> ""
                /\ dateTime h (VStr (DataTransformer.formatDate h v format)) = time
  | DataTransformer.NUMBER_FORMAT =>
      exists f, v = VNum f /\ readableNumber h f /\ printsExactly h config f
  | DataTransformer.CURRENCY_FORMAT =>
      exists f text,
        v = VNum f /\ readableNumber h f
        /\ intlCurrency h (or_else (getOpt config "currency") (VStr "USD")) f = Ok text
        /\ parseFloat h (filter_chars DataTransformer.is_numeric_char text) = f
  | DataTransformer.BOOLEAN_TO_TEXT =>
      (exists b, v = VBool b)
      /\ (truthy (getOpt config "trueValue") = false
          \/ exists yes no,
               getOpt config "trueValue" = VStr yes
               /\ getOpt config "falseValue" = VStr no
               /\ yes <> "" /\ no <> "" /\ yes <> no)
  | DataTransformer.ENUM_TO_TEXT =>
      exists code label,
        v = VStr code /\ code <> "" /\ label <> ""
        /\ truthy (getOpt config "mapping") = true
        /\ truthy (getOpt config "reverseMapping") = true
        /\ getKey h (getOpt config "mapping") (VStr code) = VStr label
        /\ getKey h (getOpt config "reverseMapping") (VStr label) = VStr code
  | DataTransformer.SPLIT =>
      exists s c sep',
        v = VStr s
        /\ getOpt config "index" = VUndefined
        /\ separatorOf h config "," = String c sep'
        /\ lacks c s
  | DataTransformer.PHONE_FORMAT =>
      exists digits, v = VStr digits /\ all_chars is_digit digits = true
  | DataTransformer.EMAIL_NORMALIZE =>
      exists s, v = VStr s /\ trim (toLowerCase s) = s
  | DataTransformer.JSON_TO_STRING =>
      jsonValue (numToString h) (parseFloat h) v /\ jsonRuntime h
  | DataTransformer.ARRAY_TO_STRING =>
      exists items c sep',
        v = VArr (map VStr items) /\ items <> []
        /\ separatorOf h config ", " = String c sep'
        /\ Forall (lacks c) items
  | DataTransformer.CUSTOM_FUNCTION =>
      (truthy (getOpt config "function") = false
       /\ truthy (getOpt config "reverseFunction") = false)
      \/ (truthy (getOpt config "function") = true
          /\ truthy (getOpt config "reverseFunction") = true
          /\ exists w,
               runCustom h (getOpt config "function") v = Ok w
               /\ runCustom h (getOpt config "reverseFunction") w = Ok v)
  | DataTransformer.CONCATENATE | DataTransformer.UPPERCASE
  | DataTransformer.LOWERCASE | DataTransformer.TITLE_CASE
  | DataTransformer.TRIM => False
  end.

(** Where a number literal ends: at the end of the text or before a
    character that no number literal holds. *)
Definition stops (rest : string) : Prop :=
  match rest with
  | String c _ => number_char c = false
  | EmptyString => True
  end.

(** What a printed JSON value starts with. *)
Definition opens (c : ascii) : Prop :=
  starts_number c = true
  \/ In c ["n"; "t"; "f"; "["; "{"; ascii_of_nat 34]%char.

(** A field as [jsonPrint] writes it. *)
Definition printField (print : float -> string) (kv : string * value) : string :=
  match kv with (k, x) => dq +++ k +++ dq +++ ":" +++ jsonPrint print x end.

(** With this much fuel, the reader reads back printed values, the
    elements of a printed array, the fields of a printed object. *)
Definition readsValue (print : float -> string) (parse : string -> float)
    (fuel : nat) : Prop :=
  forall v rest,
    jsonValue print parse v ->
    String.length (jsonPrint print v) <= fuel ->
    stops rest ->
    readValue parse fuel (jsonPrint print v +++ rest) = Some (v, rest).

Definition readsItems (print : float -> string) (parse : string -> float)
    (fuel : nat) : Prop :=
  forall items rest,
    items <> [] ->
    Forall (jsonValue print parse) items ->
    String.length (String.concat "," (map (jsonPrint print) items)) < fuel ->
    readItems parse fuel (String.concat "," (map (jsonPrint print) items) +++ "]" +++ rest)
    = Some (items, rest).

Definition readsFields (print : float -> string) (parse : string -> float)
    (fuel : nat) : Prop :=
  forall fields rest,
    fields <> [] ->
    Forall (fun kv => jsonKey (fst kv) /\ jsonValue print parse (snd kv)) fields ->
    String.length (String.concat "," (map (printField print) fields)) < fuel ->
    readFields parse fuel
      (String.concat "," (map (printField print) fields) +++ "}" +++ rest)
    = Some (fields, rest).

(** The changes the current rows give when each is judged against the
    stored map as it was read. *)
Fixpoint rowChanges (h : Host) (rows : list (list value)) (index : Z)
    (stateMap : list (Z * string)) : list SheetsToHubSpot.Change :=
  match rows with
  | [] => []
  | r :: rest =>
      SheetsToHubSpot.classify (index + 2)%Z (JSMap.get Z.eqb (index + 2)%Z stateMap)
        (calculateRowHash h r)
      ++ rowChanges h rest (index + 1)%Z stateMap
  end.

(** Row numbers [lo], ..., [lo + n - 1]. *)
Definition inRange (lo : Z) (n : nat) (k : Z) : bool :=
  (lo <=? k)%Z && (k <? lo + Z.of_nat n)%Z.

(** Where the loop of [updateSheet] puts an incoming row.  The key value
    is the cell at [keyColumnIndex + 1], as the source reads it: a row
    without a key value is skipped, a row whose key text is in the index is
    a targeted update at the indexed row number, any other row is
    appended. *)
Inductive placement : Type :=
| Skipped
| UpdatedAt (rowNumber : Z)
| Appended.

Definition placementOf (h : Host) (existingRecords : list (string * Z))
    (keyColumnIndex : Z) (row : list value) : placement :=
  let keyValue := nthZ row (keyColumnIndex + 1)%Z in
  if truthy keyValue then
    match JSMap.get String.eqb (toStr h keyValue) existingRecords with
    | Some n => UpdatedAt n
    | None => Appended
    end
  else Skipped.

Definition updatesOf (h : Host) (sheetName : string)
    (existingRecords : list (string * Z)) (keyColumnIndex : Z)
    (newData : list (list value)) : list CellUpdate :=
  flat_map (fun row =>
              match placementOf h existingRecords keyColumnIndex row with
              | UpdatedAt n =>
                  [{| range := HubSpotToSheets.rangeOf sheetName n; values := [row] |}]
              | _ => []
              end) newData.

Definition appendsOf (h : Host) (existingRecords : list (string * Z))
    (keyColumnIndex : Z) (newData : list (list value)) : list (list value) :=
  filter (fun row =>
            match placementOf h existingRecords keyColumnIndex row with
            | Appended => true
            | _ => false
            end) newData.

Definition skippedOf (h : Host) (existingRecords : list (string * Z))
    (keyColumnIndex : Z) (newData : list (list value)) : list (list value) :=
  filter (fun row =>
            match placementOf h existingRecords keyColumnIndex row with
            | Skipped => true
            | _ => false
            end) newData.

(** An index whose entries are row numbers of sheet rows that hold the
    key: the row number is the position of the row plus 2. *)
Definition indexesRows (h : Host) (keyColumnIndex : Z) (rows : list (list value))
    (existingRecords : list (string * Z)) : Prop :=
  forall key n,
    JSMap.get String.eqb key existingRecords = Some n ->
    (2 <= n)%Z
    /\ exists row,
         nth_error rows (Z.to_nat (n - 2)) = Some row
         /\ truthy (nthZ row keyColumnIndex) = true
         /\ toStr h (nthZ row keyColumnIndex) = key.

(** An index that misses no key of the sheet rows. *)
Definition coversRows (h : Host) (keyColumnIndex : Z) (rows : list (list value))
    (existingRecords : list (string * Z)) : Prop :=
  forall row,
    In row rows ->
    truthy (nthZ row keyColumnIndex) = true ->
    JSMap.get String.eqb (toStr h (nthZ row keyColumnIndex)) existingRecords <> None.

(** A record in which no property is [null] or [undefined]. *)
Definition noNullish (fs : list (string * value)) : Prop :=
  forall k v, In (k, v) fs -> is_nullish v = false.

(** The rows of a run accounted for: processed, or in the error list. *)
Definition settled (s : SheetsToHubSpot.SheetsSyncResult) : nat :=
  SheetsToHubSpot.rowsProcessed s + List.length (SheetsToHubSpot.errors s).

(** A computation that leaves [rowsProcessed] and [errors] as they are. *)
Definition untouched {A : Type} (m : M SheetsToHubSpot.SheetsSyncResult A) : Prop :=
  forall s hs,
    SheetsToHubSpot.rowsProcessed (snd (fst (m s hs))) = SheetsToHubSpot.rowsProcessed s
    /\ SheetsToHubSpot.errors (snd (fst (m s hs))) = SheetsToHubSpot.errors s.

(** The rows that are not empty. *)
Definition nonEmptyRows (h : Host) (rows : list (list value)) : list (list value) :=
  filter (fun r => negb (SheetsToHubSpot.isEmptyRow h r)) rows.

(** The message of [validateHeaders] for a column. *)
Definition columnNotFound (column : string) : string :=
  "Column " +++ dq +++ column +++ dq +++ " not found in sheet".

(** The cell [transformData] writes for a mapping: the property, after
    its transformation, or the empty text in place of a falsy value. *)
Definition cellOf (h : Host) (props : value) (m : HubSpotToSheets.FieldMapping) : value :=
  or_else (HubSpotToSheets.applyTransformation h
             (getOpt props (HubSpotToSheets.hubspotProperty m))
             (HubSpotToSheets.transformType m))
          (VStr "").

(** A cell that holds a truthy value or the empty text. *)
Definition filled (v : value) : Prop := truthy v = true \/ v = VStr "".

(** Mappings whose column indexes are 0, 1, 2, ... in this order. *)
Definition consecutive (ms : list HubSpotToSheets.FieldMapping) : Prop :=
  map HubSpotToSheets.columnIndex ms = map Z.of_nat (seq 0 (List.length ms)).

(** Mappings in the order of their column indexes. *)
Definition byColumnIndex (a b : HubSpotToSheets.FieldMapping) : Prop :=
  (HubSpotToSheets.columnIndex a <= HubSpotToSheets.columnIndex b)%Z.

(** A computation that leaves the result object as it is. *)
Definition stateless {S A : Type} (m : M S A) : Prop :=
  forall s hs, snd (fst (m s hs)) = s.

(** The one entry the [catch] of the CRM->Sheet run adds. *)
Definition runError (message : string) : HubSpotToSheets.RecordError :=
  {| HubSpotToSheets.record := VNull; HubSpotToSheets.error := message |}.

(** A page of the CRM that names a next page. *)
Definition hasNextPage (response : value) : Prop :=
  (exists found, obind (getStrict response "results") HubSpotToSheets.spread = Ok found)
  /\ truthy (getOpt (getOpt (getOpt response "paging") "next") "after") = true.

(** The page requests among the calls. *)
Definition pageRequests (hs : history) : list event :=
  filter (fun e => match e with EGetPage _ _ _ => true | _ => false end) hs.

(** The key of the table [sheetSyncState]: the spreadsheet and the record
    id ([spreadsheetId_hubspotEntityId]). *)
Definition sameState (k k' : string * value) : bool :=
  String.eqb (fst k) (fst k') && strictEq (snd k) (snd k').

(** [prisma.sheetSyncState.upsert]: the state stored under the key is
    replaced, or a state is added. *)
Definition upsertInto (table : list ((string * value) * SyncState)) (e : event)
  : list ((string * value) * SyncState) :=
  match e with
  | EStateUpsert sid id n hash =>
      JSMap.set sameState (sid, id) {| sheetRowNumber := n; syncHash := hash |} table
  | _ => table
  end.

(** The table after the upserts among the calls. *)
Definition tableAfter (table : list ((string * value) * SyncState)) (hs : history)
  : list ((string * value) * SyncState) :=
  fold_left upsertInto hs table.

(** The states the table holds after the calls, from an empty table. *)
Definition storedBy (hs : history) : list SyncState := map snd (tableAfter [] hs).



(** The upserts of the CRM->Sheet [updateSyncState], row by row. *)
Fixpoint upserts (h : Host) (spreadsheetId : string) (data : list (list value))
    (index : Z) : list event :=
  match data with
  | [] => []
  | row :: rest =>
      EStateUpsert spreadsheetId (nthZ row 0%Z) (index + 2)%Z (calculateRowHash h row)
      :: upserts h spreadsheetId rest (index + 1)%Z
  end.


(** The rows a Sheet->CRM result counts as created, updated or skipped. *)
Definition tally (s : SheetsToHubSpot.SheetsSyncResult) : nat :=
  SheetsToHubSpot.recordsCreated s + SheetsToHubSpot.recordsUpdated s
  + SheetsToHubSpot.recordsSkipped s.

(** What one turn of the row loop may do to the counters: at most one of
    created, updated and skipped goes up, by one; [rowsProcessed] goes up
    only with one of them; the turn leaves a count or an error. *)
Definition countsARow (s s' : SheetsToHubSpot.SheetsSyncResult) : Prop :=
  tally s <= tally s' <= tally s + 1
  /\ SheetsToHubSpot.rowsProcessed s <= SheetsToHubSpot.rowsProcessed s'
  /\ SheetsToHubSpot.rowsProcessed s' + tally s
     <= tally s' + SheetsToHubSpot.rowsProcessed s
  /\ List.length (SheetsToHubSpot.errors s) <= List.length (SheetsToHubSpot.errors s')
  /\ tally s + List.length (SheetsToHubSpot.errors s) + 1
     <= tally s' + List.length (SheetsToHubSpot.errors s').

(** The cell a Sheet->CRM mapping reads. *)
Definition cellFor (row : list value) (m : SheetsToHubSpot.FieldMapping) : value :=
  nthZ row (SheetsToHubSpot.columnIndex m).

(** A required mapping whose cell gives no usable value: the cell has no
    content, or its transformed value is falsy. *)
Definition lacksValue (h : Host) (row : list value) (m : SheetsToHubSpot.FieldMapping)
  : bool :=
  SheetsToHubSpot.isRequired m
  && negb (SheetsToHubSpot.has_content (cellFor row m)
           && truthy (SheetsToHubSpot.applyTransformation h (cellFor row m)
                        (SheetsToHubSpot.transformType m))).

(** The three write modes the [switch] of the CRM->Sheet run knows. *)
Definition writeModes : list string := ["overwrite"; "append"; "update"].

(** The calls that change the sheet. *)
Definition isWrite (e : event) : bool :=
  match e with
  | EClearRange _ _ _ | EWriteSheet _ _ _ _ | EAppendToSheet _ _ _ | EUpdateCells _ _ => true
  | _ => false
  end.

Definition sheetWrites (hs : history) : list event := filter isWrite hs.

(** A computation that makes no call that changes the sheet. *)
Definition writesNothing {S A : Type} (m : M S A) : Prop :=
  forall s hs, sheetWrites (snd (m s hs)) = sheetWrites hs.

(** The records a CRM->Sheet result counts as created, updated or skipped. *)
Definition placed (r : HubSpotToSheets.SyncResult) : nat :=
  HubSpotToSheets.recordsCreated r + HubSpotToSheets.recordsUpdated r
  + HubSpotToSheets.recordsSkipped r.


(** The value [transformSheetsToHubSpot] computes for a mapping: the cell
    of its column, or the default when the cell is [null] or [undefined],
    then the reverse transformation when the mapping names one. *)
Definition reverseValue (h : Host) (sheetData : list (string * value))
    (m : RecordTransformer.FieldMapping) : outcome value :=
  let value := nullish_else (lookup_field (RecordTransformer.sheetColumn m) sheetData)
                            (RecordTransformer.defaultValue m) in
  match RecordTransformer.transforms m value with
  | Some t =>
      DataTransformer.applyReverseTransformation h value t
        (RecordTransformer.transformConfig m)
  | None => Ok value
  end.

(** A mapping whose computed value is [null] or [undefined], or is not. *)
Definition valueMissing (h : Host) (sheetData : list (string * value))
    (m : RecordTransformer.FieldMapping) : Prop :=
  exists w, reverseValue h sheetData m = Ok w /\ is_nullish w = true.

Definition valuePresent (h : Host) (sheetData : list (string * value))
    (m : RecordTransformer.FieldMapping) : Prop :=
  exists w, reverseValue h sheetData m = Ok w /\ is_nullish w = false.

(** A text of ASCII characters, on which the case functions of the model
    are those of JavaScript character by character. *)
Definition asciiText (s : string) : Prop :=
  all_chars (fun c => code c <? 128) s = true.

(** The indexes on which the doubles of [getColumnLetter] and
    [getColumnIndex] compute as the integers do. *)
Definition exactIndex (index : Z) : Prop := (index < 2 ^ 50)%Z.

(** A column name: capital letters only. *)
Definition columnName (letter : string) : Prop := all_chars is_upper letter = true.

End Props.

(* ===================================================================== *)
(** ** Field transformer: unknown transform types                        *)
(* ===================================================================== *)

Import JS Runtime Effects Props.

Lemma caseOf_unlisted (t : string) :
  ~ In t transformerLabels -> DataTransformer.caseOf t = None.
Proof.
  intros Hnot. unfold DataTransformer.caseOf.
  destruct (find _ DataTransformer.recognized) as [x|] eqn:Hfind; [|reflexivity].
  apply find_some in Hfind. destruct Hfind as [Hin Heq].
  apply String.eqb_eq in Heq. exfalso. apply Hnot.
  unfold transformerLabels. rewrite Heq. now apply in_map.
Qed.

Lemma eqb_unlisted (t x : string) (l : list string) :
  ~ In t l -> In x l -> String.eqb t x = false.
Proof.
  intros Hnot Hin. apply String.eqb_neq. intros ->. now apply Hnot.
Qed.

Lemma sheet_transform_unlisted (h : Host) (v : value) (t : string) :
  ~ In t sheetLabels -> SheetsToHubSpot.applyTransformation h v (Some t) = v.
Proof.
  intros Hnot. unfold SheetsToHubSpot.applyTransformation.
  destruct (String.eqb t "") eqn:E0; [reflexivity|].
  repeat match goal with
  | |- (if String.eqb t ?x then _ else _) = _ =>
      rewrite (eqb_unlisted t x sheetLabels Hnot) by (unfold sheetLabels; simpl; tauto)
  end.
  reflexivity.
Qed.

(** C7. Whatever the value and the configuration, a transform type that is
    none of the [case] labels of [DataTransformer] makes both
    [applyTransformation] (forward) and [applyReverseTransformation]
    (reverse) return the value given, as a normal result and not an
    exception; [SheetsToHubSpotSync.applyTransformation] does the same
    outside its own labels, and with no transform type at all. *)
Theorem C7_unknown_transform_returns_input
    (h : Host) (v config : value) (t : string) :
  ~ In t transformerLabels ->
  DataTransformer.applyTransformation h v t config = Ok v
  /\ DataTransformer.applyReverseTransformation h v t config = Ok v
  /\ (~ In t sheetLabels -> SheetsToHubSpot.applyTransformation h v (Some t) = v)
  /\ SheetsToHubSpot.applyTransformation h v None = v.
Proof.
  intros Hnot. pose proof (caseOf_unlisted t Hnot) as Hcase.
  unfold DataTransformer.applyTransformation, DataTransformer.applyReverseTransformation.
  rewrite Hcase. repeat split.
  intros Hs. now apply sheet_transform_unlisted.
Qed.

Lemma C7_unknown_transform_witness :
  DataTransformer.applyTransformation Examples.exampleHost
    (VStr "Ada Lovelace") "REVERSE_WORDS" (VObj [("separator", VStr " ")])
  = Ok (VStr "Ada Lovelace")
  /\ DataTransformer.applyReverseTransformation Examples.exampleHost
       (VStr "Ada Lovelace") "REVERSE_WORDS" (VObj [("separator", VStr " ")])
     = Ok (VStr "Ada Lovelace").
Proof.
  destruct (C7_unknown_transform_returns_input Examples.exampleHost
              (VStr "Ada Lovelace") (VObj [("separator", VStr " ")]) "REVERSE_WORDS")
    as (Hf & Hr & _).
  - unfold transformerLabels. simpl. intros H.
    repeat (destruct H as [H|H]; [discriminate H|]). exact H.
  - split; [exact Hf | exact Hr].
Defined.

(* ===================================================================== *)
(** ** Row codec: empty rows                                             *)
(* ===================================================================== *)

(** What [isEmptyRow] decides: every cell is falsy or blank once trimmed. *)
Lemma isEmptyRow_iff (h : Host) (row : list value) :
  SheetsToHubSpot.isEmptyRow h row = true
  <-> Forall (fun cell => truthy cell = false \/ trim (toStr h cell) = "") row.
Proof.
  unfold SheetsToHubSpot.isEmptyRow. rewrite forallb_forall, Forall_forall.
  split; intros H cell Hin; specialize (H cell Hin).
  - apply orb_true_iff in H. destruct H as [H|H].
    + left. now apply negb_true_iff.
    + right. now apply String.eqb_eq.
  - apply orb_true_iff. destruct H as [H|H].
    + left. now apply negb_true_iff.
    + right. now apply String.eqb_eq.
Qed.

(** A row of cells that are blank in the sense of the specification is
    empty for the code, whatever its width. *)
Lemma isEmptyRow_blank_cells (h : Host) (row : list value) :
  Forall (blankCell h) row -> SheetsToHubSpot.isEmptyRow h row = true.
Proof.
  intros H. apply isEmptyRow_iff. eapply Forall_impl; [|exact H].
  intros cell [-> | [-> | Hb]]; auto.
Qed.

(** C5. The code also takes a row for empty when its cells are the boolean
    [false] or the number zero, which are neither [null], nor [undefined],
    nor blank once trimmed: [false] prints as the five letters of its name.
    The zero-length row is empty. *)
Theorem C5_isEmptyRow_takes_false_and_zero_for_empty (h : Host) :
  SheetsToHubSpot.isEmptyRow h [VBool false] = true
  /\ ~ blankCell h (VBool false)
  /\ SheetsToHubSpot.isEmptyRow h [VNum 0%float; VBool false] = true
  /\ SheetsToHubSpot.isEmptyRow h [] = true.
Proof.
  repeat split; try reflexivity.
  intros [H | [H | H]]; discriminate H.
Qed.

(* ===================================================================== *)
(** ** Sheet->CRM: looking a record up                                   *)
(* ===================================================================== *)

Section FindRecord.
Variable h : Host.
Variable W : World.

(** [findHubSpotRecord] returns normally, whatever the world answers. *)
Lemma findHubSpotRecord_returns {S : Type} (entityType property : string)
    (v : value) (s : S) (hs : history) :
  exists found s' hs',
    SheetsToHubSpot.findHubSpotRecord W entityType property v s hs = (Ok found, s', hs').
Proof.
  unfold SheetsToHubSpot.findHubSpotRecord, tryCatch, bind, ret.
  destruct (SheetsToHubSpot.searchFor W entityType property v s hs) as [[[r|m] s'] hs'];
    eauto.
Qed.

Lemma searchFor_searches {S : Type} (entityType property : string)
    (v : value) (s : S) (hs : history) :
  searches entityType property = true ->
  SheetsToHubSpot.searchFor W entityType property v s hs
  = (search W hs entityType property v, s, hs ++ [ESearch entityType property v]).
Proof.
  unfold searches, SheetsToHubSpot.searchFor, SheetsToHubSpot.doSearch, call.
  intros Hs.
  destruct (String.eqb entityType "contacts") eqn:Ec.
  - apply String.eqb_eq in Ec. subst entityType.
    destruct (String.eqb property "email") eqn:Ee.
    + apply String.eqb_eq in Ee. subst property. reflexivity.
    + simpl in Hs. discriminate Hs.
  - destruct (String.eqb entityType "companies") eqn:Eco.
    + apply String.eqb_eq in Eco. subst entityType. reflexivity.
    + destruct (String.eqb entityType "deals") eqn:Ed.
      * apply String.eqb_eq in Ed. subst entityType. reflexivity.
      * simpl in Hs. discriminate Hs.
Qed.

Lemma searches_supported (entityType property : string) :
  searches entityType property = true -> SheetsToHubSpot.supported entityType = true.
Proof.
  unfold searches, SheetsToHubSpot.supported.
  destruct (String.eqb entityType "contacts"), (String.eqb entityType "companies"),
    (String.eqb entityType "deals"); simpl; auto.
Qed.

Lemma findHubSpotRecord_search_throws {S : Type} (entityType property : string)
    (v : value) (s : S) (hs : history) (msg : string) :
  searches entityType property = true ->
  search W hs entityType property v = Throw msg ->
  SheetsToHubSpot.findHubSpotRecord W entityType property v s hs
  = (Ok VNull, s, hs ++ [ESearch entityType property v]).
Proof.
  intros Hs Hthrow.
  unfold SheetsToHubSpot.findHubSpotRecord, tryCatch, bind, ret.
  rewrite (searchFor_searches _ _ _ _ _ Hs), Hthrow. reflexivity.
Qed.

Lemma findHubSpotRecord_contacts_other {S : Type} (property : string)
    (v : value) (s : S) (hs : history) :
  property <> "email" ->
  SheetsToHubSpot.findHubSpotRecord W "contacts" property v s hs = (Ok VNull, s, hs).
Proof.
  intros Hne. apply String.eqb_neq in Hne.
  unfold SheetsToHubSpot.findHubSpotRecord, tryCatch, bind, ret,
    SheetsToHubSpot.searchFor.
  simpl. rewrite Hne. reflexivity.
Qed.

(** A row that is not empty and has its required fields goes on to the
    lookup; when the lookup gives [null] the row takes the branch of the
    records not found. *)
Lemma rowBody_not_found (config : SheetsToHubSpot.SheetsToHubSpotSyncConfig)
    (jobId : string) (identifierIndex rowNumber : Z) (row : list value)
    (s : SheetsToHubSpot.SheetsSyncResult) (hs hs' : history) :
  SheetsToHubSpot.isEmptyRow h row = false ->
  SheetsToHubSpot.valid
    (SheetsToHubSpot.transformRowToHubSpot h row (SheetsToHubSpot.fieldMappings config))
    (SheetsToHubSpot.fieldMappings config) = true ->
  SheetsToHubSpot.findHubSpotRecord W (SheetsToHubSpot.hubspotEntityType config)
    (SheetsToHubSpot.identifierColumn config) (nthZ row identifierIndex) s hs
  = (Ok VNull, s, hs') ->
  SheetsToHubSpot.rowBody h W config jobId identifierIndex rowNumber row s hs
  = (SheetsToHubSpot.whenNotFound W config jobId rowNumber
       (SheetsToHubSpot.transformRowToHubSpot h row (SheetsToHubSpot.fieldMappings config)) ;;;
     modify SheetsToHubSpot.incProcessed) s hs'.
Proof.
  intros Hempty Hvalid Hfind.
  unfold SheetsToHubSpot.rowBody. rewrite Hempty, Hvalid. cbn [negb].
  unfold bind at 1. rewrite Hfind. reflexivity.
Qed.

End FindRecord.

(** C10. For the entity type [contacts] and an identifier column other
    than [email], [findHubSpotRecord] makes no call at all (the history is
    left as it was) and returns [null] for every identifier value; a row
    that is not empty and has its required fields then takes the branch of
    the records not found, whatever the CRM holds. *)
Theorem C10_contacts_without_email_are_never_found
    (h : Host) (W : World) (config : SheetsToHubSpot.SheetsToHubSpotSyncConfig) :
  SheetsToHubSpot.hubspotEntityType config = "contacts" ->
  SheetsToHubSpot.identifierColumn config <> "email" ->
  (forall (S : Type) (v : value) (s : S) (hs : history),
      SheetsToHubSpot.findHubSpotRecord W "contacts"
        (SheetsToHubSpot.identifierColumn config) v s hs = (Ok VNull, s, hs))
  /\ (forall jobId identifierIndex rowNumber row s hs,
      SheetsToHubSpot.isEmptyRow h row = false ->
      SheetsToHubSpot.valid
        (SheetsToHubSpot.transformRowToHubSpot h row (SheetsToHubSpot.fieldMappings config))
        (SheetsToHubSpot.fieldMappings config) = true ->
      SheetsToHubSpot.rowBody h W config jobId identifierIndex rowNumber row s hs
      = (SheetsToHubSpot.whenNotFound W config jobId rowNumber
           (SheetsToHubSpot.transformRowToHubSpot h row
              (SheetsToHubSpot.fieldMappings config)) ;;;
         modify SheetsToHubSpot.incProcessed) s hs).
Proof.
  intros Hentity Hcolumn. split.
  - intros S v s hs. now apply findHubSpotRecord_contacts_other.
  - intros jobId identifierIndex rowNumber row s hs Hempty Hvalid.
    apply rowBody_not_found; try assumption.
    rewrite Hentity. now apply findHubSpotRecord_contacts_other.
Qed.

Lemma C10_contacts_without_email_witness :
  SheetsToHubSpot.findHubSpotRecord (Examples.matchingWorld Examples.contactSheet)
    "contacts" "firstname" (VStr "Ada") tt []
  = (Ok VNull, tt, []).
Proof.
  refine (proj1 (C10_contacts_without_email_are_never_found Examples.exampleHost
                   (Examples.matchingWorld Examples.contactSheet)
                   (Examples.sheetConfig "contacts" "firstname" true) _ _)
                unit (VStr "Ada") tt []).
  - reflexivity.
  - simpl. discriminate.
Defined.

(** C9. When the search that [findHubSpotRecord] performs throws, the
    exception goes no further: [findHubSpotRecord] returns [null] and leaves
    the result object as it was, so no row error is recorded for it.  A row
    that is not empty and has its required fields then takes the branch of
    the records not found; with [createNew] the next call is the creation
    of a record from the row, and when the creation, the log entry and the
    fingerprint upsert succeed the row counts as created and processed. *)
Theorem C9_failed_search_counts_as_not_found
    (h : Host) (W : World) (config : SheetsToHubSpot.SheetsToHubSpotSyncConfig)
    (jobId : string) (identifierIndex rowIndex : Z) (row : list value)
    (s : SheetsToHubSpot.SheetsSyncResult) (hs : history) (msg : string) :
  let entityType := SheetsToHubSpot.hubspotEntityType config in
  let property := SheetsToHubSpot.identifierColumn config in
  let identifier := nthZ row identifierIndex in
  let hubspotData :=
    SheetsToHubSpot.transformRowToHubSpot h row (SheetsToHubSpot.fieldMappings config) in
  let searched := hs ++ [ESearch entityType property identifier] in
  searches entityType property = true ->
  search W hs entityType property identifier = Throw msg ->
  SheetsToHubSpot.isEmptyRow h row = false ->
  SheetsToHubSpot.valid hubspotData (SheetsToHubSpot.fieldMappings config) = true ->
  SheetsToHubSpot.findHubSpotRecord W entityType property identifier s hs
  = (Ok VNull, s, searched)
  /\ SheetsToHubSpot.rowBody h W config jobId identifierIndex (rowIndex + 2)%Z row s hs
     = (SheetsToHubSpot.whenNotFound W config jobId (rowIndex + 2)%Z hubspotData ;;;
        modify SheetsToHubSpot.incProcessed) s searched
  /\ (SheetsToHubSpot.createNew config = true ->
      forall newRecord,
        let created := searched ++ [ECreate entityType hubspotData] in
        let logged := ELog jobId "CREATE" (toUpperCase entityType)
                        (getOpt newRecord "id") "SUCCESS" None in
        let upserted := EStateUpsert (SheetsToHubSpot.spreadsheetId config)
                          (getOpt newRecord "id") (rowIndex + 2)%Z "" in
        create W searched entityType hubspotData = Ok newRecord ->
        is_nullish newRecord = false ->
        logCreate W created logged = Ok tt ->
        stateUpsert W (created ++ [logged]) upserted = Ok tt ->
        SheetsToHubSpot.processRow h W config jobId identifierIndex rowIndex row s hs
        = (Ok tt, SheetsToHubSpot.incProcessed (SheetsToHubSpot.incCreated s),
           created ++ [logged; upserted])).
Proof.
  intros entityType property identifier hubspotData searched Hs Hthrow Hempty Hvalid.
  assert (Hfind : SheetsToHubSpot.findHubSpotRecord W entityType property identifier s hs
                  = (Ok VNull, s, searched))
    by (now apply findHubSpotRecord_search_throws with (msg := msg)).
  assert (Hbody := rowBody_not_found h W config jobId identifierIndex (rowIndex + 2)%Z
                     row s hs searched Hempty Hvalid Hfind).
  split; [exact Hfind|]. split; [exact Hbody|].
  intros Hcreate newRecord created logged upserted Hcreated Hnull Hlog Hupsert.
  unfold SheetsToHubSpot.processRow, tryCatch. rewrite Hbody.
  unfold SheetsToHubSpot.whenNotFound. rewrite Hcreate.
  unfold SheetsToHubSpot.createHubSpotRecord.
  fold entityType. rewrite (searches_supported _ _ Hs).
  unfold bind, call, modify, lift, ret, SheetsToHubSpot.logSyncOperation,
    SheetsToHubSpot.updateSyncState, call.
  fold hubspotData. fold created. rewrite Hcreated.
  assert (Hid : getStrict newRecord "id" = Ok (getOpt newRecord "id"))
    by (destruct newRecord; try discriminate Hnull; reflexivity).
  rewrite Hid. fold logged. rewrite Hlog. fold upserted. rewrite Hupsert.
  unfold created. rewrite <- app_assoc. reflexivity.
Qed.

Lemma C9_failed_search_witness :
  SheetsToHubSpot.processRow Examples.exampleHost
    (Examples.searchDownWorld Examples.contactSheet)
    (Examples.sheetConfig "contacts" "email" false) "job-1" 0%Z 1%Z
    [VStr "ada@x.com"; VStr "Ada"] SheetsToHubSpot.initialResult []
  = (Ok tt,
     SheetsToHubSpot.incProcessed
       (SheetsToHubSpot.incCreated SheetsToHubSpot.initialResult),
     [ESearch "contacts" "email" (VStr "ada@x.com");
      ECreate "contacts" [("email", VStr "ada@x.com"); ("firstname", VStr "Ada")];
      ELog "job-1" "CREATE" "CONTACTS" (VStr "101") "SUCCESS" None;
      EStateUpsert "sheet-1" (VStr "101") 3%Z ""]).
Proof.
  destruct (C9_failed_search_counts_as_not_found Examples.exampleHost
              (Examples.searchDownWorld Examples.contactSheet)
              (Examples.sheetConfig "contacts" "email" false) "job-1" 0%Z 1%Z
              [VStr "ada@x.com"; VStr "Ada"] SheetsToHubSpot.initialResult []
              "HTTP 429" eq_refl eq_refl eq_refl eq_refl) as (_ & _ & Hcreate).
  exact (Hcreate eq_refl (VObj [("id", VStr "101")]) eq_refl eq_refl eq_refl eq_refl).
Defined.

(* ===================================================================== *)
(** ** Sheet->CRM: the row loop and the error list                       *)
(* ===================================================================== *)

Section ErrorList.
Variable h : Host.
Variable W : World.

Lemma keeps_ret {A} (a : A) : keeps (ret a).
Proof. intros s hs. simpl. lia. Qed.

Lemma keeps_throw {A} (msg : string) : keeps (@throw _ A msg).
Proof. intros s hs. simpl. lia. Qed.

Lemma keeps_lift {A} (o : outcome A) : keeps (lift o).
Proof. intros s hs. simpl. lia. Qed.

Lemma keeps_get : keeps get.
Proof. intros s hs. simpl. lia. Qed.

Lemma keeps_call {A} (e : event) (answer : history -> outcome A) : keeps (call e answer).
Proof. intros s hs. simpl. lia. Qed.

Lemma keeps_modify (f : SheetsToHubSpot.SheetsSyncResult -> SheetsToHubSpot.SheetsSyncResult) :
  (forall s, List.length (SheetsToHubSpot.errors s)
             <= List.length (SheetsToHubSpot.errors (f s))) ->
  keeps (modify f).
Proof. intros Hf s hs. simpl. apply Hf. Qed.

Lemma keeps_bind {A B} (m : M _ A) (k : A -> M _ B) :
  keeps m -> (forall a, keeps (k a)) -> keeps (bind m k).
Proof.
  intros Hm Hk s hs. unfold bind. specialize (Hm s hs).
  destruct (m s hs) as [[[a|msg] s'] hs']; simpl in *; [|exact Hm].
  specialize (Hk a s' hs'). lia.
Qed.

Lemma keeps_tryCatch {A} (m : M _ A) (handler : string -> M _ A) :
  keeps m -> (forall msg, keeps (handler msg)) -> keeps (tryCatch m handler).
Proof.
  intros Hm Hh s hs. unfold tryCatch. specialize (Hm s hs).
  destruct (m s hs) as [[[a|msg] s'] hs']; simpl in *; [exact Hm|].
  specialize (Hh msg s' hs'). lia.
Qed.

Lemma length_pushError (e : SheetsToHubSpot.RowError) (s : SheetsToHubSpot.SheetsSyncResult) :
  List.length (SheetsToHubSpot.errors (SheetsToHubSpot.pushError e s))
  = S (List.length (SheetsToHubSpot.errors s)).
Proof. simpl. rewrite length_app. simpl. lia. Qed.

Ltac keeps_step :=
  match goal with
  | |- keeps (bind _ _) => apply keeps_bind; [|intros ?]
  | |- keeps (tryCatch _ _) => apply keeps_tryCatch; [|intros ?]
  | |- keeps (ret _) => apply keeps_ret
  | |- keeps (throw _) => apply keeps_throw
  | |- keeps (lift _) => apply keeps_lift
  | |- keeps get => apply keeps_get
  | |- keeps (call _ _) => apply keeps_call
  | |- keeps (modify (SheetsToHubSpot.pushError _)) =>
      apply keeps_modify; intros ?; rewrite length_pushError; lia
  | |- keeps (modify _) => apply keeps_modify; intros ?; simpl; lia
  | |- keeps (if ?c then _ else _) => destruct c
  | |- keeps (match ?c with _ => _ end) => destruct c
  end.

Lemma keeps_findHubSpotRecord (entityType property : string) (v : value) :
  keeps (SheetsToHubSpot.findHubSpotRecord W entityType property v).
Proof.
  unfold SheetsToHubSpot.findHubSpotRecord, SheetsToHubSpot.searchFor,
    SheetsToHubSpot.doSearch.
  repeat keeps_step.
Qed.

Lemma keeps_processRow (config : SheetsToHubSpot.SheetsToHubSpotSyncConfig)
    (jobId : string) (identifierIndex rowIndex : Z) (row : list value) :
  keeps (SheetsToHubSpot.processRow h W config jobId identifierIndex rowIndex row).
Proof.
  unfold SheetsToHubSpot.processRow, SheetsToHubSpot.rowBody, SheetsToHubSpot.rowCatch,
    SheetsToHubSpot.whenFound, SheetsToHubSpot.whenNotFound,
    SheetsToHubSpot.createHubSpotRecord, SheetsToHubSpot.updateHubSpotRecord,
    SheetsToHubSpot.logSyncOperation, SheetsToHubSpot.updateSyncState.
  repeat first [apply keeps_findHubSpotRecord | keeps_step].
Qed.

Lemma keeps_rowLoop (config : SheetsToHubSpot.SheetsToHubSpotSyncConfig)
    (jobId : string) (identifierIndex : Z) (rows : list (list value)) (rowIndex : Z) :
  keeps (SheetsToHubSpot.rowLoop h W config jobId identifierIndex rowIndex rows).
Proof.
  revert rowIndex. induction rows as [|row rest IH]; intros rowIndex; simpl.
  - apply keeps_ret.
  - apply keeps_bind; [apply keeps_processRow | intros _; apply IH].
Qed.

(** The loop over [pre ++ post] is the loop over [pre], then, unless it
    raised, the loop over [post]. *)
Lemma rowLoop_app (config : SheetsToHubSpot.SheetsToHubSpotSyncConfig)
    (jobId : string) (identifierIndex : Z) (pre post : list (list value))
    (rowIndex : Z) (s : SheetsToHubSpot.SheetsSyncResult) (hs : history) :
  SheetsToHubSpot.rowLoop h W config jobId identifierIndex rowIndex (pre ++ post) s hs
  = match SheetsToHubSpot.rowLoop h W config jobId identifierIndex rowIndex pre s hs with
    | (Ok _, s1, hs1) =>
        SheetsToHubSpot.rowLoop h W config jobId identifierIndex
          (rowIndex + Z.of_nat (List.length pre))%Z post s1 hs1
    | (Throw m, s1, hs1) => (Throw m, s1, hs1)
    end.
Proof.
  revert rowIndex s hs. induction pre as [|row rest IH]; intros rowIndex s hs.
  - simpl. unfold ret. now rewrite Z.add_0_r.
  - simpl app. simpl SheetsToHubSpot.rowLoop. unfold bind.
    destruct (SheetsToHubSpot.processRow h W config jobId identifierIndex rowIndex row s hs)
      as [[[u|m] s1] hs1]; [|reflexivity].
    rewrite IH. replace (rowIndex + 1 + Z.of_nat (List.length rest))%Z
      with (rowIndex + Z.of_nat (List.length (row :: rest)))%Z
      by (simpl List.length; lia).
    reflexivity.
Qed.

(** With [skipInvalid] off, a row that is not empty and lacks a required
    field throws inside the row-level [try]: the [catch] records the row
    and logs it, and that log entry is the only call made for the row. *)
Lemma processRow_strict_invalid (config : SheetsToHubSpot.SheetsToHubSpotSyncConfig)
    (jobId : string) (identifierIndex rowIndex : Z) (row : list value)
    (s : SheetsToHubSpot.SheetsSyncResult) (hs : history) :
  SheetsToHubSpot.skipInvalid config = false ->
  SheetsToHubSpot.isEmptyRow h row = false ->
  SheetsToHubSpot.valid
    (SheetsToHubSpot.transformRowToHubSpot h row (SheetsToHubSpot.fieldMappings config))
    (SheetsToHubSpot.fieldMappings config) = false ->
  let message :=
    "Row " +++ Z_to_string (rowIndex + 2)%Z +++ ": "
    +++ SheetsToHubSpot.missingMessage
          (SheetsToHubSpot.missingFields
             (SheetsToHubSpot.transformRowToHubSpot h row
                (SheetsToHubSpot.fieldMappings config))
             (SheetsToHubSpot.fieldMappings config)) in
  let entry := ELog jobId "SKIP" (toUpperCase (SheetsToHubSpot.hubspotEntityType config))
                 (VStr "") "ERROR" (Some message) in
  SheetsToHubSpot.processRow h W config jobId identifierIndex rowIndex row s hs
  = (logCreate W hs entry,
     SheetsToHubSpot.pushError
       {| SheetsToHubSpot.row := (rowIndex + 2)%Z; SheetsToHubSpot.data := row;
          SheetsToHubSpot.error := message |} s,
     hs ++ [entry]).
Proof.
  intros Hstrict Hempty Hinvalid message entry.
  unfold SheetsToHubSpot.processRow, tryCatch, SheetsToHubSpot.rowBody.
  rewrite Hempty, Hinvalid, Hstrict. cbn [negb]. unfold throw.
  unfold SheetsToHubSpot.rowCatch, bind, modify, SheetsToHubSpot.logSyncOperation, call.
  reflexivity.
Qed.

End ErrorList.

Section StrictMode.
Variable h : Host.
Variable W : World.
Variable config : SheetsToHubSpot.SheetsToHubSpotSyncConfig.
Hypothesis Hstrict : SheetsToHubSpot.skipInvalid config = false.

(** When the sheet holds a row that is not empty and lacks a required
    field, a loop that ends normally leaves an error in the result. *)
Lemma rowLoop_strict_leaves_error (jobId : string) (identifierIndex : Z)
    (pre post : list (list value)) (bad : list value) (rowIndex : Z)
    (s : SheetsToHubSpot.SheetsSyncResult) (hs : history) :
  SheetsToHubSpot.isEmptyRow h bad = false ->
  SheetsToHubSpot.valid
    (SheetsToHubSpot.transformRowToHubSpot h bad (SheetsToHubSpot.fieldMappings config))
    (SheetsToHubSpot.fieldMappings config) = false ->
  forall u s' hs',
    SheetsToHubSpot.rowLoop h W config jobId identifierIndex rowIndex
      (pre ++ bad :: post) s hs = (Ok u, s', hs') ->
    SheetsToHubSpot.errors s' <> [].
Proof.
  intros Hempty Hinvalid u s' hs' Hrun.
  rewrite rowLoop_app in Hrun.
  destruct (SheetsToHubSpot.rowLoop h W config jobId identifierIndex rowIndex pre s hs)
    as [[[u1|m] s1] hs1]; [|discriminate Hrun].
  simpl SheetsToHubSpot.rowLoop in Hrun. unfold bind in Hrun.
  rewrite (processRow_strict_invalid h W config jobId identifierIndex _ bad s1 hs1
             Hstrict Hempty Hinvalid) in Hrun.
  destruct (logCreate W hs1 _) as [u2|m]; [|discriminate Hrun].
  match type of Hrun with
  | SheetsToHubSpot.rowLoop _ _ _ _ _ ?i post ?s2 ?hs2 = _ =>
      pose proof (keeps_rowLoop h W config jobId identifierIndex post i s2 hs2) as Hkeep
  end.
  rewrite Hrun in Hkeep. simpl in Hkeep. rewrite length_app in Hkeep. simpl in Hkeep.
  intros Hnil. rewrite Hnil in Hkeep. simpl in Hkeep. lia.
Qed.

End StrictMode.

(** The shape of a run once the job is created, the sheet is read and the
    headers are accepted: the row loop, then the closing job update; an
    exception from either goes through the outer [catch], which updates the
    job again and throws. *)
Lemma executeSync_after_checks
    (h : Host) (W : World) (config : SheetsToHubSpot.SheetsToHubSpotSyncConfig)
    (hs0 : history) (jobId : string) (sheet : SheetData) :
  let identifierIndex := indexOf (headers sheet) (SheetsToHubSpot.identifierColumn config) in
  let hs2 := (hs0 ++ [EJobCreate (SheetsToHubSpot.syncConfigId config) "IN_PROGRESS"])
             ++ [EReadSheet (SheetsToHubSpot.spreadsheetId config)
                   (SheetsToHubSpot.sheetName config)] in
  jobCreate W hs0 (SheetsToHubSpot.syncConfigId config) = Ok jobId ->
  readSheet W (hs0 ++ [EJobCreate (SheetsToHubSpot.syncConfigId config) "IN_PROGRESS"])
    (SheetsToHubSpot.spreadsheetId config) (SheetsToHubSpot.sheetName config) = Ok sheet ->
  SheetsToHubSpot.validateHeaders (headers sheet) (SheetsToHubSpot.fieldMappings config)
  = Ok tt ->
  identifierIndex <> (-1)%Z ->
  SheetsToHubSpot.executeSync h W config hs0
  = match SheetsToHubSpot.rowLoop h W config jobId identifierIndex 0%Z (rows sheet)
            SheetsToHubSpot.initialResult hs2 with
    | (Ok _, s3, hs3) =>
        let r := SheetsToHubSpot.setSuccess s3 in
        let closing := EJobUpdate jobId (SheetsToHubSpot.finalJobUpdate r) in
        match jobUpdate W hs3 jobId (SheetsToHubSpot.finalJobUpdate r) with
        | Ok _ => (Ok r, hs3 ++ [closing])
        | Throw m =>
            (match jobUpdate W (hs3 ++ [closing]) jobId (SheetsToHubSpot.failedJobUpdate m) with
             | Ok _ => Throw m
             | Throw m' => Throw m'
             end,
             (hs3 ++ [closing]) ++ [EJobUpdate jobId (SheetsToHubSpot.failedJobUpdate m)])
        end
    | (Throw m, s3, hs3) =>
        (match jobUpdate W hs3 jobId (SheetsToHubSpot.failedJobUpdate m) with
         | Ok _ => Throw m
         | Throw m' => Throw m'
         end,
         hs3 ++ [EJobUpdate jobId (SheetsToHubSpot.failedJobUpdate m)])
    end.
Proof.
  intros identifierIndex hs2 Hjob Hread Hheaders Hident.
  unfold SheetsToHubSpot.executeSync, SheetsToHubSpot.executeSync_on.
  unfold bind at 1. unfold call at 1. rewrite Hjob.
  unfold bind at 1. unfold tryCatch. unfold SheetsToHubSpot.syncBody.
  unfold bind at 1. unfold call at 1. rewrite Hread.
  unfold bind at 1. rewrite Hheaders. unfold lift at 1.
  unfold bind at 1. fold identifierIndex.
  destruct (identifierIndex =? -1)%Z eqn:Eid; [apply Z.eqb_eq in Eid; contradiction|].
  unfold ret at 1. unfold bind at 1. fold hs2.
  destruct (SheetsToHubSpot.rowLoop h W config jobId identifierIndex 0 (rows sheet) _ hs2)
    as [[[u|m] s3] hs3].
  - unfold bind, modify, get, SheetsToHubSpot.doJobUpdate, call, throw. cbv zeta.
    destruct (jobUpdate W hs3 jobId _) as [u1|m1]; [reflexivity|].
    destruct (jobUpdate W _ jobId (SheetsToHubSpot.failedJobUpdate m1)); reflexivity.
  - unfold bind, SheetsToHubSpot.doJobUpdate, call, throw.
    destruct (jobUpdate W hs3 jobId (SheetsToHubSpot.failedJobUpdate m)); reflexivity.
Qed.

(** C1 (amended). With [skipInvalid] off, a data row that is not empty and
    lacks a required mapped field throws inside the row-level [try]; the
    row-level [catch] takes it.  The row is added to the errors with the
    message [Row n: Missing required fields: ...], the one call made for it
    is the log entry SKIP / ERROR (so neither create nor update), and the
    loop goes on to the rows after it unless that log entry itself fails.
    The last call of the run is an update of the job with status FAILED,
    and a run that returns a result returns it with [success = false] and
    a non-empty error list. *)
Theorem C1_strict_mode_records_the_row_and_goes_on
    (h : Host) (W : World) (config : SheetsToHubSpot.SheetsToHubSpotSyncConfig)
    (hs0 : history) (jobId : string) (sheet : SheetData)
    (pre post : list (list value)) (bad : list value) :
  let mappings := SheetsToHubSpot.fieldMappings config in
  let identifierIndex := indexOf (headers sheet) (SheetsToHubSpot.identifierColumn config) in
  let rowIndex := Z.of_nat (List.length pre) in
  let message :=
    "Row " +++ Z_to_string (rowIndex + 2)%Z +++ ": "
    +++ SheetsToHubSpot.missingMessage
          (SheetsToHubSpot.missingFields
             (SheetsToHubSpot.transformRowToHubSpot h bad mappings) mappings) in
  let entry := ELog jobId "SKIP" (toUpperCase (SheetsToHubSpot.hubspotEntityType config))
                 (VStr "") "ERROR" (Some message) in
  let recorded :=
    SheetsToHubSpot.pushError
      {| SheetsToHubSpot.row := (rowIndex + 2)%Z; SheetsToHubSpot.data := bad;
         SheetsToHubSpot.error := message |} in
  SheetsToHubSpot.skipInvalid config = false ->
  jobCreate W hs0 (SheetsToHubSpot.syncConfigId config) = Ok jobId ->
  readSheet W (hs0 ++ [EJobCreate (SheetsToHubSpot.syncConfigId config) "IN_PROGRESS"])
    (SheetsToHubSpot.spreadsheetId config) (SheetsToHubSpot.sheetName config) = Ok sheet ->
  SheetsToHubSpot.validateHeaders (headers sheet) mappings = Ok tt ->
  identifierIndex <> (-1)%Z ->
  rows sheet = pre ++ bad :: post ->
  SheetsToHubSpot.isEmptyRow h bad = false ->
  SheetsToHubSpot.valid (SheetsToHubSpot.transformRowToHubSpot h bad mappings) mappings
  = false ->
  (forall s hs,
      SheetsToHubSpot.rowLoop h W config jobId identifierIndex rowIndex (bad :: post) s hs
      = match logCreate W hs entry with
        | Ok _ =>
            SheetsToHubSpot.rowLoop h W config jobId identifierIndex (rowIndex + 1)%Z post
              (recorded s) (hs ++ [entry])
        | Throw m => (Throw m, recorded s, hs ++ [entry])
        end)
  /\ (exists before d,
        snd (SheetsToHubSpot.executeSync h W config hs0) = before ++ [EJobUpdate jobId d]
        /\ jobStatus d = "FAILED")
  /\ (forall r,
        fst (SheetsToHubSpot.executeSync h W config hs0) = Ok r ->
        SheetsToHubSpot.success r = false /\ SheetsToHubSpot.errors r <> []).
Proof.
  intros mappings identifierIndex rowIndex message entry recorded
    Hstrict Hjob Hread Hheaders Hident Hrows Hempty Hinvalid.
  split.
  { intros s hs. simpl SheetsToHubSpot.rowLoop. unfold bind.
    rewrite (processRow_strict_invalid h W config jobId identifierIndex rowIndex bad s hs
               Hstrict Hempty Hinvalid).
    fold mappings. fold message. fold entry. fold recorded.
    destruct (logCreate W hs entry); reflexivity. }
  assert (Hloop := rowLoop_strict_leaves_error h W config Hstrict jobId identifierIndex
                     pre post bad 0%Z SheetsToHubSpot.initialResult
                     ((hs0 ++ [EJobCreate (SheetsToHubSpot.syncConfigId config) "IN_PROGRESS"])
                        ++ [EReadSheet (SheetsToHubSpot.spreadsheetId config)
                              (SheetsToHubSpot.sheetName config)])
                     Hempty Hinvalid).
  rewrite (executeSync_after_checks h W config hs0 jobId sheet Hjob Hread Hheaders Hident).
  fold identifierIndex. rewrite Hrows. cbv zeta.
  destruct (SheetsToHubSpot.rowLoop h W config jobId identifierIndex 0 (pre ++ bad :: post) _ _)
    as [[[u|m] s3] hs3].
  - specialize (Hloop u s3 hs3 eq_refl).
    assert (Hfail : SheetsToHubSpot.success (SheetsToHubSpot.setSuccess s3) = false)
      by (unfold SheetsToHubSpot.setSuccess; simpl;
          destruct (SheetsToHubSpot.errors s3); [contradiction|reflexivity]).
    destruct (jobUpdate W hs3 jobId _) as [u1|m1]; simpl.
    + split.
      * eexists; eexists; split; [reflexivity|].
        unfold SheetsToHubSpot.finalJobUpdate. cbn [jobStatus]. now rewrite Hfail.
      * intros r Hr. injection Hr as <-. split; [exact Hfail|exact Hloop].
    + split.
      * eexists; eexists; split; reflexivity.
      * intros r Hr. destruct (jobUpdate W _ jobId _); discriminate Hr.
  - clear Hloop. simpl. split.
    + eexists; eexists; split; reflexivity.
    + intros r Hr. destruct (jobUpdate W _ jobId _); discriminate Hr.
Qed.

Lemma C1_strict_mode_witness :
  (exists before d,
      snd (SheetsToHubSpot.executeSync Examples.exampleHost
             (Examples.calmWorld Examples.contactSheet [])
             (Examples.sheetConfig "contacts" "email" false) [])
      = before ++ [EJobUpdate "job-1" d]
      /\ jobStatus d = "FAILED")
  /\ (forall r,
      fst (SheetsToHubSpot.executeSync Examples.exampleHost
             (Examples.calmWorld Examples.contactSheet [])
             (Examples.sheetConfig "contacts" "email" false) []) = Ok r ->
      SheetsToHubSpot.success r = false /\ SheetsToHubSpot.errors r <> []).
Proof.
  refine (proj2 (C1_strict_mode_records_the_row_and_goes_on Examples.exampleHost
                   (Examples.calmWorld Examples.contactSheet [])
                   (Examples.sheetConfig "contacts" "email" false) [] "job-1"
                   Examples.contactSheet [] [[VStr "ada@x.com"; VStr "Ada"]]
                   [VStr ""; VStr "Jo"]
                   eq_refl eq_refl eq_refl eq_refl _ eq_refl eq_refl eq_refl)).
  vm_compute. discriminate.
Defined.

(** C1 as stated fails: with [skipInvalid] off, a sheet whose row 2 lacks
    the required email and whose row 3 is complete gives a run that returns
    a result instead of raising, and row 3 is searched for, created, logged
    and fingerprinted after the error of row 2 was logged. *)
Lemma C1_counterexample_the_run_returns_and_later_rows_are_created :
  SheetsToHubSpot.skipInvalid (Examples.sheetConfig "contacts" "email" false) = false
  /\ SheetsToHubSpot.isEmptyRow Examples.exampleHost [VStr ""; VStr "Jo"] = false
  /\ SheetsToHubSpot.missingFields
       (SheetsToHubSpot.transformRowToHubSpot Examples.exampleHost [VStr ""; VStr "Jo"]
          Examples.contactMappings)
       Examples.contactMappings = ["email"]
  /\ SheetsToHubSpot.executeSync Examples.exampleHost
       (Examples.calmWorld Examples.contactSheet [])
       (Examples.sheetConfig "contacts" "email" false) []
     = (Ok {| SheetsToHubSpot.success := false;
              SheetsToHubSpot.rowsProcessed := 1;
              SheetsToHubSpot.recordsCreated := 1;
              SheetsToHubSpot.recordsUpdated := 0;
              SheetsToHubSpot.recordsSkipped := 0;
              SheetsToHubSpot.errors :=
                [{| SheetsToHubSpot.row := 2%Z;
                    SheetsToHubSpot.data := [VStr ""; VStr "Jo"];
                    SheetsToHubSpot.error := "Row 2: Missing required fields: email" |}] |},
        [EJobCreate "cfg-1" "IN_PROGRESS";
         EReadSheet "sheet-1" "Contacts";
         ELog "job-1" "SKIP" "CONTACTS" (VStr "") "ERROR"
              (Some "Row 2: Missing required fields: email");
         ESearch "contacts" "email" (VStr "ada@x.com");
         ECreate "contacts" [("email", VStr "ada@x.com"); ("firstname", VStr "Ada")];
         ELog "job-1" "CREATE" "CONTACTS" (VStr "101") "SUCCESS" None;
         EStateUpsert "sheet-1" (VStr "101") 3%Z "";
         EJobUpdate "job-1"
           {| jobStatus := "FAILED"; jobProcessed := Some 1; jobCreated := Some 1;
              jobUpdated := Some 0; jobFailed := Some 1;
              errorMessage := Some "1 records failed to sync" |}]).
Proof. repeat split. Qed.

(* ===================================================================== *)
(** ** The result of a run: [success] and the error list                 *)
(* ===================================================================== *)

(** Sheet->CRM: a result that is returned was last touched by
    [result.success = result.errors.length === 0]. *)
Lemma sheet_run_sets_success_last
    (h : Host) (W : World) (config : SheetsToHubSpot.SheetsToHubSpotSyncConfig)
    (hs0 : history) (r : SheetsToHubSpot.SheetsSyncResult) :
  fst (SheetsToHubSpot.executeSync h W config hs0) = Ok r ->
  exists s3, r = SheetsToHubSpot.setSuccess s3.
Proof.
  unfold SheetsToHubSpot.executeSync, SheetsToHubSpot.executeSync_on,
    SheetsToHubSpot.syncBody, SheetsToHubSpot.doJobUpdate,
    bind, call, tryCatch, lift, modify, get, throw, ret.
  destruct (jobCreate W hs0 _) as [jobId|m0]; [|discriminate].
  destruct (readSheet W _ _ _) as [sheet|m1].
  2:{ destruct (jobUpdate W _ jobId _); discriminate. }
  destruct (SheetsToHubSpot.validateHeaders _ _) as [u|m2].
  2:{ destruct (jobUpdate W _ jobId _); discriminate. }
  destruct (_ =? -1)%Z.
  { destruct (jobUpdate W _ jobId _); discriminate. }
  destruct (SheetsToHubSpot.rowLoop h W config jobId _ 0 _ _ _) as [[[u3|m3] s3] hs3].
  2:{ destruct (jobUpdate W _ jobId _); discriminate. }
  destruct (jobUpdate W hs3 jobId _) as [u4|m4].
  - simpl. intros Hr. injection Hr as <-. now exists s3.
  - destruct (jobUpdate W _ jobId _); discriminate.
Qed.

(** X10. A result that the Sheet->CRM run returns says [success] exactly when
    its error list is empty. *)
Lemma sheet_run_success_iff_no_errors
    (h : Host) (W : World) (config : SheetsToHubSpot.SheetsToHubSpotSyncConfig)
    (hs0 : history) (r : SheetsToHubSpot.SheetsSyncResult) :
  fst (SheetsToHubSpot.executeSync h W config hs0) = Ok r ->
  (SheetsToHubSpot.success r = true <-> SheetsToHubSpot.errors r = []).
Proof.
  intros Hr. destruct (sheet_run_sets_success_last h W config hs0 r Hr) as [s3 ->].
  unfold SheetsToHubSpot.setSuccess. simpl.
  destruct (SheetsToHubSpot.errors s3); split; intros H; try reflexivity; discriminate H.
Qed.

(** C8. The CRM->Sheet orchestrator sets [success = true] inside its [try]
    before the job update and the fingerprint upserts.  In a world where
    everything succeeds but the fingerprint store, the [catch] then adds an
    error to a result that already says success: the run returns
    [success = true] with one error. *)
Theorem C8_crm_run_returns_success_with_an_error :
  fst (HubSpotToSheets.executeSync Examples.exampleHost
         (Examples.stateDownWorld Examples.keyedSheet Examples.twoContacts) 5
         (Examples.crmConfig "overwrite") [])
  = Ok (Some {| HubSpotToSheets.success := true;
                HubSpotToSheets.recordsProcessed := 2;
                HubSpotToSheets.recordsCreated := 2;
                HubSpotToSheets.recordsUpdated := 0;
                HubSpotToSheets.recordsSkipped := 0;
                HubSpotToSheets.errors :=
                  [{| HubSpotToSheets.record := VNull;
                      HubSpotToSheets.error := "connection terminated" |}] |}).
Proof. reflexivity. Qed.

(* ===================================================================== *)
(** ** Field transformer: forward then reverse                           *)
(* ===================================================================== *)

Lemma caseOf_transformName (t : DataTransformer.transform) :
  DataTransformer.caseOf (DataTransformer.transformName t) = Some t.
Proof. destruct t; reflexivity. Qed.

Lemma sapp_empty_r (s : string) : s +++ "" = s.
Proof. induction s as [|c s IH]; simpl; [reflexivity | now rewrite IH]. Qed.

Lemma sapp_assoc (a b c : string) : (a +++ b) +++ c = a +++ (b +++ c).
Proof. induction a as [|x a IH]; simpl; [reflexivity | now rewrite IH]. Qed.

Lemma filter_chars_all (p : ascii -> bool) (s : string) :
  all_chars p s = true -> filter_chars p s = s.
Proof.
  induction s as [|c s IH]; simpl; [reflexivity|].
  intros H. apply andb_true_iff in H. destruct H as [Hc Hs].
  rewrite Hc. now rewrite IH.
Qed.

Lemma filter_chars_app (p : ascii -> bool) (a b : string) :
  filter_chars p (a +++ b) = filter_chars p a +++ filter_chars p b.
Proof.
  induction a as [|c a IH]; simpl; [reflexivity|].
  destruct (p c); simpl; now rewrite IH.
Qed.

(** The digits of a formatted phone number are the digits given. *)
Lemma parsePhone_formatPhone (h : Host) (digits : string) (format : value) :
  all_chars is_digit digits = true ->
  DataTransformer.parsePhone h (VStr (DataTransformer.formatPhone h (VStr digits) format))
  = digits.
Proof.
  intros Hd. unfold DataTransformer.parsePhone, DataTransformer.formatPhone.
  cbn [toStr]. rewrite (filter_chars_all _ _ Hd).
  destruct (strictEq format (VStr "US") && (String.length digits =? 10)) eqn:Eus.
  - apply andb_true_iff in Eus. destruct Eus as [_ Hlen]. apply Nat.eqb_eq in Hlen.
    do 10 (destruct digits as [|? digits]; [discriminate Hlen|]).
    destruct digits; [|discriminate Hlen].
    cbn in Hd. repeat (apply andb_true_iff in Hd; destruct Hd as [? Hd]).
    cbn. repeat match goal with H : is_digit _ = true |- _ => rewrite H; clear H end.
    reflexivity.
  - now apply filter_chars_all.
Qed.

Lemma prefix_app (sep rest : string) : prefix sep (sep +++ rest) = true.
Proof.
  induction sep as [|c sep IH]; simpl; [now destruct rest|].
  destruct (ascii_dec c c) as [_|Hne]; [exact IH | now elim Hne].
Qed.

Lemma prefix_other_head (c0 c : ascii) (sep' s : string) :
  negb (Ascii.eqb c c0) = true -> prefix (String c0 sep') (String c s) = false.
Proof.
  intros Hne. simpl. destruct (ascii_dec c0 c) as [->|_]; [|reflexivity].
  rewrite Ascii.eqb_refl in Hne. discriminate Hne.
Qed.

(** Scanning a part that holds no first character of the separator moves
    the part into the text collected. *)
Lemma split_go_part (c0 : ascii) (sep' part rest cur : string) :
  lacks c0 part ->
  split_go (String c0 sep') (part +++ rest) 0 cur
  = split_go (String c0 sep') rest 0 (cur +++ part).
Proof.
  revert cur. induction part as [|c part IH]; intros cur Hl.
  - simpl. now rewrite sapp_empty_r.
  - unfold lacks in Hl. simpl in Hl. apply andb_true_iff in Hl. destruct Hl as [Hc Hp].
    change ((String c part) +++ rest) with (String c (part +++ rest)).
    cbn [split_go]. rewrite (prefix_other_head c0 c sep' _ Hc).
    rewrite (IH (cur +++ String c "") Hp). now rewrite sapp_assoc.
Qed.

Lemma split_go_skip (sep a rest cur : string) :
  split_go sep (a +++ rest) (String.length a) cur = split_go sep rest 0 cur.
Proof.
  induction a as [|c a IH]; simpl; [reflexivity | exact IH].
Qed.

(** At a separator the text collected is emitted and the scan resumes
    after the separator. *)
Lemma split_go_separator (c0 : ascii) (sep' rest cur : string) :
  split_go (String c0 sep') (String c0 sep' +++ rest) 0 cur
  = cur :: split_go (String c0 sep') rest 0 "".
Proof.
  change (String c0 sep' +++ rest) with (String c0 (sep' +++ rest)).
  cbn [split_go].
  change (String c0 (sep' +++ rest)) with (String c0 sep' +++ rest).
  rewrite prefix_app. cbn [String.length]. rewrite Nat.sub_1_r. cbn [Nat.pred].
  now rewrite split_go_skip.
Qed.

(** Splitting a joined list gives the list back when no item holds the
    first character of the separator. *)
Lemma split_join (c0 : ascii) (sep' : string) (items : list string) :
  items <> [] ->
  Forall (lacks c0) items ->
  split (String c0 sep') (join (String c0 sep') items) = items.
Proof.
  intros Hne Hall. unfold split, join.
  induction items as [|x rest IH]; [now elim Hne|].
  inversion Hall as [|? ? Hx Hrest]; subst.
  destruct rest as [|y rest].
  - simpl. rewrite <- (sapp_empty_r x) at 1.
    rewrite (split_go_part c0 sep' x "" "" Hx). reflexivity.
  - change (String.concat (String c0 sep') (x :: y :: rest))
      with (x +++ String c0 sep' +++ String.concat (String c0 sep') (y :: rest)).
    rewrite (split_go_part c0 sep' x _ "" Hx).
    rewrite split_go_separator. simpl "+++".
    f_equal. apply IH; [discriminate | exact Hrest].
Qed.

Lemma arrJoin_strings (h : Host) (sep : string) (items : list string) :
  arrJoin h sep (map VStr items) = join sep items.
Proof.
  unfold arrJoin, join. f_equal. rewrite map_map.
  rewrite <- (map_id items) at 2. apply map_ext. reflexivity.
Qed.

Lemma all_chars_app (p : ascii -> bool) (a b : string) :
  all_chars p (a +++ b) = all_chars p a && all_chars p b.
Proof.
  induction a as [|c a IH]; [reflexivity|].
  cbn [String.append all_chars]. rewrite IH. apply andb_assoc.
Qed.

Lemma slen_app (a b : string) :
  String.length (a +++ b) = String.length a + String.length b.
Proof. induction a; simpl; congruence. Qed.

(* ===================================================================== *)
(** ** JSON: the reader reads back what the printer writes               *)
(* ===================================================================== *)

Section Json.
Variable print : float -> string.
Variable parse : string -> float.

Lemma span_all (p : ascii -> bool) (a b : string) :
  all_chars p a = true ->
  match b with String c _ => p c = false | EmptyString => True end ->
  span p (a +++ b) = (a, b).
Proof.
  intros Ha Hb. induction a as [|c a IH]; simpl.
  - destruct b as [|c b]; [reflexivity|]. simpl. now rewrite Hb.
  - simpl in Ha. apply andb_true_iff in Ha. destruct Ha as [Hc Ha].
    rewrite Hc, (IH Ha). reflexivity.
Qed.

Lemma readText_text (s rest : string) :
  all_chars plain_char s = true ->
  readText (s +++ dq +++ rest) = Some (s, rest).
Proof.
  intros Hs. unfold readText.
  rewrite (span_all plain_char s (dq +++ rest) Hs); reflexivity.
Qed.

Lemma jsonPrint_obj (fields : list (string * value)) :
  jsonPrint print (VObj fields)
  = "{" +++ String.concat "," (map (printField print) fields) +++ "}".
Proof. reflexivity. Qed.

Lemma jsonPrint_opens (v : value) :
  jsonValue print parse v ->
  exists c r, jsonPrint print v = String c r /\ opens c.
Proof.
  intros Hv. destruct Hv as [|b|f [Hf _]|s _|items _|fields _ _].
  - exists "n"%char, "ull". split; [reflexivity|]. right. simpl. tauto.
  - destruct b; [exists "t"%char, "rue" | exists "f"%char, "alse"];
      (split; [reflexivity|]); right; simpl; tauto.
  - simpl. destruct (print f) as [|c r]; [destruct Hf|].
    exists c, r. split; [reflexivity|]. left. tauto.
  - exists (ascii_of_nat 34), (s +++ dq). split; [reflexivity|]. right. simpl. tauto.
  - eexists _, _. split; [reflexivity|]. right. simpl. tauto.
  - eexists _, _. split; [reflexivity|]. right. simpl. tauto.
Qed.

Lemma opens_not_closing (c : ascii) (r : string) :
  opens c -> readWord "]" (String c r) = None /\ readWord "}" (String c r) = None.
Proof.
  intros [Hnum|Hin].
  - assert (E1 : Ascii.eqb "]" c = false).
    { destruct (Ascii.eqb "]" c) eqn:E; [|reflexivity].
      apply Ascii.eqb_eq in E. subst c. discriminate Hnum. }
    assert (E2 : Ascii.eqb "}" c = false).
    { destruct (Ascii.eqb "}" c) eqn:E; [|reflexivity].
      apply Ascii.eqb_eq in E. subst c. discriminate Hnum. }
    cbn [readWord]. rewrite E1, E2. split; reflexivity.
  - simpl in Hin. repeat (destruct Hin as [<-|Hin]; [split; reflexivity|]). destruct Hin.
Qed.

Lemma concat_cons2 (sep x y : string) (l : list string) :
  String.concat sep (x :: y :: l) = x +++ sep +++ String.concat sep (y :: l).
Proof. reflexivity. Qed.

(** By induction on the fuel: a value is read with fuel for the length
    of its text, the elements and the fields with fuel for the length of
    theirs. *)
Lemma reads_all (fuel : nat) :
  readsValue print parse fuel /\ readsItems print parse fuel
  /\ readsFields print parse fuel.
Proof.
  induction fuel as [|n (IHv & IHi & IHf)].
  - split; [|split].
    + intros v rest Hv Hlen _. destruct (jsonPrint_opens v Hv) as (c & r & Heq & _).
      rewrite Heq in Hlen. simpl in Hlen. lia.
    + intros items rest _ _ Hlen. lia.
    + intros fields rest _ _ Hlen. lia.
  - split; [|split].
    + (* values *)
      intros v rest Hv Hlen Hstop.
      destruct Hv as [|b|f [Hf Hback]|s Hs|items Hitems|fields Hnd Hfields].
      * reflexivity.
      * destruct b; reflexivity.
      * cbn [jsonPrint]. destruct (print f) as [|c r] eqn:Hp; [destruct Hf|].
        destruct Hf as [Hc Hr]. cbn [String.append readValue]. rewrite Hc.
        change (String c (r +++ rest)) with (String c r +++ rest).
        rewrite (span_all number_char (String c r) rest).
        -- now rewrite Hback.
        -- simpl. rewrite Hr, andb_true_r. unfold starts_number in Hc. unfold number_char.
           apply orb_true_iff in Hc. destruct Hc as [-> | ->]; [reflexivity|].
           now rewrite orb_true_r.
        -- exact Hstop.
      * cbn [jsonPrint]. change ((dq +++ s +++ dq) +++ rest)
          with (String (ascii_of_nat 34) ((s +++ dq) +++ rest)).
        rewrite sapp_assoc. cbn [readValue].
        change (starts_number (ascii_of_nat 34)) with false. cbv iota.
        change (code (ascii_of_nat 34) =? 34) with true. cbv iota.
        now rewrite readText_text.
      * destruct items as [|x items]; [reflexivity|].
        cbn [jsonPrint] in *.
        set (body := String.concat "," (map (jsonPrint print) (x :: items))) in *.
        change (("[" +++ body +++ "]") +++ rest) with (String "[" ((body +++ "]") +++ rest)).
        rewrite sapp_assoc. cbn [readValue].
        change (starts_number "[") with false. cbv iota.
        change (code "[" =? 34) with false. cbv iota.
        change (Ascii.eqb "[" "n") with false. change (Ascii.eqb "[" "t") with false.
        change (Ascii.eqb "[" "f") with false. change (Ascii.eqb "[" "[") with true.
        cbv iota.
        inversion Hitems as [|? ? Hx Hrest]; subst.
        destruct (jsonPrint_opens x Hx) as (c & r & Heq & Hopen).
        assert (Hbody : exists r', body +++ "]" +++ rest = String c r').
        { unfold body. destruct items as [|y items].
          - cbn [map String.concat]. rewrite Heq. eexists. reflexivity.
          - cbn [map]. rewrite concat_cons2, Heq. eexists. reflexivity. }
        destruct Hbody as (r' & Hbody).
        destruct (opens_not_closing c r' Hopen) as [Hclose _].
        rewrite Hbody at 1. rewrite Hclose. subst body.
        rewrite (IHi (x :: items) rest); [reflexivity | discriminate | exact Hitems |].
        set (body := String.concat "," (map (jsonPrint print) (x :: items))) in *.
        change (String.length ("[" +++ body +++ "]"))
          with (S (String.length (body +++ "]"))) in Hlen.
        rewrite slen_app in Hlen. simpl in Hlen. lia.
      * destruct fields as [|kv fields]; [reflexivity|].
        rewrite jsonPrint_obj in *.
        set (body := String.concat "," (map (printField print) (kv :: fields))) in *.
        change (("{" +++ body +++ "}") +++ rest) with (String "{" ((body +++ "}") +++ rest)).
        rewrite sapp_assoc. cbn [readValue].
        change (starts_number "{") with false. cbv iota.
        change (code "{" =? 34) with false. cbv iota.
        change (Ascii.eqb "{" "n") with false. change (Ascii.eqb "{" "t") with false.
        change (Ascii.eqb "{" "f") with false. change (Ascii.eqb "{" "[") with false.
        change (Ascii.eqb "{" "{") with true.
        cbv iota.
        assert (Hbody : exists r', body +++ "}" +++ rest = String (ascii_of_nat 34) r').
        { unfold body. destruct kv as [k x]. destruct fields as [|y fields].
          - cbn [map String.concat printField]. eexists. reflexivity.
          - cbn [map]. rewrite concat_cons2. cbn [printField]. eexists. reflexivity. }
        destruct Hbody as (r' & Hbody).
        rewrite Hbody at 1.
        change (readWord "}" (String (ascii_of_nat 34) r')) with (@None string).
        subst body.
        rewrite (IHf (kv :: fields) rest); [reflexivity | discriminate | exact Hfields |].
        set (body := String.concat "," (map (printField print) (kv :: fields))) in *.
        change (String.length ("{" +++ body +++ "}"))
          with (S (String.length (body +++ "}"))) in Hlen.
        rewrite slen_app in Hlen. simpl in Hlen. lia.
    + (* elements *)
      intros items rest Hne Hitems Hlen.
      destruct items as [|x items]; [now elim Hne|].
      inversion Hitems as [|? ? Hx Hrest]; subst.
      cbn [readItems]. destruct items as [|y items].
      * cbn [map String.concat] in *.
        rewrite (IHv x ("]" +++ rest) Hx); [reflexivity | lia | reflexivity].
      * cbn [map] in *. rewrite concat_cons2 in *. rewrite !sapp_assoc.
        rewrite !slen_app in Hlen. cbn [String.length] in Hlen.
        rewrite (IHv x _ Hx); [| lia | reflexivity].
        cbn [String.append]. change (Ascii.eqb "," ",") with true. cbv iota.
        pose proof (IHi (y :: items) rest) as Hi. cbn [map String.append] in Hi.
        rewrite Hi; [reflexivity | discriminate | exact Hrest | lia].
    + (* fields *)
      intros fields rest Hne Hfields Hlen.
      destruct fields as [|[k x] fields]; [now elim Hne|].
      inversion Hfields as [|? ? [[Hk _] Hx] Hrest]; subst. cbn [fst snd] in *.
      cbn [readFields].
      assert (Hfield : forall tail,
                 readWord dq (printField print (k, x) +++ tail)
                 = Some (k +++ dq +++ ":" +++ jsonPrint print x +++ tail)).
      { intros tail. cbn [printField]. rewrite !sapp_assoc. reflexivity. }
      destruct fields as [|y fields].
      * cbn [map String.concat] in *. rewrite Hfield.
        rewrite (readText_text k _ Hk). cbn [readWord String.append].
        change (Ascii.eqb ":" ":") with true. cbv iota.
        cbn [printField] in Hlen. rewrite !slen_app in Hlen.
        change (String "}" rest) with ("}" +++ rest).
        rewrite (IHv x ("}" +++ rest) Hx); [reflexivity | simpl in Hlen; lia | reflexivity].
      * cbn [map] in *. rewrite concat_cons2 in *. rewrite sapp_assoc, Hfield.
        rewrite (readText_text k _ Hk). cbn [readWord String.append].
        change (Ascii.eqb ":" ":") with true. cbv iota.
        cbn [printField] in Hlen. rewrite !slen_app in Hlen. cbn [String.length] in Hlen.
        rewrite (IHv x _ Hx); [| simpl in Hlen; lia | reflexivity].
        cbn [String.append]. change (Ascii.eqb "," ",") with true. cbv iota.
        pose proof (IHf (y :: fields) rest) as Hf. cbn [map String.append] in Hf.
        rewrite Hf; [reflexivity | discriminate | exact Hrest | lia].
Qed.

(** [jsonRead] gives back every value that [jsonPrint] wrote. *)
Lemma jsonRead_jsonPrint (v : value) :
  jsonValue print parse v -> jsonRead parse (jsonPrint print v) = Ok v.
Proof.
  intros Hv. unfold jsonRead.
  destruct (reads_all (String.length (jsonPrint print v))) as [Hread _].
  pose proof (Hread v "" Hv (le_n _) I) as H. rewrite sapp_empty_r in H.
  now rewrite H.
Qed.

End Json.

(* ===================================================================== *)
(** ** Field transformer: the round trip, type by type                   *)
(* ===================================================================== *)

Section RoundTrip.
Variable h : Host.
Variables config v : value.

Ltac open_round_trip :=
  unfold roundTrip, DataTransformer.applyTransformation,
    DataTransformer.applyReverseTransformation;
  rewrite caseOf_transformName.

Lemma month_index_back (m : float) :
  In m monthIndexes -> PrimFloat.sub (PrimFloat.add m 1) 1 = m.
Proof.
  unfold monthIndexes. intros Hin.
  repeat (destruct Hin as [<-|Hin]; [reflexivity|]). destruct Hin.
Qed.

Lemma lacks_padded (c : ascii) (n : nat) (s : string) :
  Ascii.eqb "0" c = false -> lacks c s -> lacks c (padStart0 n s).
Proof.
  intros Hc Hs. unfold lacks, padStart0. rewrite all_chars_app. rewrite Hs, andb_true_r.
  induction (n - String.length s) as [|k IH]; [reflexivity|].
  cbn [zeros all_chars]. now rewrite Hc, IH.
Qed.

Lemma parseFloatOrZero_back (text : string) (f : float) :
  readableNumber h f ->
  parseFloat h text = f ->
  DataTransformer.parseFloatOrZero h text = VNum f.
Proof.
  intros (Hnan & Hzero & _) Hback. unfold DataTransformer.parseFloatOrZero, or_else.
  rewrite Hback. cbn [truthy]. rewrite Hnan. cbn [orb].
  destruct (PrimFloat.is_zero f) eqn:Hz; cbn [negb]; [|reflexivity].
  now rewrite (Hzero eq_refl).
Qed.

Lemma round_trip_date :
  readsBack h DataTransformer.DATE_FORMAT config v ->
  roundTrip h v (DataTransformer.transformName DataTransformer.DATE_FORMAT) config = Ok v.
Proof.
  intros (time & -> & Htruthy & Htime & Hformat). open_round_trip. cbn [obind].
  cbv zeta in Hformat.
  set (format := or_else (getOpt config "format") (VStr "MM/DD/YYYY")) in *.
  destruct (strictEq format (VStr "MM/DD/YYYY")) eqn:Hfmt.
  - destruct Hformat as (Hmonth & [Hm Hmback] & [Hd Hdback] & [Hy Hyback] & Hparts).
    assert (Hnan : PrimFloat.is_nan time = false).
    { cbn [truthy] in Htruthy. apply negb_true_iff, orb_false_iff in Htruthy. tauto. }
    set (mm := padStart0 2 (numToString h (PrimFloat.add (dateMonth h time) 1))).
    set (dd := padStart0 2 (numToString h (dateDay h time))).
    set (yyyy := numToString h (dateYear h time)).
    assert (Htext : DataTransformer.formatDate h (VNum time) format
                    = mm +++ "/" +++ dd +++ "/" +++ yyyy).
    { unfold DataTransformer.formatDate. rewrite Htruthy, Htime, Hnan, Hfmt. reflexivity. }
    rewrite Htext. unfold DataTransformer.parseDate. rewrite Hfmt. cbn [toStr truthy].
    assert (Hfull : String.eqb (mm +++ "/" +++ dd +++ "/" +++ yyyy) "" = false)
      by (destruct mm; reflexivity).
    rewrite Hfull. cbn [negb].
    change (mm +++ "/" +++ dd +++ "/" +++ yyyy) with (join "/" [mm; dd; yyyy]).
    rewrite (split_join "/" "" [mm; dd; yyyy]).
    + unfold mm, dd. rewrite Hmback, Hdback.
      pose proof (Hyback 0) as Hyear. change (padStart0 0 (numToString h (dateYear h time)))
        with yyyy in Hyear. rewrite Hyear.
      rewrite (month_index_back _ Hmonth). now rewrite Hparts.
    + discriminate.
    + repeat constructor; [apply lacks_padded | apply lacks_padded | ]; auto.
  - destruct Hformat as [Hfull Hback].
    unfold DataTransformer.parseDate. rewrite Hfmt. cbn [toStr truthy].
    apply String.eqb_neq in Hfull. rewrite Hfull. cbn [negb]. now rewrite Hback.
Qed.

Lemma round_trip_number :
  readsBack h DataTransformer.NUMBER_FORMAT config v ->
  roundTrip h v (DataTransformer.transformName DataTransformer.NUMBER_FORMAT) config = Ok v.
Proof.
  intros (f & -> & Hnum & Hprint). open_round_trip.
  pose proof Hnum as (Hnan & _ & Hback).
  unfold DataTransformer.formatNumber. cbn [toStr]. rewrite Hback, Hnan.
  unfold printsExactly in Hprint.
  assert (Hfixed : forall decimals,
             (exists text, toFixed h f decimals = Ok text
                           /\ all_chars DataTransformer.is_numeric_char text = true
                           /\ parseFloat h text = f) ->
             obind (DataTransformer.okStr (toFixed h f decimals))
                   (fun w => Ok (DataTransformer.parseNumber h w)) = Ok (VNum f)).
  { intros decimals (text & -> & Hchars & Hread). cbn [DataTransformer.okStr obind].
    unfold DataTransformer.parseNumber. cbn [toStr].
    rewrite (filter_chars_all _ _ Hchars). now rewrite (parseFloatOrZero_back text f). }
  destruct (getOpt config "decimals"); try (now apply Hfixed).
  destruct (truthy (getOpt config "thousands"));
    cbn [DataTransformer.okStr obind]; unfold DataTransformer.parseNumber; cbn [toStr].
  - rewrite Hprint. now rewrite (parseFloatOrZero_back _ f).
  - rewrite (filter_chars_all _ _ Hprint). now rewrite (parseFloatOrZero_back _ f).
Qed.

Lemma round_trip_currency :
  readsBack h DataTransformer.CURRENCY_FORMAT config v ->
  roundTrip h v (DataTransformer.transformName DataTransformer.CURRENCY_FORMAT) config
  = Ok v.
Proof.
  intros (f & text & -> & Hnum & Hprint & Hread). open_round_trip.
  pose proof Hnum as (Hnan & _ & Hback).
  unfold DataTransformer.formatCurrency. cbn [toStr]. rewrite Hback, Hnan, Hprint.
  cbn [DataTransformer.okStr obind]. unfold DataTransformer.parseCurrency. cbn [toStr].
  now rewrite (parseFloatOrZero_back _ f).
Qed.

Lemma round_trip_json :
  readsBack h DataTransformer.JSON_TO_STRING config v ->
  roundTrip h v (DataTransformer.transformName DataTransformer.JSON_TO_STRING) config
  = Ok v.
Proof.
  intros [Hv Hruntime]. open_round_trip. cbn [obind].
  destruct (Hruntime v Hv) as [Htext Hparse].
  pose proof (jsonRead_jsonPrint (numToString h) (parseFloat h) v Hv) as Hread.
  assert (Hstr : jsonStringify h v = VStr (jsonPrint (numToString h) v)).
  { unfold jsonStringify. rewrite Htext. now destruct Hv. }
  rewrite Hstr. cbn [toStr]. now rewrite Hparse, Hread.
Qed.

Lemma round_trip_custom :
  readsBack h DataTransformer.CUSTOM_FUNCTION config v ->
  roundTrip h v (DataTransformer.transformName DataTransformer.CUSTOM_FUNCTION) config
  = Ok v.
Proof.
  intros Hrb. open_round_trip. cbn [obind]. unfold DataTransformer.applyCustomFunction.
  destruct Hrb as [[Hf Hr] | (Hf & Hr & w & Hrun & Hback)]; rewrite Hf, Hr; cbn [negb].
  - reflexivity.
  - now rewrite Hrun, Hback.
Qed.

End RoundTrip.

(** C2 (amended). Forward then reverse gives the value back on the
    well-formed values of each of the eleven types that have a reverse:
    for DATE_FORMAT a time value, not 0, that is the local midnight which
    starts its day (format MM/DD/YYYY) or whose printed text [Date] reads
    back (another format); for NUMBER_FORMAT a number the runtime reads
    back from its print and the configured print does not round; for
    CURRENCY_FORMAT such a number whose currency text shows it without
    rounding; for BOOLEAN_TO_TEXT a boolean, with the default labels or two
    distinct non-empty configured labels; for ENUM_TO_TEXT a code whose
    label the reverse mapping sends back to it; for SPLIT a text with a
    single part and no index configured; for PHONE_FORMAT a text of digits;
    for EMAIL_NORMALIZE a text already in lower case and trimmed; for
    JSON_TO_STRING a value that JSON writes without loss; for
    ARRAY_TO_STRING a non-empty array of texts none of which holds the
    first character of the separator; for CUSTOM_FUNCTION any value when no
    function is configured, and with both functions a value on which the
    reverse function undoes the function. *)
Theorem C2_round_trip_where_the_value_reads_back
    (h : Host) (t : DataTransformer.transform) (config v : value) :
  readsBack h t config v ->
  roundTrip h v (DataTransformer.transformName t) config = Ok v.
Proof.
  intros Hrb.
  destruct t; try (now elim Hrb);
    try (first [ now apply round_trip_date | now apply round_trip_number
               | now apply round_trip_currency | now apply round_trip_json
               | now apply round_trip_custom ]);
    unfold roundTrip, DataTransformer.applyTransformation,
      DataTransformer.applyReverseTransformation;
    rewrite caseOf_transformName; cbn [readsBack] in Hrb.
  - (* BOOLEAN_TO_TEXT *)
    destruct Hrb as [[b ->] Hlabels]. cbn [obind].
    unfold DataTransformer.booleanToText, DataTransformer.textToBoolean.
    destruct Hlabels as [Hnone | (yes & no & Hy & Hn & Hyne & Hnne & Hdiff)].
    + rewrite Hnone. cbn [andb]. destruct b; reflexivity.
    + rewrite Hy, Hn. cbn [truthy].
      apply String.eqb_neq in Hyne, Hnne. rewrite Hyne, Hnne. cbn [negb andb].
      destruct b; cbn [strictEq Bool.eqb orb].
      * now rewrite String.eqb_refl.
      * apply String.eqb_neq in Hdiff. rewrite String.eqb_sym in Hdiff. now rewrite Hdiff.
  - (* ENUM_TO_TEXT *)
    destruct Hrb as (code & label & -> & Hc & Hl & Hm & Hr & Hfwd & Hback). cbn [obind].
    apply String.eqb_neq in Hl, Hc.
    assert (Hf : DataTransformer.enumToText h (VStr code) (getOpt config "mapping")
                 = VStr label).
    { unfold DataTransformer.enumToText. rewrite Hm, Hfwd. cbn [negb].
      unfold or_else. cbn [truthy]. now rewrite Hl. }
    assert (Hb : DataTransformer.textToEnum h (VStr label) (getOpt config "reverseMapping")
                 = VStr code).
    { unfold DataTransformer.textToEnum. rewrite Hr, Hback. cbn [negb].
      unfold or_else. cbn [truthy]. now rewrite Hc. }
    now rewrite Hf, Hb.
  - (* SPLIT *)
    destruct Hrb as (s & c & sep' & -> & Hidx & Hsep & Hl).
    unfold DataTransformer.splitField. rewrite Hidx. cbn [toStr].
    unfold separatorOf in Hsep. rewrite Hsep.
    unfold split. rewrite <- (sapp_empty_r s) at 1.
    rewrite (split_go_part c sep' s "" "" Hl). cbn.
    reflexivity.
  - (* PHONE_FORMAT *)
    destruct Hrb as (digits & -> & Hd). cbn [obind].
    now rewrite parsePhone_formatPhone.
  - (* EMAIL_NORMALIZE *)
    destruct Hrb as (s & -> & Hs). cbn [obind toStr]. now rewrite Hs, Hs.
  - (* ARRAY_TO_STRING *)
    destruct Hrb as (items & c & sep' & -> & Hne & Hsep & Hl).
    unfold separatorOf in Hsep. cbn [obind toStr]. rewrite Hsep.
    rewrite arrJoin_strings. now rewrite (split_join c sep' items Hne Hl).
Qed.

Lemma C2_round_trip_witness :
  roundTrip Examples.exampleHost (VStr "5551234567") "PHONE_FORMAT" (VObj [])
  = Ok (VStr "5551234567").
Proof.
  exact (C2_round_trip_where_the_value_reads_back Examples.exampleHost
           DataTransformer.PHONE_FORMAT (VObj []) (VStr "5551234567")
           (ex_intro _ "5551234567" (conj eq_refl eq_refl))).
Defined.

(** The example host with [JSON] as the printer and the reader give it is
    such a runtime, and a record with a nested object and an array comes
    back from its JSON text. *)
Lemma jsonHost_is_a_json_runtime : jsonRuntime Examples.jsonHost.
Proof. intros w _. split; reflexivity. Qed.

Lemma jsonRecord_is_a_json_value :
  jsonValue (numToString Examples.jsonHost) (parseFloat Examples.jsonHost)
            Examples.jsonRecord.
Proof.
  assert (Hkey : forall k, all_chars plain_char k = true ->
                           match k with String c _ => is_digit c = false | "" => True end ->
                           String.eqb k "__proto__" = false -> jsonKey k).
  { intros k H1 H2 H3. split; [exact H1|]. split; [exact H2|]. now apply String.eqb_neq. }
  unfold Examples.jsonRecord. constructor.
  - repeat constructor; simpl; intuition discriminate.
  - repeat (first [ apply Forall_nil | apply Forall_cons | split
                  | apply Hkey; reflexivity | apply JNull | apply JBool
                  | apply JStr; reflexivity | apply JArr | apply JNum
                  | apply JObj | reflexivity ]).
    + repeat constructor; simpl; intuition discriminate.
Qed.

Lemma json_round_trip_of_a_record :
  roundTrip Examples.jsonHost Examples.jsonRecord "JSON_TO_STRING" VUndefined
  = Ok Examples.jsonRecord.
Proof.
  apply (round_trip_json Examples.jsonHost VUndefined Examples.jsonRecord).
  split; [apply jsonRecord_is_a_json_value | apply jsonHost_is_a_json_runtime].
Qed.

(** The example host reads a whole number behind leading zeros. *)
Lemma digitsValue_zeros (k : nat) (s : string) :
  Examples.digitsValue (zeros k +++ s) 0 = Examples.digitsValue s 0.
Proof. induction k as [|k IH]; [reflexivity | exact IH]. Qed.

Lemma readInteger_padded (s : string) (x : float) :
  Examples.readInteger s = x ->
  PrimFloat.of_uint63 (Uint63.of_Z (Examples.digitsValue s 0)) = x ->
  forall n, Examples.readInteger (padStart0 n s) = x.
Proof.
  intros Hs Hdigits n. unfold padStart0.
  destruct (n - String.length s) as [|k]; [exact Hs|].
  unfold Examples.readInteger. cbn [zeros String.append trimStart].
  change (is_ws "0") with false. change (is_digit "0") with true. cbv iota.
  change (String "0" (zeros k +++ s)) with (zeros (S k) +++ s).
  now rewrite digitsValue_zeros.
Qed.

(** The first millisecond of a day comes back from its date. *)
Lemma date_round_trip_of_a_local_midnight :
  roundTrip Examples.newYearHost (VNum Examples.newYear2024) "DATE_FORMAT" VUndefined
  = Ok (VNum Examples.newYear2024).
Proof.
  apply (round_trip_date Examples.newYearHost VUndefined (VNum Examples.newYear2024)).
  exists Examples.newYear2024.
  split; [reflexivity|]. split; [reflexivity|]. split; [reflexivity|].
  change (localMidnight Examples.newYearHost Examples.newYear2024).
  split; [left; reflexivity|].
  split; [split; [reflexivity | now apply readInteger_padded]|].
  split; [split; [reflexivity | now apply readInteger_padded]|].
  split; [split; [reflexivity | now apply readInteger_padded]|].
  reflexivity.
Qed.

(** A whole amount comes back from its currency text. *)
Lemma currency_round_trip_of_a_whole_amount :
  roundTrip Examples.exampleHost (VNum 1250%float) "CURRENCY_FORMAT" (VObj [])
  = Ok (VNum 1250%float).
Proof.
  apply (round_trip_currency Examples.exampleHost (VObj []) (VNum 1250%float)).
  exists 1250%float, "$1250". split; [reflexivity|]. split; [|split; reflexivity].
  split; [reflexivity|]. split; [discriminate | reflexivity].
Qed.

(** Without a function configured, CUSTOM_FUNCTION gives any value back. *)
Lemma custom_round_trip_without_functions (h : Host) (v : value) :
  roundTrip h v "CUSTOM_FUNCTION" (VObj []) = Ok v.
Proof.
  apply (round_trip_custom h (VObj []) v). left. split; reflexivity.
Qed.

(** With both functions configured, a text comes back when the reverse
    function undoes the function. *)
Lemma custom_round_trip_of_a_marked_text :
  roundTrip Examples.markingHost (VStr "vip") "CUSTOM_FUNCTION"
    (VObj [("function", VStr "return '#' + value");
           ("reverseFunction", VStr "return value.slice(1)")])
  = Ok (VStr "vip").
Proof.
  apply (round_trip_custom Examples.markingHost).
  right. split; [reflexivity|]. split; [reflexivity|].
  exists (VStr "#vip"). split; reflexivity.
Qed.

(** A whole number comes back from its plain print. *)
Lemma number_round_trip_of_a_whole_number :
  roundTrip Examples.exampleHost (VNum 42%float) "NUMBER_FORMAT" (VObj [])
  = Ok (VNum 42%float).
Proof.
  apply (round_trip_number Examples.exampleHost (VObj []) (VNum 42%float)).
  exists 42%float. split; [reflexivity|]. split; [|reflexivity].
  split; [reflexivity|]. split; [discriminate | reflexivity].
Qed.

(** C2 as stated fails: SPLIT has a reverse ([joinField]), the text [a,b]
    is as well formed as a text can be, and forward then reverse gives [a];
    EMAIL_NORMALIZE gives back the normalised address, not the one given.
    The other types with a reverse lose values too, which is why the
    well-formed values are named type by type: a phone number loses its
    punctuation, an array element that holds the separator is split, a
    text is not a boolean, a code without a reverse mapping stays a label,
    a number given as a text comes back as a number, a custom function
    without a reverse function is not undone, a text that is no date comes
    back as [NaN], and an [undefined] array element comes back from JSON
    as [null]. *)
Lemma C2_counterexample_split_keeps_one_part :
  hasReverse DataTransformer.SPLIT = true
  /\ (forall h : Host,
        DataTransformer.applyTransformation h (VStr "a,b") "SPLIT"
          (VObj [("separator", VStr ",")]) = Ok (VStr "a"))
  /\ (forall h : Host,
        roundTrip h (VStr "a,b") "SPLIT" (VObj [("separator", VStr ",")]) = Ok (VStr "a"))
  /\ VStr "a" <> VStr "a,b"
  /\ (forall h : Host,
        roundTrip h (VStr "Ada@X.com") "EMAIL_NORMALIZE" VUndefined = Ok (VStr "ada@x.com"))
  /\ (forall h : Host,
        roundTrip h (VStr "555-1234") "PHONE_FORMAT" VUndefined = Ok (VStr "5551234"))
  /\ (forall h : Host,
        roundTrip h (VArr [VStr "a, b"]) "ARRAY_TO_STRING" VUndefined
        = Ok (VArr [VStr "a"; VStr "b"]))
  /\ (forall h : Host,
        roundTrip h (VStr "maybe") "BOOLEAN_TO_TEXT" VUndefined = Ok (VBool false))
  /\ (forall h : Host,
        roundTrip h (VStr "a") "ENUM_TO_TEXT" (VObj [("mapping", VObj [("a", VStr "X")])])
        = Ok (VStr "X"))
  /\ roundTrip Examples.exampleHost (VStr "42") "NUMBER_FORMAT" VUndefined
     = Ok (VNum 42%float)
  /\ roundTrip Examples.exampleHost (VStr "42") "CURRENCY_FORMAT" VUndefined
     = Ok (VNum 42%float)
  /\ roundTrip Examples.markingHost (VStr "vip") "CUSTOM_FUNCTION"
       (VObj [("function", VStr "return '#' + value")])
     = Ok (VStr "#vip")
  /\ roundTrip Examples.exampleHost (VStr "soon") "DATE_FORMAT" VUndefined
     = Ok (VNum PrimFloat.nan)
  /\ roundTrip Examples.jsonHost (VArr [VUndefined]) "JSON_TO_STRING" VUndefined
     = Ok (VArr [VNull]).
Proof.
  repeat split; try discriminate.
Qed.

(* ===================================================================== *)
(** ** Field transformer: dates that do not parse                        *)
(* ===================================================================== *)

(** C6. On a text that is not empty and that [Date] does not parse,
    DATE_FORMAT forward returns the text as it is; the reverse returns the
    time value of the invalid date, which is [NaN] and not the number 0.
    (The text is read by [new Date]: any format but MM/DD/YYYY, or a text
    that does not split into three parts at the slashes.) *)
Theorem C6_date_reverse_of_unparsable_text_is_NaN
    (h : Host) (s : string) (config : value) :
  s <> "" ->
  PrimFloat.is_nan (dateTime h (VStr s)) = true ->
  List.length (split "/" s) <> 3 ->
  DataTransformer.applyTransformation h (VStr s) "DATE_FORMAT" config = Ok (VStr s)
  /\ DataTransformer.applyReverseTransformation h (VStr s) "DATE_FORMAT" config
     = Ok (VNum (dateTime h (VStr s)))
  /\ VNum (dateTime h (VStr s)) <> VNum 0%float.
Proof.
  intros Hs Hnan Hparts. apply String.eqb_neq in Hs.
  unfold DataTransformer.applyTransformation, DataTransformer.applyReverseTransformation.
  change (DataTransformer.caseOf "DATE_FORMAT") with (Some DataTransformer.DATE_FORMAT).
  cbv iota. repeat split.
  - unfold DataTransformer.formatDate. cbn [truthy]. rewrite Hs. cbn [negb].
    rewrite Hnan. reflexivity.
  - unfold DataTransformer.parseDate. cbn [truthy toStr]. rewrite Hs. cbn [negb].
    destruct (strictEq _ (VStr "MM/DD/YYYY")); [|reflexivity].
    destruct (split "/" s) as [|p0 [|p1 [|p2 [|p3 l]]]]; try reflexivity.
    now elim Hparts.
  - intros Heq. injection Heq as Heq. rewrite Heq in Hnan. discriminate Hnan.
Qed.

Lemma C6_date_reverse_witness :
  DataTransformer.applyTransformation Examples.exampleHost (VStr "next tuesday")
    "DATE_FORMAT" (VObj [("format", VStr "MM/DD/YYYY")]) = Ok (VStr "next tuesday")
  /\ DataTransformer.applyReverseTransformation Examples.exampleHost (VStr "next tuesday")
       "DATE_FORMAT" (VObj [("format", VStr "MM/DD/YYYY")])
     = Ok (VNum (dateTime Examples.exampleHost (VStr "next tuesday")))
  /\ VNum (dateTime Examples.exampleHost (VStr "next tuesday")) <> VNum 0%float.
Proof.
  apply (C6_date_reverse_of_unparsable_text_is_NaN Examples.exampleHost "next tuesday"
           (VObj [("format", VStr "MM/DD/YYYY")])).
  - discriminate.
  - reflexivity.
  - vm_compute. discriminate.
Defined.

(* ===================================================================== *)
(** ** Change detector                                                   *)
(* ===================================================================== *)

Section MapFacts.
Context {V : Type}.
Implicit Types (m : list (Z * V)) (k : Z).

Lemma get_delete_same m k : JSMap.get Z.eqb k (JSMap.delete Z.eqb k m) = None.
Proof.
  induction m as [|[k' v'] m IH]; simpl; [reflexivity|].
  destruct (k =? k')%Z eqn:E; [exact IH|]. simpl. now rewrite E.
Qed.

Lemma get_delete_other m k k' :
  k <> k' -> JSMap.get Z.eqb k' (JSMap.delete Z.eqb k m) = JSMap.get Z.eqb k' m.
Proof.
  intros Hne. induction m as [|[k0 v0] m IH]; simpl; [reflexivity|].
  destruct (k =? k0)%Z eqn:E.
  - apply Z.eqb_eq in E. subst k0.
    destruct (k' =? k)%Z eqn:E'; [apply Z.eqb_eq in E'; congruence | exact IH].
  - simpl. destruct (k' =? k0)%Z; [reflexivity | exact IH].
Qed.

Lemma get_none_iff m k : JSMap.get Z.eqb k m = None <-> ~ In k (JSMap.keys m).
Proof.
  induction m as [|[k' v'] m IH]; simpl; [tauto|].
  destruct (k =? k')%Z eqn:E.
  - apply Z.eqb_eq in E. subst. split; [discriminate | tauto].
  - apply Z.eqb_neq in E. rewrite IH. split; [intros H [Heq|Hin]; congruence | tauto].
Qed.

Lemma keys_delete_incl m k x :
  In x (JSMap.keys (JSMap.delete Z.eqb k m)) -> In x (JSMap.keys m).
Proof.
  induction m as [|[k' v'] m IH]; simpl; [tauto|].
  destruct (k =? k')%Z; simpl; tauto.
Qed.

Lemma NoDup_keys_delete m k :
  NoDup (JSMap.keys m) -> NoDup (JSMap.keys (JSMap.delete Z.eqb k m)).
Proof.
  induction m as [|[k' v'] m IH]; simpl; intros Hnd; [constructor|].
  inversion Hnd as [|? ? Hnot Hrest]; subst.
  destruct (k =? k')%Z; [now apply IH|].
  simpl. constructor; [|now apply IH].
  intros Hin. apply Hnot. now apply keys_delete_incl in Hin.
Qed.

Lemma keys_set_incl m k (v : V) x :
  In x (JSMap.keys (JSMap.set Z.eqb k v m)) -> x = k \/ In x (JSMap.keys m).
Proof.
  induction m as [|[k' v'] m IH]; simpl; [intuition congruence|].
  destruct (k =? k')%Z eqn:E; simpl.
  - apply Z.eqb_eq in E. subst. intuition congruence.
  - intros [H|H]; [tauto|]. destruct (IH H); tauto.
Qed.

Lemma NoDup_keys_set m k (v : V) :
  NoDup (JSMap.keys m) -> NoDup (JSMap.keys (JSMap.set Z.eqb k v m)).
Proof.
  induction m as [|[k' v'] m IH]; simpl; intros Hnd.
  - constructor; [tauto | constructor].
  - inversion Hnd as [|? ? Hnot Hrest]; subst.
    destruct (k =? k')%Z eqn:E; simpl.
    + apply Z.eqb_eq in E. subst. now constructor.
    + apply Z.eqb_neq in E. constructor; [|now apply IH].
      intros Hin. apply keys_set_incl in Hin. destruct Hin; congruence.
Qed.

End MapFacts.

Lemma NoDup_stateMapOf (syncStates : list SyncState) :
  NoDup (JSMap.keys (SheetsToHubSpot.stateMapOf syncStates)).
Proof.
  unfold SheetsToHubSpot.stateMapOf.
  assert (Hgen : forall m : list (Z * string),
             NoDup (JSMap.keys m) ->
             NoDup (JSMap.keys
                      (fold_left (fun m st => JSMap.set Z.eqb (sheetRowNumber st) (syncHash st) m)
                                 syncStates m))).
  { induction syncStates as [|st rest IH]; intros m Hm; simpl; [exact Hm|].
    apply IH. now apply NoDup_keys_set. }
  apply Hgen. constructor.
Qed.

Section Detector.
Variable h : Host.

Lemma inRange_empty lo k : inRange lo 0 k = false.
Proof.
  unfold inRange. destruct (Z.leb_spec lo k), (Z.ltb_spec k (lo + Z.of_nat 0)); simpl;
    try reflexivity; lia.
Qed.

Lemma inRange_first lo n : inRange lo (S n) lo = true.
Proof.
  unfold inRange. apply andb_true_iff. split; [apply Z.leb_le | apply Z.ltb_lt]; lia.
Qed.

Lemma inRange_next lo n k :
  k <> lo -> inRange (lo + 1) n k = inRange lo (S n) k.
Proof.
  intros Hne. unfold inRange.
  destruct (Z.leb_spec (lo + 1) k), (Z.leb_spec lo k),
    (Z.ltb_spec k (lo + 1 + Z.of_nat n)), (Z.ltb_spec k (lo + Z.of_nat (S n)));
    simpl; try reflexivity; lia.
Qed.

Lemma inRange_spec lo n k :
  inRange lo n k = true <-> (lo <= k < lo + Z.of_nat n)%Z.
Proof.
  unfold inRange. rewrite andb_true_iff, Z.leb_le, Z.ltb_lt. tauto.
Qed.

Lemma rowChanges_delete (rows : list (list value)) (index : Z) (m : list (Z * string)) (k : Z) :
  (k < index + 2)%Z ->
  rowChanges h rows index (JSMap.delete Z.eqb k m) = rowChanges h rows index m.
Proof.
  revert index. induction rows as [|r rest IH]; intros index Hlt; simpl; [reflexivity|].
  rewrite get_delete_other by lia. rewrite IH by lia. reflexivity.
Qed.

(** What the scan leaves: the changes of the rows judged against the map
    as read, and the map without the row numbers scanned. *)
Lemma scanRows_spec (rows : list (list value)) :
  forall (index : Z) (m : list (Z * string)) (changes : list SheetsToHubSpot.Change),
    snd (SheetsToHubSpot.scanRows h rows index m changes)
    = changes ++ rowChanges h rows index m
    /\ (forall k,
          JSMap.get Z.eqb k (fst (SheetsToHubSpot.scanRows h rows index m changes))
          = if inRange (index + 2) (List.length rows) k then None else JSMap.get Z.eqb k m)
    /\ (NoDup (JSMap.keys m) ->
        NoDup (JSMap.keys (fst (SheetsToHubSpot.scanRows h rows index m changes)))).
Proof.
  induction rows as [|r rest IH]; intros index m changes.
  - simpl. rewrite app_nil_r. repeat split; auto.
    intros k. now rewrite inRange_empty.
  - cbn [SheetsToHubSpot.scanRows rowChanges List.length].
    destruct (IH (index + 1)%Z (JSMap.delete Z.eqb (index + 2)%Z m)
                 (changes ++ SheetsToHubSpot.classify (index + 2)%Z
                                (JSMap.get Z.eqb (index + 2)%Z m) (calculateRowHash h r)))
      as (Hch & Hget & Hnd).
    repeat split.
    + rewrite Hch, rowChanges_delete by lia. now rewrite <- app_assoc.
    + intros k. rewrite Hget.
      replace (index + 1 + 2)%Z with (index + 2 + 1)%Z by lia.
      destruct (Z.eq_dec k (index + 2)%Z) as [->|Hne].
      * rewrite inRange_first, get_delete_same. now destruct (inRange _ _ _).
      * rewrite (inRange_next _ _ _ Hne). rewrite get_delete_other by congruence.
        reflexivity.
    + intros Hm. apply Hnd. now apply NoDup_keys_delete.
Qed.

Lemma entriesFor_app (n : Z) (a b : list SheetsToHubSpot.Change) :
  entriesFor n (a ++ b) = entriesFor n a ++ entriesFor n b.
Proof. unfold entriesFor. now rewrite filter_app, map_app. Qed.

Lemma entriesFor_classify (n k : Z) (existing : option string) (current : string) :
  entriesFor n (SheetsToHubSpot.classify k existing current)
  = if (k =? n)%Z then map SheetsToHubSpot.changeType
                         (SheetsToHubSpot.classify k existing current)
    else [].
Proof.
  unfold entriesFor, SheetsToHubSpot.classify.
  destruct existing as [e|]; [destruct (String.eqb e ""); [|destruct (negb _)]|]; simpl;
    destruct (k =? n)%Z; reflexivity.
Qed.

Lemma entriesFor_rowChanges_outside (rows : list (list value)) :
  forall (index : Z) (m : list (Z * string)) (n : Z),
    inRange (index + 2) (List.length rows) n = false ->
    entriesFor n (rowChanges h rows index m) = [].
Proof.
  induction rows as [|r rest IH]; intros index m n Hout; simpl; [reflexivity|].
  rewrite entriesFor_app, entriesFor_classify.
  destruct (Z.eqb_spec (index + 2) n) as [<-|Hne].
  - cbn [List.length] in Hout. rewrite inRange_first in Hout. discriminate Hout.
  - simpl. apply IH. replace (index + 1 + 2)%Z with (index + 2 + 1)%Z by lia.
    rewrite inRange_next by congruence. exact Hout.
Qed.

Lemma entriesFor_rowChanges_inside (rows : list (list value)) :
  forall (index : Z) (m : list (Z * string)) (i : nat) (r : list value),
    nth_error rows i = Some r ->
    entriesFor (index + Z.of_nat i + 2)%Z (rowChanges h rows index m)
    = map SheetsToHubSpot.changeType
          (SheetsToHubSpot.classify (index + Z.of_nat i + 2)%Z
             (JSMap.get Z.eqb (index + Z.of_nat i + 2)%Z m) (calculateRowHash h r)).
Proof.
  induction rows as [|r0 rest IH]; intros index m i r Hnth; [now destruct i|].
  cbn [rowChanges]. rewrite entriesFor_app, entriesFor_classify.
  destruct i as [|i].
  - injection Hnth as ->. cbn [Z.of_nat]. rewrite Z.add_0_r, Z.eqb_refl.
    rewrite entriesFor_rowChanges_outside; [now rewrite app_nil_r|].
    apply not_true_is_false. rewrite inRange_spec. lia.
  - simpl nth_error in Hnth.
    destruct (Z.eqb_spec (index + 2) (index + Z.of_nat (S i) + 2)) as [Heq|_]; [lia|].
    replace (index + Z.of_nat (S i) + 2)%Z with (index + 1 + Z.of_nat i + 2)%Z by lia.
    now apply IH.
Qed.

Lemma entriesFor_deleted (m : list (Z * string)) (n : Z) :
  NoDup (JSMap.keys m) ->
  entriesFor n (map (fun k => {| SheetsToHubSpot.changeRow := k;
                                 SheetsToHubSpot.changeType := SheetsToHubSpot.Deleted |})
                    (JSMap.keys m))
  = match JSMap.get Z.eqb n m with
    | Some _ => [SheetsToHubSpot.Deleted]
    | None => []
    end.
Proof.
  induction m as [|[k v] m IH]; intros Hnd; [reflexivity|].
  inversion Hnd as [|? ? Hnot Hrest]; subst.
  unfold entriesFor in *. simpl. rewrite (Z.eqb_sym n k).
  destruct (Z.eqb_spec k n) as [->|Hne]; simpl.
  - rewrite (IH Hrest). apply get_none_iff in Hnot. now rewrite Hnot.
  - now apply IH.
Qed.

Lemma changesOf_parts (rows : list (list value)) (syncStates : list SyncState) :
  SheetsToHubSpot.changesOf h rows syncStates
  = rowChanges h rows 0 (SheetsToHubSpot.stateMapOf syncStates)
    ++ map (fun k => {| SheetsToHubSpot.changeRow := k;
                        SheetsToHubSpot.changeType := SheetsToHubSpot.Deleted |})
           (JSMap.keys (fst (SheetsToHubSpot.scanRows h rows 0
                               (SheetsToHubSpot.stateMapOf syncStates) []))).
Proof.
  unfold SheetsToHubSpot.changesOf.
  destruct (scanRows_spec rows 0%Z (SheetsToHubSpot.stateMapOf syncStates) []) as (Hch & _).
  destruct (SheetsToHubSpot.scanRows h rows 0 _ []) as [remaining changes].
  simpl in *. now rewrite Hch.
Qed.

(** The kinds reported for the row number of a current row. *)
Lemma entriesFor_current_row (rows : list (list value)) (syncStates : list SyncState)
    (i : nat) (r : list value) :
  nth_error rows i = Some r ->
  entriesFor (Z.of_nat i + 2)%Z (SheetsToHubSpot.changesOf h rows syncStates)
  = map SheetsToHubSpot.changeType
        (SheetsToHubSpot.classify (Z.of_nat i + 2)%Z
           (storedHash syncStates (Z.of_nat i + 2)%Z) (calculateRowHash h r)).
Proof.
  intros Hnth. rewrite changesOf_parts, entriesFor_app.
  destruct (scanRows_spec rows 0%Z (SheetsToHubSpot.stateMapOf syncStates) [])
    as (_ & Hget & Hnd).
  rewrite (entriesFor_deleted _ _ (Hnd (NoDup_stateMapOf syncStates))), Hget.
  assert (Hin : inRange (0 + 2) (List.length rows) (Z.of_nat i + 2)%Z = true).
  { apply inRange_spec. assert (i < List.length rows) by (apply nth_error_Some; congruence).
    lia. }
  rewrite Hin, app_nil_r.
  pose proof (entriesFor_rowChanges_inside rows 0%Z
                (SheetsToHubSpot.stateMapOf syncStates) i r Hnth) as H.
  cbn [Z.add] in H. exact H.
Qed.

(** The kinds reported for a row number that no current row has. *)
Lemma entriesFor_absent_row (rows : list (list value)) (syncStates : list SyncState) (n : Z) :
  (n < 2 \/ 2 + Z.of_nat (List.length rows) <= n)%Z ->
  entriesFor n (SheetsToHubSpot.changesOf h rows syncStates)
  = match storedHash syncStates n with
    | Some _ => [SheetsToHubSpot.Deleted]
    | None => []
    end.
Proof.
  intros Hout. rewrite changesOf_parts, entriesFor_app.
  destruct (scanRows_spec rows 0%Z (SheetsToHubSpot.stateMapOf syncStates) [])
    as (_ & Hget & Hnd).
  rewrite (entriesFor_deleted _ _ (Hnd (NoDup_stateMapOf syncStates))), Hget.
  assert (Hin : inRange (0 + 2) (List.length rows) n = false).
  { apply not_true_is_false. rewrite inRange_spec. lia. }
  rewrite Hin. rewrite entriesFor_rowChanges_outside by exact Hin. reflexivity.
Qed.

End Detector.

(** C3 (amended). [detectChanges] reads the sheet and the stored states
    and returns these changes.  A current row (row number = index + 2) is
    reported once as [new] when no state is stored for its row number or
    when the stored hash is the empty string, once as [modified] when the
    stored hash is not empty and differs from the current one, and not at
    all when the stored hash equals the current one; it is never reported
    as [deleted].  A row number that no current row has is reported once,
    as [deleted], when a state is stored for it, and not at all
    otherwise. *)
Theorem C3_detectChanges_classifies_rows
    (h : Host) (W : World) (S : Type) (spreadsheetId sheetName : string)
    (s : S) (hs : history) (sheet : SheetData) (syncStates : list SyncState) :
  readSheet W hs spreadsheetId sheetName = Ok sheet ->
  stateFindMany W (hs ++ [EReadSheet spreadsheetId sheetName]) spreadsheetId
  = Ok syncStates ->
  let changes := SheetsToHubSpot.changesOf h (rows sheet) syncStates in
  SheetsToHubSpot.detectChanges h W spreadsheetId sheetName s hs
  = (Ok changes, s,
     hs ++ [EReadSheet spreadsheetId sheetName; EStateFindMany spreadsheetId])
  /\ (forall (i : nat) (r : list value),
        nth_error (rows sheet) i = Some r ->
        let n := (Z.of_nat i + 2)%Z in
        let current := calculateRowHash h r in
        (storedHash syncStates n = None ->
         entriesFor n changes = [SheetsToHubSpot.New])
        /\ (storedHash syncStates n = Some "" ->
            entriesFor n changes = [SheetsToHubSpot.New])
        /\ (forall stored,
              storedHash syncStates n = Some stored -> stored <> "" ->
              stored <> current ->
              entriesFor n changes = [SheetsToHubSpot.Modified])
        /\ (forall stored,
              storedHash syncStates n = Some stored -> stored <> "" ->
              stored = current ->
              entriesFor n changes = []))
  /\ (forall n : Z,
        (n < 2 \/ 2 + Z.of_nat (List.length (rows sheet)) <= n)%Z ->
        entriesFor n changes
        = match storedHash syncStates n with
          | Some _ => [SheetsToHubSpot.Deleted]
          | None => []
          end).
Proof.
  intros Hread Hstates changes. split; [|split].
  - unfold SheetsToHubSpot.detectChanges, bind, call, ret.
    rewrite Hread, Hstates. now rewrite <- app_assoc.
  - intros i r Hnth n current.
    pose proof (entriesFor_current_row h (rows sheet) syncStates i r Hnth) as Hrow.
    fold n in Hrow. fold current in Hrow. fold changes in Hrow.
    unfold SheetsToHubSpot.classify in Hrow.
    repeat split.
    + intros Hnone. now rewrite Hnone in Hrow.
    + intros Hempty. now rewrite Hempty in Hrow.
    + intros stored Hsome Hne Hdiff. rewrite Hsome in Hrow.
      apply String.eqb_neq in Hne, Hdiff. now rewrite Hne, Hdiff in Hrow.
    + intros stored Hsome Hne Hsame. rewrite Hsome in Hrow.
      apply String.eqb_neq in Hne. apply String.eqb_eq in Hsame.
      now rewrite Hne, Hsame in Hrow.
  - intros n Hout. now apply entriesFor_absent_row.
Qed.

Lemma C3_detectChanges_witness :
  SheetsToHubSpot.detectChanges Examples.exampleHost
    (Examples.withStates (Examples.calmWorld Examples.contactSheet [])
       Examples.storedStates)
    "sheet-1" "Contacts" tt []
  = (Ok [ {| SheetsToHubSpot.changeRow := 3%Z;
             SheetsToHubSpot.changeType := SheetsToHubSpot.Modified |};
          {| SheetsToHubSpot.changeRow := 8%Z;
             SheetsToHubSpot.changeType := SheetsToHubSpot.Deleted |} ],
     tt, [EReadSheet "sheet-1" "Contacts"; EStateFindMany "sheet-1"]).
Proof.
  exact (proj1 (C3_detectChanges_classifies_rows Examples.exampleHost
                  (Examples.withStates (Examples.calmWorld Examples.contactSheet [])
                     Examples.storedStates)
                  unit "sheet-1" "Contacts" tt [] Examples.contactSheet
                  Examples.storedStates eq_refl eq_refl)).
Defined.

(** C3 as stated fails on a stored state whose hash is the empty string,
    which is what the Sheet->CRM orchestrator stores for a record it
    creates: such a state exists and its hash differs from the current one,
    yet the row is reported as [new], not as [modified]. *)
Lemma C3_counterexample_empty_stored_hash_is_new :
  storedHash [ {| sheetRowNumber := 2%Z; syncHash := "" |} ] 2%Z = Some ""
  /\ calculateRowHash Examples.exampleHost [VStr "ada@x.com"] <> ""
  /\ (forall h : Host,
        SheetsToHubSpot.changesOf h [[VStr "ada@x.com"]]
          [ {| sheetRowNumber := 2%Z; syncHash := "" |} ]
        = [ {| SheetsToHubSpot.changeRow := 2%Z;
               SheetsToHubSpot.changeType := SheetsToHubSpot.New |} ]).
Proof.
  repeat split. discriminate.
Qed.

(* ===================================================================== *)
(** ** CRM->Sheet: update mode                                           *)
(* ===================================================================== *)

Section UpdateMode.
Variable h : Host.

Lemma sget_set (m : list (string * Z)) (k k' : string) (v : Z) :
  JSMap.get String.eqb k' (JSMap.set String.eqb k v m)
  = if String.eqb k' k then Some v else JSMap.get String.eqb k' m.
Proof.
  induction m as [|[k0 v0] m IH]; simpl; [reflexivity|].
  destruct (String.eqb k k0) eqn:E; simpl.
  - apply String.eqb_eq in E. subst k0. now destruct (String.eqb k' k).
  - rewrite IH. destruct (String.eqb k' k0) eqn:E0; [|reflexivity].
    apply String.eqb_eq in E0. subst k0.
    rewrite String.eqb_sym in E. now rewrite E.
Qed.

(** The index is built row by row: from an index of the rows done, the
    index of all the rows. *)
Lemma indexRows_invariant (keyColumnIndex : Z) (rest : list (list value)) :
  forall (done : list (list value)) (acc : list (string * Z)),
    indexesRows h keyColumnIndex done acc ->
    coversRows h keyColumnIndex done acc ->
    indexesRows h keyColumnIndex (done ++ rest)
      (HubSpotToSheets.indexRows h keyColumnIndex rest (Z.of_nat (List.length done)) acc)
    /\ coversRows h keyColumnIndex (done ++ rest)
         (HubSpotToSheets.indexRows h keyColumnIndex rest (Z.of_nat (List.length done)) acc).
Proof.
  induction rest as [|row rest IH]; intros done acc Hidx Hcov.
  - simpl. rewrite app_nil_r. now split.
  - cbn [HubSpotToSheets.indexRows].
    replace (Z.of_nat (List.length done) + 1)%Z
      with (Z.of_nat (List.length (done ++ [row])))
      by (rewrite length_app; simpl; lia).
    replace (done ++ row :: rest) with ((done ++ [row]) ++ rest)
      by (now rewrite <- app_assoc).
    apply IH.
    + intros key n Hget.
      destruct (truthy (nthZ row keyColumnIndex)) eqn:Ekey.
      * rewrite sget_set in Hget.
        destruct (String.eqb key (toStr h (nthZ row keyColumnIndex))) eqn:Ek.
        -- injection Hget as <-. apply String.eqb_eq in Ek. split; [lia|].
           exists row. repeat split; auto.
           replace (Z.to_nat (Z.of_nat (List.length done) + 2 - 2)) with (List.length done)
             by lia.
           now rewrite nth_error_app2, Nat.sub_diag by lia.
        -- destruct (Hidx key n Hget) as (Hn & r & Hnth & Hr). split; [exact Hn|].
           exists r. split; [|exact Hr].
           rewrite nth_error_app1; [exact Hnth|]. apply nth_error_Some. congruence.
      * destruct (Hidx key n Hget) as (Hn & r & Hnth & Hr). split; [exact Hn|].
        exists r. split; [|exact Hr].
        rewrite nth_error_app1; [exact Hnth|]. apply nth_error_Some. congruence.
    + intros r Hin Htruthy. apply in_app_or in Hin.
      destruct (truthy (nthZ row keyColumnIndex)) eqn:Ekey.
      * rewrite sget_set.
        destruct (String.eqb _ (toStr h (nthZ row keyColumnIndex))) eqn:Esame;
          [discriminate|].
        destruct Hin as [Hin|[<-|[]]]; [now apply Hcov|].
        rewrite String.eqb_refl in Esame. discriminate Esame.
      * destruct Hin as [Hin|[<-|[]]]; [now apply Hcov | congruence].
Qed.

Lemma indexRows_sound_and_complete (keyColumnIndex : Z) (rows : list (list value)) :
  indexesRows h keyColumnIndex rows (HubSpotToSheets.indexRows h keyColumnIndex rows 0%Z [])
  /\ coversRows h keyColumnIndex rows (HubSpotToSheets.indexRows h keyColumnIndex rows 0%Z []).
Proof.
  apply (indexRows_invariant keyColumnIndex rows [] []).
  - intros key n Hget. discriminate Hget.
  - intros row [].
Qed.

(** One turn of the loop puts the row where its placement says, provided
    the index holds no row number 0. *)
Lemma planRow_placement (sheetName : string) (existingRecords : list (string * Z))
    (keyColumnIndex : Z) (p0 : HubSpotToSheets.Plan) (row : list value) :
  (forall key n, JSMap.get String.eqb key existingRecords = Some n -> n <> 0%Z) ->
  HubSpotToSheets.planRow h sheetName existingRecords keyColumnIndex p0 row
  = match placementOf h existingRecords keyColumnIndex row with
    | Skipped => HubSpotToSheets.planSkip p0
    | UpdatedAt n =>
        HubSpotToSheets.planUpdate
          {| range := HubSpotToSheets.rangeOf sheetName n; values := [row] |} p0
    | Appended => HubSpotToSheets.planAppend row p0
    end.
Proof.
  intros Hnz. unfold HubSpotToSheets.planRow, placementOf.
  destruct (truthy (nthZ row (keyColumnIndex + 1))); cbn [negb]; [|reflexivity].
  destruct (JSMap.get String.eqb _ existingRecords) as [n|] eqn:Eget; [|reflexivity].
  apply Hnz in Eget. apply Z.eqb_neq in Eget. now rewrite Eget.
Qed.

Lemma planRows_from (sheetName : string) (existingRecords : list (string * Z))
    (keyColumnIndex : Z) (newData : list (list value)) :
  (forall key n, JSMap.get String.eqb key existingRecords = Some n -> n <> 0%Z) ->
  forall p0 : HubSpotToSheets.Plan,
    let p := fold_left (HubSpotToSheets.planRow h sheetName existingRecords keyColumnIndex)
                       newData p0 in
    HubSpotToSheets.updates p
    = HubSpotToSheets.updates p0
      ++ updatesOf h sheetName existingRecords keyColumnIndex newData
    /\ HubSpotToSheets.appends p
       = HubSpotToSheets.appends p0 ++ appendsOf h existingRecords keyColumnIndex newData
    /\ HubSpotToSheets.updated (HubSpotToSheets.counts p)
       = HubSpotToSheets.updated (HubSpotToSheets.counts p0)
         + List.length (updatesOf h sheetName existingRecords keyColumnIndex newData)
    /\ HubSpotToSheets.created (HubSpotToSheets.counts p)
       = HubSpotToSheets.created (HubSpotToSheets.counts p0)
         + List.length (appendsOf h existingRecords keyColumnIndex newData)
    /\ HubSpotToSheets.skipped (HubSpotToSheets.counts p)
       = HubSpotToSheets.skipped (HubSpotToSheets.counts p0)
         + List.length (skippedOf h existingRecords keyColumnIndex newData).
Proof.
  intros Hnz. induction newData as [|row rest IH]; intros p0.
  - simpl. rewrite !app_nil_r, !Nat.add_0_r. repeat split.
  - cbv zeta. cbn [fold_left].
    specialize (IH (HubSpotToSheets.planRow h sheetName existingRecords keyColumnIndex p0 row)).
    cbv zeta in IH. destruct IH as (Hu & Ha & Hcu & Hca & Hcs).
    rewrite Hu, Ha, Hcu, Hca, Hcs. clear Hu Ha Hcu Hca Hcs.
    rewrite (planRow_placement sheetName existingRecords keyColumnIndex p0 row Hnz).
    unfold updatesOf, appendsOf, skippedOf. cbn [flat_map filter].
    destruct (placementOf h existingRecords keyColumnIndex row) as [|n|];
      cbn [HubSpotToSheets.planSkip HubSpotToSheets.planUpdate HubSpotToSheets.planAppend
           HubSpotToSheets.updates HubSpotToSheets.appends HubSpotToSheets.counts
           HubSpotToSheets.updated HubSpotToSheets.created HubSpotToSheets.skipped
           List.length app];
      rewrite <- ?app_assoc; cbn [app List.length]; repeat split; lia.
Qed.

End UpdateMode.

(** What [updateSheet] does, whatever the sheet.  The index sends a key
    text to the row number (position + 2) of a sheet row that holds it at
    the key position, and misses no key of the sheet.  An incoming row
    whose cell at the key position + 1 is empty or missing is skipped and
    queued nowhere; a row whose text in that cell is in the index is queued
    as one targeted update at the indexed row number; every other row is
    queued as an append; the counts are the numbers of rows queued and
    skipped.  The updates go out as one batched call and the appends as
    one call after it. *)
Lemma update_mode_places_each_row
    (h : Host) (W : World) (spreadsheetId sheetName : string) (existingData : SheetData)
    (newData : list (list value)) (keyColumn : string) :
  let k := indexOf (headers existingData) keyColumn in
  let existingRecords := HubSpotToSheets.indexRows h k (rows existingData) 0%Z [] in
  let p := HubSpotToSheets.planRows h sheetName existingRecords k newData in
  let send {S : Type} : M S HubSpotToSheets.UpdateCounts :=
    (match HubSpotToSheets.updates p with
     | [] => ret tt
     | _ => call (EUpdateCells spreadsheetId (HubSpotToSheets.updates p))
                 (fun hs => updateCells W hs spreadsheetId (HubSpotToSheets.updates p))
     end) ;;;
    (match HubSpotToSheets.appends p with
     | [] => ret tt
     | _ => call (EAppendToSheet spreadsheetId sheetName (HubSpotToSheets.appends p))
                 (fun hs => appendToSheet W hs spreadsheetId sheetName
                              (HubSpotToSheets.appends p))
     end) ;;;
    ret (HubSpotToSheets.counts p) in
  k <> (-1)%Z ->
  indexesRows h k (rows existingData) existingRecords
  /\ coversRows h k (rows existingData) existingRecords
  /\ HubSpotToSheets.updates p = updatesOf h sheetName existingRecords k newData
  /\ HubSpotToSheets.appends p = appendsOf h existingRecords k newData
  /\ HubSpotToSheets.counts p
     = {| HubSpotToSheets.updated :=
            List.length (updatesOf h sheetName existingRecords k newData);
          HubSpotToSheets.created := List.length (appendsOf h existingRecords k newData);
          HubSpotToSheets.skipped := List.length (skippedOf h existingRecords k newData) |}
  /\ (forall (S : Type) (s : S) (hs : history),
        HubSpotToSheets.updateSheet h W spreadsheetId sheetName existingData newData
          keyColumn s hs = send s hs)
  /\ (forall rowA rowC,
        newData = [rowA; rowC] ->
        nthZ rowA (k + 1)%Z = VStr "a@x.com" ->
        nthZ rowC (k + 1)%Z = VStr "c@x.com" ->
        JSMap.get String.eqb "a@x.com" existingRecords = Some 3%Z ->
        JSMap.get String.eqb "b@x.com" existingRecords = Some 4%Z ->
        JSMap.get String.eqb "c@x.com" existingRecords = None ->
        p = {| HubSpotToSheets.updates :=
                 [{| range := HubSpotToSheets.rangeOf sheetName 3%Z; values := [rowA] |}];
               HubSpotToSheets.appends := [rowC];
               HubSpotToSheets.counts :=
                 {| HubSpotToSheets.updated := 1; HubSpotToSheets.created := 1;
                    HubSpotToSheets.skipped := 0 |} |}).
Proof.
  intros k existingRecords p send Hk.
  destruct (indexRows_sound_and_complete h k (rows existingData)) as [Hsound Hcover].
  fold existingRecords in Hsound, Hcover.
  assert (Hnz : forall key n, JSMap.get String.eqb key existingRecords = Some n -> n <> 0%Z).
  { intros key n Hget. destruct (Hsound key n Hget) as [Hn _]. lia. }
  destruct (planRows_from h sheetName existingRecords k newData Hnz HubSpotToSheets.emptyPlan)
    as (Hu & Ha & Hcu & Hca & Hcs).
  fold (HubSpotToSheets.planRows h sheetName existingRecords k newData) in Hu, Ha, Hcu, Hca, Hcs.
  fold p in Hu, Ha, Hcu, Hca, Hcs. cbn in Hu, Ha, Hcu, Hca, Hcs.
  assert (Hcounts : HubSpotToSheets.counts p
     = {| HubSpotToSheets.updated :=
            List.length (updatesOf h sheetName existingRecords k newData);
          HubSpotToSheets.created := List.length (appendsOf h existingRecords k newData);
          HubSpotToSheets.skipped := List.length (skippedOf h existingRecords k newData) |}).
  { destruct (HubSpotToSheets.counts p) as [u c sk]. cbn in Hcu, Hca, Hcs. now subst. }
  split; [exact Hsound|]. split; [exact Hcover|]. split; [exact Hu|]. split; [exact Ha|].
  split; [exact Hcounts|]. split.
  - intros S s hs. unfold HubSpotToSheets.updateSheet. fold k.
    apply Z.eqb_neq in Hk. rewrite Hk. reflexivity.
  - intros rowA rowC Hdata HkeyA HkeyC HgetA _ HgetC.
    assert (HpA : placementOf h existingRecords k rowA = UpdatedAt 3%Z)
      by (unfold placementOf; rewrite HkeyA; cbn [truthy toStr String.eqb negb];
          simpl; now rewrite HgetA).
    assert (HpC : placementOf h existingRecords k rowC = Appended)
      by (unfold placementOf; rewrite HkeyC; cbn [truthy toStr String.eqb negb];
          simpl; now rewrite HgetC).
    rewrite Hdata in Hu, Ha, Hcounts.
    unfold updatesOf, appendsOf, skippedOf in Hu, Ha, Hcounts.
    cbn [flat_map filter] in Hu, Ha, Hcounts. rewrite HpA, HpC in Hu, Ha, Hcounts.
    cbn in Hu, Ha, Hcounts.
    destruct p as [pu pa pc]. cbn in Hu, Ha, Hcounts. now subst.
Qed.

(** On a sheet without the record id column, where the key position + 1
    of an incoming row is its key cell, [a@x.com] is updated at row 3 and
    [c@x.com] is appended. *)
Lemma update_mode_on_a_sheet_without_id_column :
  HubSpotToSheets.planRows Examples.exampleHost "Contacts"
    (HubSpotToSheets.indexRows Examples.exampleHost 0%Z (rows Examples.keyedSheet) 0%Z [])
    0%Z
    [[VStr "1"; VStr "a@x.com"; VStr "Ann"]; [VStr "3"; VStr "c@x.com"; VStr "Cy"]]
  = {| HubSpotToSheets.updates :=
         [{| range := "'Contacts'!A3";
             values := [[VStr "1"; VStr "a@x.com"; VStr "Ann"]] |}];
       HubSpotToSheets.appends := [[VStr "3"; VStr "c@x.com"; VStr "Cy"]];
       HubSpotToSheets.counts :=
         {| HubSpotToSheets.updated := 1; HubSpotToSheets.created := 1;
            HubSpotToSheets.skipped := 0 |} |}.
Proof.
  assert (Hk : indexOf (headers Examples.keyedSheet) "email" <> (-1)%Z)
    by (vm_compute; discriminate).
  destruct (update_mode_places_each_row Examples.exampleHost
              (Examples.calmWorld Examples.keyedSheet Examples.twoContacts)
              "sheet-1" "Contacts" Examples.keyedSheet
              [[VStr "1"; VStr "a@x.com"; VStr "Ann"]; [VStr "3"; VStr "c@x.com"; VStr "Cy"]]
              "email" Hk)
    as (_ & _ & _ & _ & _ & _ & Hscenario).
  exact (Hscenario [VStr "1"; VStr "a@x.com"; VStr "Ann"] [VStr "3"; VStr "c@x.com"; VStr "Cy"]
           eq_refl eq_refl eq_refl eq_refl eq_refl eq_refl).
Qed.

(** On that sheet, a CRM contact with no email becomes a row whose key
    cell is the empty string; it matches no sheet row, yet it is not
    appended: it is skipped, and no call is made. *)
Lemma update_mode_skips_a_row_without_key :
  (forall h : Host,
      HubSpotToSheets.transformData h
        [VObj [("id", VStr "9"); ("properties", VObj [("firstname", VStr "Noa")])]]
        Examples.crmMappings
      = Ok [[VStr "9"; VStr ""; VStr "Noa"]])
  /\ (forall h : Host,
        HubSpotToSheets.planRows h "Contacts"
          (HubSpotToSheets.indexRows h 0%Z (rows Examples.keyedSheet) 0%Z []) 0%Z
          [[VStr "9"; VStr ""; VStr "Noa"]]
        = {| HubSpotToSheets.updates := [];
             HubSpotToSheets.appends := [];
             HubSpotToSheets.counts :=
               {| HubSpotToSheets.updated := 0; HubSpotToSheets.created := 0;
                  HubSpotToSheets.skipped := 1 |} |})
  /\ (forall (h : Host) (W : World),
        HubSpotToSheets.updateSheet h W "sheet-1" "Contacts" Examples.keyedSheet
          [[VStr "9"; VStr ""; VStr "Noa"]] "email" tt []
        = (Ok {| HubSpotToSheets.updated := 0; HubSpotToSheets.created := 0;
                 HubSpotToSheets.skipped := 1 |}, tt, [])).
Proof. repeat split. Qed.

(** C4. [update] mode reads the key of an incoming row one column too far
    to the right on the sheet that the code itself writes.  [overwrite]
    mode writes the header row of [prepareHeaders], which starts with the
    record id column, and [transformData] puts the record id first in every
    row: header and rows line up, and the key column [email] is at
    position 1 in both.  [updateSheet] indexes the sheet rows at that
    position ([a@x.com] at row 3, [b@x.com] at row 4) but reads the key of
    an incoming row at position 2, which holds the first name.  The
    incoming rows for [a@x.com] and [c@x.com] match nothing: no cell
    update is queued, both rows are appended, and the run reports 0
    updated, 2 created, 0 skipped, where one update at row 3 and one
    append were to come. *)
Theorem C4_update_mode_reads_the_key_one_column_late :
  let rowA := [VStr "1"; VStr "a@x.com"; VStr "Ann"] in
  let rowC := [VStr "3"; VStr "c@x.com"; VStr "Cy"] in
  let W := Examples.calmWorld Examples.writtenSheet Examples.twoContacts in
  headers Examples.writtenSheet
  = HubSpotToSheets.prepareHeaders (HubSpotToSheets.sortMappings Examples.crmMappings)
  /\ HubSpotToSheets.transformData Examples.exampleHost Examples.threeContacts
       Examples.crmMappings
     = Ok (rows Examples.writtenSheet)
  /\ indexOf (headers Examples.writtenSheet) "email" = 1%Z
  /\ HubSpotToSheets.indexRows Examples.exampleHost 1%Z (rows Examples.writtenSheet) 0%Z []
     = [("z@x.com", 2%Z); ("a@x.com", 3%Z); ("b@x.com", 4%Z)]
  /\ HubSpotToSheets.transformData Examples.exampleHost Examples.twoContacts
       Examples.crmMappings
     = Ok [rowA; rowC]
  /\ nthZ rowA (1 + 1)%Z = VStr "Ann"
  /\ HubSpotToSheets.updateSheet Examples.exampleHost W "sheet-1" "Contacts"
       Examples.writtenSheet [rowA; rowC] "email" tt []
     = (Ok {| HubSpotToSheets.updated := 0; HubSpotToSheets.created := 2;
              HubSpotToSheets.skipped := 0 |},
        tt, [EAppendToSheet "sheet-1" "Contacts" [rowA; rowC]])
  /\ fst (HubSpotToSheets.executeSync Examples.exampleHost W 5
            (Examples.crmConfig "update") [])
     = Ok (Some {| HubSpotToSheets.success := true;
                   HubSpotToSheets.recordsProcessed := 2;
                   HubSpotToSheets.recordsCreated := 2;
                   HubSpotToSheets.recordsUpdated := 0;
                   HubSpotToSheets.recordsSkipped := 0;
                   HubSpotToSheets.errors := [] |}).
Proof. repeat split. Qed.

(* ===================================================================== *)
(** ** Field transformer: what can throw                                 *)
(* ===================================================================== *)

Lemma caseOf_name (t : string) (x : DataTransformer.transform) :
  DataTransformer.caseOf t = Some x -> t = DataTransformer.transformName x.
Proof.
  unfold DataTransformer.caseOf. intros H. apply find_some in H.
  destruct H as [_ H]. now apply String.eqb_eq.
Qed.

Lemma applyReverseTransformation_returns (h : Host) (v config : value) (t : string) :
  exists r, DataTransformer.applyReverseTransformation h v t config = Ok r.
Proof.
  unfold DataTransformer.applyReverseTransformation.
  destruct (DataTransformer.caseOf t) as [[]|]; eauto.
  destruct (jsonParse h (toStr h v)); eauto.
Qed.

(** X1. The reverse transformation returns normally for every value, type and
    configuration, and its two [catch] blocks give the value back: for
    JSON_TO_STRING the result is what [JSON.parse] reads, and the value
    itself when the text does not parse; for CUSTOM_FUNCTION the result is
    the value itself when the reverse function fails or is not
    configured. *)
Theorem reverse_transformation_never_throws
    (h : Host) (v config : value) (t : string) :
  (exists r, DataTransformer.applyReverseTransformation h v t config = Ok r)
  /\ (forall msg, jsonParse h (toStr h v) = Throw msg ->
        DataTransformer.applyReverseTransformation h v "JSON_TO_STRING" config = Ok v)
  /\ (forall r, jsonParse h (toStr h v) = Ok r ->
        DataTransformer.applyReverseTransformation h v "JSON_TO_STRING" config = Ok r)
  /\ (forall msg, runCustom h (getOpt config "reverseFunction") v = Throw msg ->
        DataTransformer.applyReverseTransformation h v "CUSTOM_FUNCTION" config = Ok v)
  /\ (truthy (getOpt config "reverseFunction") = false ->
      DataTransformer.applyReverseTransformation h v "CUSTOM_FUNCTION" config = Ok v).
Proof.
  split; [apply applyReverseTransformation_returns|].
  unfold DataTransformer.applyReverseTransformation.
  change (DataTransformer.caseOf "JSON_TO_STRING") with (Some DataTransformer.JSON_TO_STRING).
  change (DataTransformer.caseOf "CUSTOM_FUNCTION")
    with (Some DataTransformer.CUSTOM_FUNCTION).
  unfold DataTransformer.applyCustomFunction.
  split; [intros msg ->; reflexivity|].
  split; [intros r ->; reflexivity|].
  split.
  - intros msg ->. now destruct (truthy _).
  - intros ->. reflexivity.
Qed.

(** X2. The forward transformation can throw for four types only: the number
    and currency formats (the runtime rejects the digits or the currency
    code), CONCATENATE (a member of [null] is read) and SPLIT (the index
    names the length of the parts).  CONCATENATE does not throw on a value
    that is neither [null] nor [undefined]. *)
Theorem forward_transformation_throws_for_four_types_only
    (h : Host) (v config : value) (t : string) :
  ~ In t ["NUMBER_FORMAT"; "CURRENCY_FORMAT"; "SPLIT"] ->
  (t = "CONCATENATE" -> is_nullish v = false) ->
  exists r, DataTransformer.applyTransformation h v t config = Ok r.
Proof.
  intros Hnot Hcat. unfold DataTransformer.applyTransformation.
  destruct (DataTransformer.caseOf t) as [x|] eqn:Ecase; [|eauto].
  apply caseOf_name in Ecase.
  destruct x; cbn [DataTransformer.transformName] in Ecase; eauto;
    try (exfalso; apply Hnot; rewrite Ecase; simpl; tauto).
  - (* CONCATENATE *)
    specialize (Hcat Ecase). unfold DataTransformer.concatenateFields.
    destruct (getOpt config "fields") as [| | | | |fields|]; cbn; eauto.
    assert (Hmap : exists parts,
               DataTransformer.mapOutcome (DataTransformer.fieldOrEmpty h v) fields = Ok parts).
    { induction fields as [|f fields IH]; [now exists []|].
      destruct IH as [parts IH]. cbn. unfold DataTransformer.fieldOrEmpty at 1.
      rewrite Hcat. cbn. rewrite IH. cbn. eauto. }
    destruct Hmap as [parts ->]. cbn. eauto.
  - (* ARRAY_TO_STRING *)
    destruct v; eauto.
Qed.

Lemma forward_transformation_witness :
  exists r,
    DataTransformer.applyTransformation Examples.exampleHost
      (VObj [("first", VStr "Ada"); ("last", VStr "Lovelace")]) "CONCATENATE"
      (VObj [("fields", VArr [VStr "first"; VStr "last"])]) = Ok r.
Proof.
  apply forward_transformation_throws_for_four_types_only.
  - simpl. intros H. repeat (destruct H as [H|H]; [discriminate H|]). exact H.
  - reflexivity.
Defined.

(* ===================================================================== *)
(** ** Field transformer: phone numbers                                  *)
(* ===================================================================== *)

Lemma filter_chars_filtered (p : ascii -> bool) (s : string) :
  all_chars p (filter_chars p s) = true.
Proof.
  induction s as [|c s IH]; simpl; [reflexivity|].
  destruct (p c) eqn:E; simpl; [now rewrite E|exact IH].
Qed.

Lemma formatPhone_of_digits (h : Host) (v format : value) :
  DataTransformer.formatPhone h (VStr (filter_chars is_digit (toStr h v))) format
  = DataTransformer.formatPhone h v format.
Proof.
  unfold DataTransformer.formatPhone. cbn [toStr].
  now rewrite (filter_chars_all _ _ (filter_chars_filtered is_digit (toStr h v))).
Qed.

(** X3. Formatting a phone number keeps its digits, whatever the value and
    the format: [parsePhone] of the formatted text is [parsePhone] of the
    value, and formatting the formatted text again changes nothing. *)
Theorem formatPhone_keeps_the_digits (h : Host) (v format : value) :
  DataTransformer.parsePhone h (VStr (DataTransformer.formatPhone h v format))
  = DataTransformer.parsePhone h v
  /\ DataTransformer.formatPhone h (VStr (DataTransformer.formatPhone h v format)) format
     = DataTransformer.formatPhone h v format.
Proof.
  assert (Hdigits :
            DataTransformer.parsePhone h (VStr (DataTransformer.formatPhone h v format))
            = DataTransformer.parsePhone h v).
  { rewrite <- formatPhone_of_digits.
    rewrite parsePhone_formatPhone by apply filter_chars_filtered. reflexivity. }
  split; [exact Hdigits|].
  rewrite <- (formatPhone_of_digits h (VStr _)).
  unfold DataTransformer.parsePhone in Hdigits. rewrite Hdigits.
  apply formatPhone_of_digits.
Qed.

(* ===================================================================== *)
(** ** Field transformer: normalising twice                              *)
(* ===================================================================== *)

Ltac each_char c := destruct c as [[] [] [] [] [] [] [] []]; reflexivity.

Lemma lower_char_idem (c : ascii) : lower_char (lower_char c) = lower_char c.
Proof. each_char c. Qed.

Lemma upper_char_idem (c : ascii) : upper_char (upper_char c) = upper_char c.
Proof. each_char c. Qed.

Lemma is_ws_lower (c : ascii) : is_ws (lower_char c) = is_ws c.
Proof. each_char c. Qed.

Lemma is_word_upper (c : ascii) : is_word (upper_char c) = is_word c.
Proof. each_char c. Qed.

Lemma map_chars_idem (f : ascii -> ascii) (s : string) :
  (forall c, f (f c) = f c) -> map_chars f (map_chars f s) = map_chars f s.
Proof.
  intros Hf. induction s as [|c s IH]; simpl; [reflexivity|]. now rewrite Hf, IH.
Qed.

Lemma trimStart_map_chars (f : ascii -> ascii) (s : string) :
  (forall c, is_ws (f c) = is_ws c) ->
  trimStart (map_chars f s) = map_chars f (trimStart s).
Proof.
  intros Hf. induction s as [|c s IH]; simpl; [reflexivity|].
  rewrite Hf. destruct (is_ws c); [exact IH | reflexivity].
Qed.

Lemma trimEnd_map_chars (f : ascii -> ascii) (s : string) :
  (forall c, is_ws (f c) = is_ws c) ->
  trimEnd (map_chars f s) = map_chars f (trimEnd s).
Proof.
  intros Hf. induction s as [|c s IH]; simpl; [reflexivity|].
  rewrite IH, Hf. destruct (trimEnd s); simpl; [now destruct (is_ws c) | reflexivity].
Qed.

Lemma trimEnd_idem (s : string) : trimEnd (trimEnd s) = trimEnd s.
Proof.
  induction s as [|c s IH]; simpl; [reflexivity|].
  destruct (trimEnd s) as [|a rest] eqn:E.
  - destruct (is_ws c) eqn:Ec; simpl; [reflexivity | now rewrite Ec].
  - change (trimEnd (String c (String a rest)))
      with (match trimEnd (String a rest) with
            | EmptyString => if is_ws c then EmptyString else String c EmptyString
            | String x r => String c (String x r)
            end).
    now rewrite IH.
Qed.

(** A text that starts with a character that is not white space still
    starts with it once trimmed at its end. *)
Lemma trimEnd_keeps_head (c : ascii) (s : string) :
  is_ws c = false -> exists rest, trimEnd (String c s) = String c rest.
Proof.
  intros Hc. simpl. destruct (trimEnd s); rewrite ?Hc; eauto.
Qed.

Lemma trimStart_head (s : string) :
  trimStart s = "" \/ exists c rest, trimStart s = String c rest /\ is_ws c = false.
Proof.
  induction s as [|c s IH]; simpl; [now left|].
  destruct (is_ws c) eqn:E; [exact IH | right; eauto].
Qed.

Lemma trim_idem (s : string) : trim (trim s) = trim s.
Proof.
  unfold trim. destruct (trimStart_head s) as [->|(c & rest & -> & Hc)]; [reflexivity|].
  destruct (trimEnd_keeps_head c rest Hc) as [rest' E]. rewrite E.
  cbn [trimStart]. rewrite Hc. rewrite <- E. apply trimEnd_idem.
Qed.

Lemma trim_toLowerCase (s : string) : trim (toLowerCase s) = toLowerCase (trim s).
Proof.
  unfold trim, toLowerCase.
  rewrite trimStart_map_chars, trimEnd_map_chars by apply is_ws_lower. reflexivity.
Qed.

Lemma normalize_idem (s : string) :
  trim (toLowerCase (trim (toLowerCase s))) = trim (toLowerCase s).
Proof.
  rewrite (trim_toLowerCase (trim (toLowerCase s))), trim_idem.
  rewrite <- trim_toLowerCase. unfold toLowerCase.
  now rewrite map_chars_idem by apply lower_char_idem.
Qed.

(** X4. EMAIL_NORMALIZE is idempotent, in the transformer (forward and reverse
    are the same function) and in the Sheet->CRM orchestrator: normalising
    what was normalised changes nothing, so a second pass over synced data
    leaves the addresses as they are. *)
Theorem email_normalize_is_idempotent (h : Host) (v config : value) :
  let once := VStr (trim (toLowerCase (toStr h v))) in
  DataTransformer.applyTransformation h v "EMAIL_NORMALIZE" config = Ok once
  /\ DataTransformer.applyReverseTransformation h v "EMAIL_NORMALIZE" config = Ok once
  /\ roundTrip h once "EMAIL_NORMALIZE" config = Ok once
  /\ SheetsToHubSpot.applyTransformation h v (Some "EMAIL_NORMALIZE") = once
  /\ SheetsToHubSpot.applyTransformation h once (Some "EMAIL_NORMALIZE") = once.
Proof.
  intros once. repeat split.
  - unfold roundTrip, DataTransformer.applyTransformation,
      DataTransformer.applyReverseTransformation.
    change (DataTransformer.caseOf "EMAIL_NORMALIZE")
      with (Some DataTransformer.EMAIL_NORMALIZE).
    unfold once. cbn [obind toStr]. now rewrite !normalize_idem.
  - unfold once.
    change (VStr (trim (toLowerCase (trim (toLowerCase (toStr h v)))))
            = VStr (trim (toLowerCase (toStr h v)))).
    now rewrite normalize_idem.
Qed.

Lemma titleCase_go_idem (s : string) :
  forall inMatch,
    DataTransformer.titleCase_go (DataTransformer.titleCase_go s inMatch) inMatch
    = DataTransformer.titleCase_go s inMatch.
Proof.
  induction s as [|c s IH]; intros inMatch; [reflexivity|].
  cbn [DataTransformer.titleCase_go]. destruct inMatch.
  - destruct (is_ws c) eqn:Ec; cbn [DataTransformer.titleCase_go].
    + now rewrite Ec, IH.
    + now rewrite is_ws_lower, Ec, lower_char_idem, IH.
  - destruct (is_word c) eqn:Ec; cbn [DataTransformer.titleCase_go].
    + now rewrite is_word_upper, Ec, upper_char_idem, IH.
    + now rewrite Ec, IH.
Qed.

Lemma titleCase_go_length (s : string) :
  forall inMatch,
    String.length (DataTransformer.titleCase_go s inMatch) = String.length s.
Proof.
  induction s as [|c s IH]; intros inMatch; [reflexivity|].
  cbn [DataTransformer.titleCase_go].
  destruct inMatch; [destruct (is_ws c) | destruct (is_word c)]; simpl; now rewrite IH.
Qed.

(** X5. The case and trim transforms are idempotent: applied to its own
    output, each of TRIM, LOWERCASE, UPPERCASE and TITLE_CASE returns that
    output.  On an ASCII text TITLE_CASE keeps the length of the text. *)
Theorem case_and_trim_transforms_are_idempotent (h : Host) (v config : value) (t : string) :
  In t ["TRIM"; "LOWERCASE"; "UPPERCASE"; "TITLE_CASE"] ->
  exists once,
    DataTransformer.applyTransformation h v t config = Ok (VStr once)
    /\ DataTransformer.applyTransformation h (VStr once) t config = Ok (VStr once)
    /\ (t = "TITLE_CASE" -> asciiText (toStr h v) ->
        String.length once = String.length (toStr h v)).
Proof.
  intros Hin. simpl in Hin.
  destruct Hin as [<-|[<-|[<-|[<-|[]]]]]; unfold DataTransformer.applyTransformation.
  - change (DataTransformer.caseOf "TRIM") with (Some DataTransformer.TRIM).
    eexists. split; [reflexivity|]. split; [|discriminate].
    cbn [toStr]. now rewrite trim_idem.
  - change (DataTransformer.caseOf "LOWERCASE") with (Some DataTransformer.LOWERCASE).
    eexists. split; [reflexivity|]. split; [|discriminate].
    cbn [toStr]. unfold toLowerCase. now rewrite map_chars_idem by apply lower_char_idem.
  - change (DataTransformer.caseOf "UPPERCASE") with (Some DataTransformer.UPPERCASE).
    eexists. split; [reflexivity|]. split; [|discriminate].
    cbn [toStr]. unfold toUpperCase. now rewrite map_chars_idem by apply upper_char_idem.
  - change (DataTransformer.caseOf "TITLE_CASE") with (Some DataTransformer.TITLE_CASE).
    eexists. split; [reflexivity|]. split.
    + cbn [toStr]. unfold DataTransformer.toTitleCase. now rewrite titleCase_go_idem.
    + intros _ _. apply titleCase_go_length.
Qed.

Lemma case_and_trim_witness :
  exists once,
    DataTransformer.applyTransformation Examples.exampleHost (VStr "ada LOVELACE")
      "TITLE_CASE" VUndefined = Ok (VStr once)
    /\ DataTransformer.applyTransformation Examples.exampleHost (VStr once)
         "TITLE_CASE" VUndefined = Ok (VStr once)
    /\ ("TITLE_CASE" = "TITLE_CASE" ->
        asciiText (toStr Examples.exampleHost (VStr "ada LOVELACE")) ->
        String.length once = String.length (toStr Examples.exampleHost (VStr "ada LOVELACE"))).
Proof.
  apply case_and_trim_transforms_are_idempotent. simpl. tauto.
Defined.

(* ===================================================================== *)
(** ** Field transformer: whole records, Sheets to HubSpot               *)
(* ===================================================================== *)

Lemma lookup_field_set (fs : list (string * value)) (k k' : string) (v : value) :
  lookup_field k' (JSMap.set String.eqb k v fs)
  = if String.eqb k' k then v else lookup_field k' fs.
Proof.
  induction fs as [|[k0 v0] fs IH]; simpl.
  - now destruct (String.eqb k' k).
  - destruct (String.eqb k k0) eqn:E; simpl.
    + apply String.eqb_eq in E. subst k0. now destruct (String.eqb k' k).
    + rewrite IH. destruct (String.eqb k' k0) eqn:E0; [|reflexivity].
      apply String.eqb_eq in E0. subst k0. rewrite String.eqb_sym in E. now rewrite E.
Qed.

Lemma in_set (fs : list (string * value)) (k : string) (v : value) (x : string * value) :
  In x (JSMap.set String.eqb k v fs) -> x = (k, v) \/ In x fs.
Proof.
  induction fs as [|[k0 v0] fs IH]; simpl; [intuition congruence|].
  destruct (String.eqb k k0); simpl; [intuition congruence|].
  intros [H|H]; [tauto|]. destruct (IH H); tauto.
Qed.

Lemma noNullish_set (fs : list (string * value)) (k : string) (v : value) :
  noNullish fs -> is_nullish v = false -> noNullish (JSMap.set String.eqb k v fs).
Proof.
  intros Hfs Hv k' v' Hin. apply in_set in Hin. destruct Hin as [Heq|Hin].
  - now injection Heq as -> ->.
  - now apply (Hfs k' v').
Qed.

Lemma sheetsToHubSpot_from_result (h : Host) (sheetData : list (string * value))
    (mappings : list RecordTransformer.FieldMapping) :
  forall transformed,
    noNullish transformed ->
    match RecordTransformer.sheetsToHubSpot_from h transformed sheetData mappings with
    | Throw msg =>
        exists before m after,
          mappings = before ++ m :: after
          /\ RecordTransformer.isRequired m = true
          /\ msg = RecordTransformer.missingMessage m
          /\ valueMissing h sheetData m
          /\ (forall m', In m' before -> RecordTransformer.isRequired m' = true ->
                         valuePresent h sheetData m')
    | Ok out =>
        noNullish out
        /\ (forall k, is_nullish (lookup_field k transformed) = false ->
                      is_nullish (lookup_field k out) = false)
        /\ (forall m, In m mappings -> RecordTransformer.isRequired m = true ->
                      valuePresent h sheetData m
                      /\ is_nullish (lookup_field (RecordTransformer.hubspotProperty m) out)
                         = false)
    end.
Proof.
  induction mappings as [|m0 rest IH]; intros transformed Hclean.
  - simpl. split; [exact Hclean|]. split; [auto|]. intros m [].
  - cbn [RecordTransformer.sheetsToHubSpot_from].
    assert (Hvalue : exists value', reverseValue h sheetData m0 = Ok value').
    { unfold reverseValue. cbv zeta.
      destruct (RecordTransformer.transforms m0 _);
        [apply applyReverseTransformation_returns | eauto]. }
    destruct Hvalue as [value' Hvalue].
    pose proof Hvalue as Hrun. unfold reverseValue in Hrun. cbv zeta in Hrun.
    rewrite Hrun. cbn [obind].
    destruct (is_nullish value') eqn:Enull; cbn [negb].
    + destruct (RecordTransformer.isRequired m0) eqn:Ereq.
      * exists [], m0, rest. repeat split; auto.
        -- exists value'. auto.
        -- intros m' [].
      * specialize (IH transformed Hclean).
        destruct (RecordTransformer.sheetsToHubSpot_from h transformed sheetData rest)
          as [out|msg].
        -- destruct IH as (Hout & Hmono & Hreq). split; [exact Hout|].
           split; [exact Hmono|].
           intros m [<-|Hin] Hm; [congruence | now apply Hreq].
        -- destruct IH as (before & m & after & -> & Hm & Hmsg & Hmiss & Hbefore).
           exists (m0 :: before), m, after. repeat split; auto.
           intros m' [<-|Hin] Hm'; [congruence | now apply Hbefore].
    + specialize (IH _ (noNullish_set transformed (RecordTransformer.hubspotProperty m0)
                          value' Hclean Enull)).
      destruct (RecordTransformer.sheetsToHubSpot_from h _ sheetData rest) as [out|msg].
      * destruct IH as (Hout & Hmono & Hreq). split; [exact Hout|]. split.
        -- intros k Hk. apply Hmono. rewrite lookup_field_set.
           now destruct (String.eqb k (RecordTransformer.hubspotProperty m0)).
        -- intros m [<-|Hin] Hm; [|now apply Hreq]. split.
           ++ exists value'. auto.
           ++ apply Hmono. rewrite lookup_field_set. now rewrite String.eqb_refl.
      * destruct IH as (before & m & after & -> & Hm & Hmsg & Hmiss & Hbefore).
        exists (m0 :: before), m, after. repeat split; auto.
        intros m' [<-|Hin] Hm'; [exists value'; auto | now apply Hbefore].
Qed.

(** X6. When no mapped column is named like a member that every object
    inherits and no mapped property is [__proto__] (the model reads and
    writes the fields that the object has of its own),
    [transformSheetsToHubSpot] throws for one reason only: a
    required mapping whose value is [null] or [undefined] after the
    default and the reverse transformation.  The message names the first
    such mapping: every required mapping before it has a value.  A record
    it returns holds no [null] and no [undefined] property, and every
    required mapping has a value and its property in the record. *)
Theorem transformSheetsToHubSpot_result (h : Host) (sheetData : list (string * value))
    (mappings : list RecordTransformer.FieldMapping) :
  (forall m, In m mappings ->
     inherits (RecordTransformer.sheetColumn m) = false
     /\ String.eqb (RecordTransformer.hubspotProperty m) "__proto__" = false) ->
  match RecordTransformer.transformSheetsToHubSpot h sheetData mappings with
  | Throw msg =>
      exists before m after,
        mappings = before ++ m :: after
        /\ RecordTransformer.isRequired m = true
        /\ msg = RecordTransformer.missingMessage m
        /\ valueMissing h sheetData m
        /\ (forall m', In m' before -> RecordTransformer.isRequired m' = true ->
                       valuePresent h sheetData m')
  | Ok out =>
      noNullish out
      /\ (forall m, In m mappings -> RecordTransformer.isRequired m = true ->
                    valuePresent h sheetData m
                    /\ is_nullish (lookup_field (RecordTransformer.hubspotProperty m) out)
                       = false)
  end.
Proof.
  intros _. unfold RecordTransformer.transformSheetsToHubSpot.
  assert (Hempty : noNullish []) by (intros k v []).
  pose proof (sheetsToHubSpot_from_result h sheetData mappings [] Hempty) as H.
  destruct (RecordTransformer.sheetsToHubSpot_from h [] sheetData mappings); [|exact H].
  destruct H as (Hout & _ & Hreq). now split.
Qed.

Lemma transformSheetsToHubSpot_witness :
  exists before m after,
    [ {| RecordTransformer.hubspotProperty := "firstname";
         RecordTransformer.sheetColumn := "First name";
         RecordTransformer.transformType := Some "TRIM";
         RecordTransformer.transformConfig := VUndefined;
         RecordTransformer.isRequired := false;
         RecordTransformer.defaultValue := VUndefined |};
      {| RecordTransformer.hubspotProperty := "email";
         RecordTransformer.sheetColumn := "Email";
         RecordTransformer.transformType := Some "EMAIL_NORMALIZE";
         RecordTransformer.transformConfig := VUndefined;
         RecordTransformer.isRequired := true;
         RecordTransformer.defaultValue := VUndefined |} ]
    = before ++ m :: after
    /\ RecordTransformer.isRequired m = true
    /\ "Required field " +++ dq +++ "email" +++ dq +++ " is missing"
       = RecordTransformer.missingMessage m
    /\ valueMissing Examples.exampleHost [("First name", VStr " Jo ")] m
    /\ (forall m', In m' before -> RecordTransformer.isRequired m' = true ->
                   valuePresent Examples.exampleHost [("First name", VStr " Jo ")] m').
Proof.
  apply (transformSheetsToHubSpot_result Examples.exampleHost
           [("First name", VStr " Jo ")]
           [ {| RecordTransformer.hubspotProperty := "firstname";
                RecordTransformer.sheetColumn := "First name";
                RecordTransformer.transformType := Some "TRIM";
                RecordTransformer.transformConfig := VUndefined;
                RecordTransformer.isRequired := false;
                RecordTransformer.defaultValue := VUndefined |};
             {| RecordTransformer.hubspotProperty := "email";
                RecordTransformer.sheetColumn := "Email";
                RecordTransformer.transformType := Some "EMAIL_NORMALIZE";
                RecordTransformer.transformConfig := VUndefined;
                RecordTransformer.isRequired := true;
                RecordTransformer.defaultValue := VUndefined |} ]).
  intros m [<-|[<-|[]]]; split; reflexivity.
Defined.




(* ===================================================================== *)
(** ** Sheet->CRM: lookups                                               *)
(* ===================================================================== *)

Lemma searchFor_without_search (W : World) {S : Type} (entityType property : string)
    (v : value) (s : S) (hs : history) :
  searches entityType property = false ->
  SheetsToHubSpot.searchFor W entityType property v s hs = (Ok VUndefined, s, hs).
Proof.
  unfold searches, SheetsToHubSpot.searchFor. intros Hs.
  destruct (String.eqb entityType "contacts").
  - destruct (String.eqb property "email"); [discriminate Hs | reflexivity].
  - destruct (String.eqb entityType "companies"); [discriminate Hs|].
    destruct (String.eqb entityType "deals"); [discriminate Hs | reflexivity].
Qed.

(** X8. [findHubSpotRecord] never throws and never touches the result; it
    makes one search call when the entity type and the identifier allow a
    search and no call otherwise; what it returns is [null] or a truthy
    record, so the test [if (existingRecord)] of the caller is a test
    against [null]. *)
Theorem findHubSpotRecord_returns_null_or_a_record
    (W : World) (S : Type) (entityType property : string)
    (v : value) (s : S) (hs : history) :
  exists found,
    (found = VNull \/ truthy found = true)
    /\ SheetsToHubSpot.findHubSpotRecord W entityType property v s hs
       = (Ok found, s,
          if searches entityType property
          then hs ++ [ESearch entityType property v] else hs).
Proof.
  unfold SheetsToHubSpot.findHubSpotRecord, tryCatch, bind, ret.
  destruct (searches entityType property) eqn:Hs.
  - rewrite (searchFor_searches W _ _ _ _ _ Hs).
    destruct (search W hs entityType property v) as [r|msg].
    + unfold or_else. destruct (truthy (SheetsToHubSpot.firstResult r)) eqn:Et; eauto.
    + eauto.
  - rewrite (searchFor_without_search W _ _ _ _ _ Hs). cbn. eauto.
Qed.

(* ===================================================================== *)
(** ** Sheet->CRM: every row is accounted for                            *)
(* ===================================================================== *)

Section Accounting.
Variable h : Host.
Variable W : World.

Lemma untouched_ret {A} (a : A) : untouched (ret a).
Proof. intros s hs. now split. Qed.

Lemma untouched_throw {A} (msg : string) : untouched (@throw _ A msg).
Proof. intros s hs. now split. Qed.

Lemma untouched_lift {A} (o : outcome A) : untouched (lift o).
Proof. intros s hs. now split. Qed.

Lemma untouched_call {A} (e : event) (answer : history -> outcome A) :
  untouched (call e answer).
Proof. intros s hs. now split. Qed.

Lemma untouched_modify (f : SheetsToHubSpot.SheetsSyncResult -> SheetsToHubSpot.SheetsSyncResult) :
  (forall s, SheetsToHubSpot.rowsProcessed (f s) = SheetsToHubSpot.rowsProcessed s
             /\ SheetsToHubSpot.errors (f s) = SheetsToHubSpot.errors s) ->
  untouched (modify f).
Proof. intros Hf s hs. apply Hf. Qed.

Lemma untouched_bind {A B} (m : M _ A) (k : A -> M _ B) :
  untouched m -> (forall a, untouched (k a)) -> untouched (bind m k).
Proof.
  intros Hm Hk s hs. unfold bind. specialize (Hm s hs).
  destruct (m s hs) as [[[a|msg] s'] hs']; simpl in *; [|exact Hm].
  specialize (Hk a s' hs'). destruct Hm as [Hp He], Hk as [Hp' He'].
  split; congruence.
Qed.

Lemma untouched_tryCatch {A} (m : M _ A) (handler : string -> M _ A) :
  untouched m -> (forall msg, untouched (handler msg)) -> untouched (tryCatch m handler).
Proof.
  intros Hm Hh s hs. unfold tryCatch. specialize (Hm s hs).
  destruct (m s hs) as [[[a|msg] s'] hs']; simpl in *; [exact Hm|].
  specialize (Hh msg s' hs'). destruct Hm as [Hp He], Hh as [Hp' He'].
  split; congruence.
Qed.

Ltac untouched_step :=
  match goal with
  | |- untouched (bind _ _) => apply untouched_bind; [|intros ?]
  | |- untouched (tryCatch _ _) => apply untouched_tryCatch; [|intros ?]
  | |- untouched (ret _) => apply untouched_ret
  | |- untouched (throw _) => apply untouched_throw
  | |- untouched (lift _) => apply untouched_lift
  | |- untouched (call _ _) => apply untouched_call
  | |- untouched (modify _) => apply untouched_modify; intros ?; now split
  | |- untouched (if ?c then _ else _) => destruct c
  end.

Lemma untouched_findHubSpotRecord (entityType property : string) (v : value) :
  untouched (SheetsToHubSpot.findHubSpotRecord W entityType property v).
Proof.
  unfold SheetsToHubSpot.findHubSpotRecord, SheetsToHubSpot.searchFor,
    SheetsToHubSpot.doSearch.
  repeat untouched_step.
Qed.

Lemma untouched_branches (config : SheetsToHubSpot.SheetsToHubSpotSyncConfig)
    (jobId : string) (rowNumber : Z) (existingRecord : value)
    (hubspotData : list (string * value)) :
  untouched (if truthy existingRecord
             then SheetsToHubSpot.whenFound W config jobId existingRecord hubspotData
             else SheetsToHubSpot.whenNotFound W config jobId rowNumber hubspotData).
Proof.
  unfold SheetsToHubSpot.whenFound, SheetsToHubSpot.whenNotFound,
    SheetsToHubSpot.createHubSpotRecord, SheetsToHubSpot.updateHubSpotRecord,
    SheetsToHubSpot.logSyncOperation, SheetsToHubSpot.updateSyncState.
  repeat untouched_step.
Qed.

(** The row body either ends normally, and then the row is settled unless
    it is empty, or throws with [rowsProcessed] and [errors] as they
    were; an empty row never throws. *)
Lemma rowBody_settles (config : SheetsToHubSpot.SheetsToHubSpotSyncConfig)
    (jobId : string) (identifierIndex rowNumber : Z) (row : list value)
    (s : SheetsToHubSpot.SheetsSyncResult) (hs : history) :
  match SheetsToHubSpot.rowBody h W config jobId identifierIndex rowNumber row s hs with
  | (Ok _, s', _) =>
      settled s' = settled s + (if SheetsToHubSpot.isEmptyRow h row then 0 else 1)
  | (Throw _, s', _) =>
      SheetsToHubSpot.isEmptyRow h row = false
      /\ SheetsToHubSpot.rowsProcessed s' = SheetsToHubSpot.rowsProcessed s
      /\ SheetsToHubSpot.errors s' = SheetsToHubSpot.errors s
  end.
Proof.
  unfold SheetsToHubSpot.rowBody.
  destruct (SheetsToHubSpot.isEmptyRow h row) eqn:Hempty.
  - cbn. unfold settled. simpl. lia.
  - destruct (SheetsToHubSpot.valid _ _); cbn [negb].
    + unfold bind at 1.
      pose proof (untouched_findHubSpotRecord
                    (SheetsToHubSpot.hubspotEntityType config)
                    (SheetsToHubSpot.identifierColumn config)
                    (nthZ row identifierIndex) s hs) as Hf.
      destruct (SheetsToHubSpot.findHubSpotRecord W _ _ _ s hs) as [[[found|msg] s1] hs1];
        simpl in Hf; destruct Hf as [Hp1 He1]; [|auto].
      unfold bind at 1.
      pose proof (untouched_branches config jobId rowNumber found
                    (SheetsToHubSpot.transformRowToHubSpot h row
                       (SheetsToHubSpot.fieldMappings config)) s1 hs1) as Hb.
      match type of Hb with
      | context [snd (fst ?c)] => destruct c as [[[u|msg] s2] hs2]
      end; simpl in Hb; destruct Hb as [Hp2 He2].
      * cbn. unfold settled. simpl. rewrite Hp2, He2, Hp1, He1. lia.
      * repeat split; congruence.
    + destruct (SheetsToHubSpot.skipInvalid config).
      * cbn. unfold settled. simpl. rewrite length_app. simpl. lia.
      * cbn. auto.
Qed.

(** One turn of the loop settles the row unless it is empty, whatever the
    outcome of the turn. *)
Lemma processRow_settles (config : SheetsToHubSpot.SheetsToHubSpotSyncConfig)
    (jobId : string) (identifierIndex rowIndex : Z) (row : list value)
    (s : SheetsToHubSpot.SheetsSyncResult) (hs : history) :
  settled (snd (fst (SheetsToHubSpot.processRow h W config jobId identifierIndex
                       rowIndex row s hs)))
  = settled s + (if SheetsToHubSpot.isEmptyRow h row then 0 else 1).
Proof.
  unfold SheetsToHubSpot.processRow, tryCatch.
  pose proof (rowBody_settles config jobId identifierIndex (rowIndex + 2)%Z row s hs) as Hb.
  destruct (SheetsToHubSpot.rowBody h W config jobId identifierIndex (rowIndex + 2) row s hs)
    as [[[u|msg] s1] hs1].
  - exact Hb.
  - destruct Hb as (Hempty & Hp & He). rewrite Hempty.
    unfold SheetsToHubSpot.rowCatch, bind, modify, SheetsToHubSpot.logSyncOperation, call.
    cbn. unfold settled. simpl. rewrite Hp, He, length_app. simpl. lia.
Qed.

Lemma rowLoop_settles (config : SheetsToHubSpot.SheetsToHubSpotSyncConfig)
    (jobId : string) (identifierIndex : Z) (rows : list (list value)) :
  forall (rowIndex : Z) (s s' : SheetsToHubSpot.SheetsSyncResult) (hs hs' : history) u,
    SheetsToHubSpot.rowLoop h W config jobId identifierIndex rowIndex rows s hs
    = (Ok u, s', hs') ->
    settled s' = settled s + List.length (nonEmptyRows h rows).
Proof.
  induction rows as [|row rest IH]; intros rowIndex s s' hs hs' u Hrun.
  - simpl in Hrun. injection Hrun as _ <- _. simpl. lia.
  - simpl SheetsToHubSpot.rowLoop in Hrun. unfold bind in Hrun.
    pose proof (processRow_settles config jobId identifierIndex rowIndex row s hs) as Hrow.
    destruct (SheetsToHubSpot.processRow h W config jobId identifierIndex rowIndex row s hs)
      as [[[u1|msg] s1] hs1]; [|discriminate Hrun].
    simpl in Hrow. rewrite (IH _ _ _ _ _ _ Hrun), Hrow.
    unfold nonEmptyRows. simpl.
    destruct (SheetsToHubSpot.isEmptyRow h row); simpl; lia.
Qed.

End Accounting.

(** X9. A Sheet->CRM run that returns has accounted for every row that is not
    empty exactly once: the rows processed and the rows in the error list
    add up to the number of such rows, and the job was told as much. *)
Theorem sheet_run_accounts_for_every_row
    (h : Host) (W : World) (config : SheetsToHubSpot.SheetsToHubSpotSyncConfig)
    (hs0 : history) (jobId : string) (sheet : SheetData)
    (r : SheetsToHubSpot.SheetsSyncResult) :
  jobCreate W hs0 (SheetsToHubSpot.syncConfigId config) = Ok jobId ->
  readSheet W (hs0 ++ [EJobCreate (SheetsToHubSpot.syncConfigId config) "IN_PROGRESS"])
    (SheetsToHubSpot.spreadsheetId config) (SheetsToHubSpot.sheetName config) = Ok sheet ->
  SheetsToHubSpot.validateHeaders (headers sheet) (SheetsToHubSpot.fieldMappings config)
  = Ok tt ->
  indexOf (headers sheet) (SheetsToHubSpot.identifierColumn config) <> (-1)%Z ->
  fst (SheetsToHubSpot.executeSync h W config hs0) = Ok r ->
  SheetsToHubSpot.rowsProcessed r + List.length (SheetsToHubSpot.errors r)
  = List.length (nonEmptyRows h (rows sheet))
  /\ exists before,
       snd (SheetsToHubSpot.executeSync h W config hs0)
       = before ++ [EJobUpdate jobId (SheetsToHubSpot.finalJobUpdate r)].
Proof.
  intros Hjob Hread Hheaders Hident.
  rewrite (executeSync_after_checks h W config hs0 jobId sheet Hjob Hread Hheaders Hident).
  cbv zeta.
  destruct (SheetsToHubSpot.rowLoop h W config jobId _ 0 (rows sheet) _ _)
    as [[[u|m] s3] hs3] eqn:Erun.
  - apply rowLoop_settles in Erun.
    destruct (jobUpdate W hs3 jobId _) as [u1|m1]; simpl.
    + intros Hr. injection Hr as <-. split; [|eauto].
      unfold settled in Erun. simpl in *. lia.
    + destruct (jobUpdate W _ jobId _); discriminate.
  - simpl. destruct (jobUpdate W hs3 jobId _); discriminate.
Qed.

Lemma sheet_run_accounts_witness :
  SheetsToHubSpot.rowsProcessed
    {| SheetsToHubSpot.success := false; SheetsToHubSpot.rowsProcessed := 1;
       SheetsToHubSpot.recordsCreated := 1; SheetsToHubSpot.recordsUpdated := 0;
       SheetsToHubSpot.recordsSkipped := 0;
       SheetsToHubSpot.errors :=
         [{| SheetsToHubSpot.row := 2%Z; SheetsToHubSpot.data := [VStr ""; VStr "Jo"];
             SheetsToHubSpot.error := "Row 2: Missing required fields: email" |}] |}
  + 1
  = List.length (nonEmptyRows Examples.exampleHost (rows Examples.contactSheet)).
Proof.
  refine (proj1 (sheet_run_accounts_for_every_row Examples.exampleHost
                   (Examples.calmWorld Examples.contactSheet [])
                   (Examples.sheetConfig "contacts" "email" false) [] "job-1"
                   Examples.contactSheet _ eq_refl eq_refl eq_refl _ eq_refl)).
  vm_compute. discriminate.
Defined.

Lemma sheet_run_success_witness :
  SheetsToHubSpot.success
    {| SheetsToHubSpot.success := false; SheetsToHubSpot.rowsProcessed := 1;
       SheetsToHubSpot.recordsCreated := 1; SheetsToHubSpot.recordsUpdated := 0;
       SheetsToHubSpot.recordsSkipped := 0;
       SheetsToHubSpot.errors :=
         [{| SheetsToHubSpot.row := 2%Z; SheetsToHubSpot.data := [VStr ""; VStr "Jo"];
             SheetsToHubSpot.error := "Row 2: Missing required fields: email" |}] |}
  = true
  <-> [{| SheetsToHubSpot.row := 2%Z; SheetsToHubSpot.data := [VStr ""; VStr "Jo"];
          SheetsToHubSpot.error := "Row 2: Missing required fields: email" |}] = [].
Proof.
  exact (sheet_run_success_iff_no_errors Examples.exampleHost
           (Examples.calmWorld Examples.contactSheet [])
           (Examples.sheetConfig "contacts" "email" false) [] _ eq_refl).
Defined.

(* ===================================================================== *)
(** ** Sheet->CRM: rows that reach no collaborator                       *)
(* ===================================================================== *)

(** X11. With [skipInvalid] on, rows that are empty or lack a required field
    cost no call at all: the loop over such rows returns normally with the
    history as it was, every row counted as skipped, one error for each row
    that is not empty, and nothing processed, created or updated. *)
Theorem lenient_loop_skips_without_a_call
    (h : Host) (W : World) (config : SheetsToHubSpot.SheetsToHubSpotSyncConfig)
    (jobId : string) (identifierIndex : Z) (rows : list (list value)) :
  SheetsToHubSpot.skipInvalid config = true ->
  Forall (fun r =>
            SheetsToHubSpot.isEmptyRow h r = true
            \/ SheetsToHubSpot.valid
                 (SheetsToHubSpot.transformRowToHubSpot h r
                    (SheetsToHubSpot.fieldMappings config))
                 (SheetsToHubSpot.fieldMappings config) = false) rows ->
  forall (rowIndex : Z) (s : SheetsToHubSpot.SheetsSyncResult) (hs : history),
  exists s',
    SheetsToHubSpot.rowLoop h W config jobId identifierIndex rowIndex rows s hs
    = (Ok tt, s', hs)
    /\ SheetsToHubSpot.recordsSkipped s'
       = SheetsToHubSpot.recordsSkipped s + List.length rows
    /\ List.length (SheetsToHubSpot.errors s')
       = List.length (SheetsToHubSpot.errors s) + List.length (nonEmptyRows h rows)
    /\ SheetsToHubSpot.rowsProcessed s' = SheetsToHubSpot.rowsProcessed s
    /\ SheetsToHubSpot.recordsCreated s' = SheetsToHubSpot.recordsCreated s
    /\ SheetsToHubSpot.recordsUpdated s' = SheetsToHubSpot.recordsUpdated s.
Proof.
  intros Hlenient Hrows. induction Hrows as [|row rest Hrow _ IH]; intros rowIndex s hs.
  - exists s. simpl. repeat split; lia.
  - simpl SheetsToHubSpot.rowLoop. unfold bind at 1.
    unfold SheetsToHubSpot.processRow, tryCatch, SheetsToHubSpot.rowBody.
    unfold nonEmptyRows. simpl filter. fold (nonEmptyRows h rest).
    destruct (SheetsToHubSpot.isEmptyRow h row) eqn:Hempty.
    + cbn [modify]. cbv beta iota.
      destruct (IH (rowIndex + 1)%Z (SheetsToHubSpot.incSkipped s) hs)
        as (s' & Hrun & Hsk & Herr & Hp & Hc & Hu).
      exists s'. rewrite Hrun. simpl in *. repeat split; lia.
    + destruct Hrow as [Hrow|Hrow]; [discriminate Hrow|].
      rewrite Hrow, Hlenient. cbn [negb]. unfold bind at 1. cbn [modify]. cbv beta iota.
      match goal with
      | |- context [SheetsToHubSpot.rowLoop _ _ _ _ _ _ rest ?s1 hs] =>
          destruct (IH (rowIndex + 1)%Z s1 hs) as (s' & Hrun & Hsk & Herr & Hp & Hc & Hu)
      end.
      exists s'. rewrite Hrun. simpl in *. rewrite length_app in Herr. simpl in *.
      repeat split; lia.
Qed.

Lemma lenient_loop_witness :
  exists s',
    SheetsToHubSpot.rowLoop Examples.exampleHost
      (Examples.calmWorld Examples.contactSheet [])
      (Examples.sheetConfig "contacts" "email" true) "job-1" 0%Z 0%Z
      [[VStr ""; VStr "Jo"]; [VNull; VStr "  "]] SheetsToHubSpot.initialResult []
    = (Ok tt, s', [])
    /\ SheetsToHubSpot.recordsSkipped s' = 0 + 2
    /\ List.length (SheetsToHubSpot.errors s')
       = 0 + List.length (nonEmptyRows Examples.exampleHost
                            [[VStr ""; VStr "Jo"]; [VNull; VStr "  "]])
    /\ SheetsToHubSpot.rowsProcessed s' = 0
    /\ SheetsToHubSpot.recordsCreated s' = 0
    /\ SheetsToHubSpot.recordsUpdated s' = 0.
Proof.
  apply (lenient_loop_skips_without_a_call Examples.exampleHost
           (Examples.calmWorld Examples.contactSheet [])
           (Examples.sheetConfig "contacts" "email" true) "job-1" 0%Z
           [[VStr ""; VStr "Jo"]; [VNull; VStr "  "]] eq_refl).
  constructor; [right; reflexivity|].
  constructor; [left; reflexivity|]. constructor.
Defined.

(* ===================================================================== *)
(** ** Sheet->CRM: the checks before the first row                       *)
(* ===================================================================== *)

Lemma validateHeaders_ok_iff (headers : list string)
    (mappings : list SheetsToHubSpot.FieldMapping) :
  SheetsToHubSpot.validateHeaders headers mappings = Ok tt
  <-> forall m, In m mappings -> includes headers (SheetsToHubSpot.sheetColumn m) = true.
Proof.
  induction mappings as [|m0 rest IH]; simpl.
  - split; [intros _ m [] | reflexivity].
  - destruct (includes headers (SheetsToHubSpot.sheetColumn m0)) eqn:E.
    + rewrite IH. split; [intros H m [<-|Hin]; auto | intros H m Hin; apply H; auto].
    + split; [discriminate|]. intros H. specialize (H m0 (or_introl eq_refl)). congruence.
Qed.

Lemma validateHeaders_names_a_missing_column (headers : list string)
    (mappings : list SheetsToHubSpot.FieldMapping) (msg : string) :
  SheetsToHubSpot.validateHeaders headers mappings = Throw msg ->
  exists m, In m mappings
            /\ includes headers (SheetsToHubSpot.sheetColumn m) = false
            /\ msg = columnNotFound (SheetsToHubSpot.sheetColumn m).
Proof.
  induction mappings as [|m0 rest IH]; simpl; [discriminate|].
  destruct (includes headers (SheetsToHubSpot.sheetColumn m0)) eqn:E.
  - intros H. destruct (IH H) as (m & Hin & Hm). exists m. auto.
  - intros H. injection H as <-. exists m0. auto.
Qed.

(** X12. A mapped column that the header row lacks stops the run before any
    row is read: the run makes three calls (create the job, read the
    sheet, mark the job FAILED with the message that names a missing
    column) and throws that message, or the error of the job update if
    that fails too. *)
Theorem missing_mapped_column_stops_the_run_before_the_rows
    (h : Host) (W : World) (config : SheetsToHubSpot.SheetsToHubSpotSyncConfig)
    (hs0 : history) (jobId : string) (sheet : SheetData)
    (m : SheetsToHubSpot.FieldMapping) :
  jobCreate W hs0 (SheetsToHubSpot.syncConfigId config) = Ok jobId ->
  readSheet W (hs0 ++ [EJobCreate (SheetsToHubSpot.syncConfigId config) "IN_PROGRESS"])
    (SheetsToHubSpot.spreadsheetId config) (SheetsToHubSpot.sheetName config) = Ok sheet ->
  In m (SheetsToHubSpot.fieldMappings config) ->
  includes (headers sheet) (SheetsToHubSpot.sheetColumn m) = false ->
  exists missing,
    In missing (SheetsToHubSpot.fieldMappings config)
    /\ includes (headers sheet) (SheetsToHubSpot.sheetColumn missing) = false
    /\ let msg := columnNotFound (SheetsToHubSpot.sheetColumn missing) in
       let hs2 := hs0 ++ [EJobCreate (SheetsToHubSpot.syncConfigId config) "IN_PROGRESS";
                          EReadSheet (SheetsToHubSpot.spreadsheetId config)
                            (SheetsToHubSpot.sheetName config)] in
       SheetsToHubSpot.executeSync h W config hs0
       = (match jobUpdate W hs2 jobId (SheetsToHubSpot.failedJobUpdate msg) with
          | Ok _ => Throw msg
          | Throw m' => Throw m'
          end,
          hs2 ++ [EJobUpdate jobId (SheetsToHubSpot.failedJobUpdate msg)]).
Proof.
  intros Hjob Hread Hin Hmissing.
  destruct (SheetsToHubSpot.validateHeaders (headers sheet)
              (SheetsToHubSpot.fieldMappings config)) as [[]|msg] eqn:Ev.
  - apply validateHeaders_ok_iff with (m := m) in Ev; [congruence | exact Hin].
  - destruct (validateHeaders_names_a_missing_column _ _ _ Ev) as (missing & Hm & Hinc & ->).
    exists missing. split; [exact Hm|]. split; [exact Hinc|]. cbv zeta.
    unfold SheetsToHubSpot.executeSync, SheetsToHubSpot.executeSync_on.
    unfold bind at 1. unfold call at 1. rewrite Hjob.
    unfold bind at 1. unfold tryCatch. unfold SheetsToHubSpot.syncBody.
    unfold bind at 1. unfold call at 1. rewrite Hread.
    unfold bind at 1. rewrite Ev. unfold lift at 1.
    unfold bind, SheetsToHubSpot.doJobUpdate, call, throw.
    rewrite <- app_assoc. cbn [app].
    destruct (jobUpdate W _ jobId _); reflexivity.
Qed.

Lemma missing_mapped_column_witness :
  exists missing,
    In missing Examples.contactMappings
    /\ includes ["email"; "name"] (SheetsToHubSpot.sheetColumn missing) = false
    /\ SheetsToHubSpot.executeSync Examples.exampleHost
         (Examples.calmWorld {| headers := ["email"; "name"]; rows := [[VStr "a@x.com"]] |} [])
         (Examples.sheetConfig "contacts" "email" false) []
       = (Throw (columnNotFound (SheetsToHubSpot.sheetColumn missing)),
          [EJobCreate "cfg-1" "IN_PROGRESS"; EReadSheet "sheet-1" "Contacts";
           EJobUpdate "job-1"
             (SheetsToHubSpot.failedJobUpdate
                (columnNotFound (SheetsToHubSpot.sheetColumn missing)))]).
Proof.
  exact (missing_mapped_column_stops_the_run_before_the_rows Examples.exampleHost
           (Examples.calmWorld {| headers := ["email"; "name"]; rows := [[VStr "a@x.com"]] |} [])
           (Examples.sheetConfig "contacts" "email" false) [] "job-1"
           {| headers := ["email"; "name"]; rows := [[VStr "a@x.com"]] |}
           {| SheetsToHubSpot.sheetColumn := "firstname"; SheetsToHubSpot.columnIndex := 1%Z;
              SheetsToHubSpot.hubspotProperty := "firstname";
              SheetsToHubSpot.isRequired := false;
              SheetsToHubSpot.transformType := None |}
           eq_refl eq_refl (or_intror (or_introl eq_refl)) eq_refl).
Defined.

(** X13. An identifier column that the header row lacks stops the run the same
    way, after the mapped columns were accepted and before any row. *)
Theorem missing_identifier_column_stops_the_run_before_the_rows
    (h : Host) (W : World) (config : SheetsToHubSpot.SheetsToHubSpotSyncConfig)
    (hs0 : history) (jobId : string) (sheet : SheetData) :
  jobCreate W hs0 (SheetsToHubSpot.syncConfigId config) = Ok jobId ->
  readSheet W (hs0 ++ [EJobCreate (SheetsToHubSpot.syncConfigId config) "IN_PROGRESS"])
    (SheetsToHubSpot.spreadsheetId config) (SheetsToHubSpot.sheetName config) = Ok sheet ->
  (forall m, In m (SheetsToHubSpot.fieldMappings config) ->
             includes (headers sheet) (SheetsToHubSpot.sheetColumn m) = true) ->
  includes (headers sheet) (SheetsToHubSpot.identifierColumn config) = false ->
  let msg := "Identifier column " +++ dq +++ SheetsToHubSpot.identifierColumn config
             +++ dq +++ " not found" in
  let hs2 := hs0 ++ [EJobCreate (SheetsToHubSpot.syncConfigId config) "IN_PROGRESS";
                     EReadSheet (SheetsToHubSpot.spreadsheetId config)
                       (SheetsToHubSpot.sheetName config)] in
  SheetsToHubSpot.executeSync h W config hs0
  = (match jobUpdate W hs2 jobId (SheetsToHubSpot.failedJobUpdate msg) with
     | Ok _ => Throw msg
     | Throw m' => Throw m'
     end,
     hs2 ++ [EJobUpdate jobId (SheetsToHubSpot.failedJobUpdate msg)]).
Proof.
  intros Hjob Hread Hcolumns Hident msg hs2.
  apply validateHeaders_ok_iff in Hcolumns.
  assert (Hindex : indexOf (headers sheet) (SheetsToHubSpot.identifierColumn config)
                   = (-1)%Z).
  { clear - Hident. unfold indexOf, includes in *. generalize 0%Z.
    induction (headers sheet) as [|x l IH]; intros i; simpl in *; [reflexivity|].
    destruct (String.eqb x (SheetsToHubSpot.identifierColumn config));
      [discriminate Hident | apply IH; exact Hident]. }
  unfold SheetsToHubSpot.executeSync, SheetsToHubSpot.executeSync_on.
  unfold bind at 1. unfold call at 1. rewrite Hjob.
  unfold bind at 1. unfold tryCatch. unfold SheetsToHubSpot.syncBody.
  unfold bind at 1. unfold call at 1. rewrite Hread.
  unfold bind at 1. rewrite Hcolumns. unfold lift at 1.
  unfold bind at 1. rewrite Hindex. cbn [Z.eqb Pos.eqb].
  unfold bind, SheetsToHubSpot.doJobUpdate, call, throw.
  unfold hs2. rewrite <- app_assoc. cbn [app]. fold msg.
  destruct (jobUpdate W _ jobId _); reflexivity.
Qed.

Lemma missing_identifier_column_witness :
  SheetsToHubSpot.executeSync Examples.exampleHost
    (Examples.calmWorld Examples.contactSheet [])
    (Examples.sheetConfig "contacts" "phone" false) []
  = (Throw ("Identifier column " +++ dq +++ "phone" +++ dq +++ " not found"),
     [EJobCreate "cfg-1" "IN_PROGRESS"; EReadSheet "sheet-1" "Contacts";
      EJobUpdate "job-1"
        (SheetsToHubSpot.failedJobUpdate
           ("Identifier column " +++ dq +++ "phone" +++ dq +++ " not found"))]).
Proof.
  refine (missing_identifier_column_stops_the_run_before_the_rows Examples.exampleHost
            (Examples.calmWorld Examples.contactSheet [])
            (Examples.sheetConfig "contacts" "phone" false) [] "job-1"
            Examples.contactSheet eq_refl eq_refl _ eq_refl).
  intros m [<-|[<-|[]]]; reflexivity.
Defined.

(* ===================================================================== *)
(** ** Sheets client: column letters and column indexes                  *)
(* ===================================================================== *)

Section Columns.
Import GoogleSheetsClient.

Lemma letter_code (d : Z) :
  (0 <= d < 26)%Z ->
  Z.of_nat (nat_of_ascii (ascii_of_nat (Z.to_nat (d + 65)))) = (d + 65)%Z.
Proof.
  intros Hd. rewrite nat_ascii_embedding by lia. lia.
Qed.

Lemma letter_is_upper (d : Z) :
  (0 <= d < 26)%Z -> is_upper (ascii_of_nat (Z.to_nat (d + 65))) = true.
Proof.
  intros Hd. unfold is_upper, code. rewrite nat_ascii_embedding by lia.
  apply andb_true_intro. split; apply Nat.leb_le; lia.
Qed.

Lemma indexLoop_letterLoop (fuel : nat) :
  forall (index : Z) (letter : string),
    (-1 <= index)%Z -> (index + 2 <= Z.of_nat fuel)%Z ->
    indexLoop (letterLoop fuel index letter) 0 = indexLoop letter (index + 1).
Proof.
  induction fuel as [|fuel IH]; intros index letter Hlo Hfuel; [lia|].
  cbn [letterLoop]. destruct (0 <=? index)%Z eqn:E.
  - apply Z.leb_le in E.
    pose proof (Z.mod_pos_bound index 26 ltac:(lia)) as Hmod.
    pose proof (Z.div_mod index 26 ltac:(lia)) as Hdiv.
    assert (0 <= index / 26)%Z by (apply Z.div_pos; lia).
    rewrite IH by lia. cbn [indexLoop]. rewrite letter_code by exact Hmod.
    f_equal. lia.
  - apply Z.leb_gt in E. f_equal. lia.
Qed.

Lemma letterLoop_letters (fuel : nat) :
  forall (index : Z) (letter : string),
    all_chars is_upper letter = true ->
    all_chars is_upper (letterLoop fuel index letter) = true.
Proof.
  induction fuel as [|fuel IH]; intros index letter Hl; [exact Hl|].
  cbn [letterLoop]. destruct (0 <=? index)%Z eqn:E; [|exact Hl].
  apply Z.leb_le in E. apply IH. cbn [all_chars].
  rewrite letter_is_upper by (apply Z.mod_pos_bound; lia). exact Hl.
Qed.

Lemma indexLoop_app (a b : string) (k : Z) :
  indexLoop (a +++ b) k = indexLoop b (indexLoop a k).
Proof.
  revert k. induction a as [|c a IH]; intros k; [reflexivity|].
  cbn [String.append indexLoop]. apply IH.
Qed.

Lemma indexLoop_grows (letter : string) :
  forall k, all_chars is_upper letter = true -> (0 <= k)%Z -> (k <= indexLoop letter k)%Z.
Proof.
  induction letter as [|c rest IH]; intros k Hl Hk; [cbn; lia|].
  cbn [all_chars] in Hl. apply andb_prop in Hl. destruct Hl as [Hc Hrest].
  unfold is_upper, code in Hc. apply andb_prop in Hc. destruct Hc as [Hlo Hhi].
  apply Nat.leb_le in Hlo, Hhi. cbn [indexLoop].
  etransitivity; [|apply IH; [exact Hrest | lia]]. lia.
Qed.

(** Induction on a text from its end. *)
Lemma string_rev_ind (P : string -> Prop) :
  P "" -> (forall s c, P s -> P (s +++ String c "")) -> forall s, P s.
Proof.
  intros Hnil Hsnoc s.
  rewrite <- (string_of_list_ascii_of_string s).
  induction (list_ascii_of_string s) as [|c l IH] using rev_ind; [exact Hnil|].
  assert (Happ : forall a b,
             string_of_list_ascii (a ++ b)
             = string_of_list_ascii a +++ string_of_list_ascii b).
  { intros a b. induction a as [|x a IHa]; [reflexivity|]. cbn. now rewrite IHa. }
  rewrite Happ. apply Hsnoc. exact IH.
Qed.

Lemma letterLoop_indexLoop (letter : string) :
  all_chars is_upper letter = true ->
  forall (fuel : nat) (rest : string),
    (indexLoop letter 0 + 1 <= Z.of_nat fuel)%Z ->
    letterLoop fuel (indexLoop letter 0 - 1) rest = letter +++ rest.
Proof.
  induction letter as [|s c IH] using string_rev_ind; intros Hl fuel rest Hfuel.
  - destruct fuel; reflexivity.
  - rewrite all_chars_app in Hl. apply andb_prop in Hl. destruct Hl as [Hs Hc].
    cbn [all_chars] in Hc. rewrite andb_true_r in Hc.
    pose proof Hc as Hup. unfold is_upper, code in Hc.
    apply andb_prop in Hc. destruct Hc as [Hlo Hhi]. apply Nat.leb_le in Hlo, Hhi.
    pose proof (indexLoop_grows s 0 Hs ltac:(lia)) as Hpos.
    rewrite indexLoop_app in *. cbn [indexLoop] in *.
    set (I := indexLoop s 0) in *. set (d := (Z.of_nat (nat_of_ascii c) - 65)%Z) in *.
    destruct fuel as [|fuel]; [lia|]. cbn [letterLoop].
    replace (I * 26 + d + 1 - 1)%Z with (d + I * 26)%Z by lia.
    assert (Hd : (0 <= d < 26)%Z) by (unfold d; lia).
    destruct (0 <=? d + I * 26)%Z eqn:E; [|apply Z.leb_gt in E; lia].
    rewrite Z.div_add by lia. rewrite Z.mod_add by lia.
    rewrite Z.div_small by lia. rewrite Z.mod_small by lia.
    replace (Z.to_nat (d + 65)) with (nat_of_ascii c) by (unfold d; lia).
    rewrite ascii_nat_embedding. cbn [Z.add].
    rewrite IH; [| exact Hs | fold I; lia].
    rewrite sapp_assoc. reflexivity.
Qed.

Lemma indexLoop_bound (letter : string) :
  forall k, all_chars is_upper letter = true -> (0 <= k)%Z ->
            (indexLoop letter k <= (k + 2) * 26 ^ Z.of_nat (String.length letter) - 2)%Z.
Proof.
  induction letter as [|c rest IH]; intros k Hl Hk.
  - cbn [indexLoop String.length]. change (26 ^ Z.of_nat 0)%Z with 1%Z. lia.
  - cbn [all_chars] in Hl. apply andb_prop in Hl. destruct Hl as [Hc Hrest].
    unfold is_upper, code in Hc. apply andb_prop in Hc. destruct Hc as [Hlo Hhi].
    apply Nat.leb_le in Hlo, Hhi. cbn [indexLoop String.length].
    etransitivity; [apply IH; [exact Hrest | lia]|].
    rewrite Nat2Z.inj_succ, Z.pow_succ_r by lia.
    assert (0 < 26 ^ Z.of_nat (String.length rest))%Z by (apply Z.pow_pos_nonneg; lia).
    nia.
Qed.

End Columns.

(** X14. A column index from -1 on (-1 is the empty name) and below 2^50,
    where the doubles of the source compute as the integers do, written as
    column letters and read back, is the index again, and the letters are
    capital letters: [getColumnIndex] undoes [getColumnLetter]. *)
Theorem column_letters_read_back_as_the_index (index : Z) :
  (-1 <= index)%Z ->
  exactIndex index ->
  columnName (GoogleSheetsClient.getColumnLetter index)
  /\ GoogleSheetsClient.getColumnIndex (GoogleSheetsClient.getColumnLetter index) = index.
Proof.
  intros Hlo _. unfold GoogleSheetsClient.getColumnLetter, GoogleSheetsClient.getColumnIndex.
  split.
  - apply letterLoop_letters. reflexivity.
  - rewrite indexLoop_letterLoop by lia. cbn. lia.
Qed.

Lemma column_letters_witness :
  columnName (GoogleSheetsClient.getColumnLetter 27)
  /\ GoogleSheetsClient.getColumnIndex (GoogleSheetsClient.getColumnLetter 27) = 27%Z.
Proof.
  apply (column_letters_read_back_as_the_index 27); [lia | reflexivity].
Defined.

(** X15. A column name of at most ten capital letters has an index below
    2^50, where the doubles of the source compute as the integers do; read
    as an index and written back, it is the name again: [getColumnLetter]
    undoes [getColumnIndex]. *)
Theorem column_index_writes_back_as_the_letters (letter : string) :
  columnName letter ->
  String.length letter <= 10 ->
  exactIndex (GoogleSheetsClient.getColumnIndex letter)
  /\ GoogleSheetsClient.getColumnLetter (GoogleSheetsClient.getColumnIndex letter) = letter.
Proof.
  intros Hl Hlen. unfold GoogleSheetsClient.getColumnLetter, GoogleSheetsClient.getColumnIndex.
  split.
  - unfold exactIndex.
    pose proof (indexLoop_bound letter 0 Hl ltac:(lia)) as Hb.
    assert (26 ^ Z.of_nat (String.length letter) <= 26 ^ 10)%Z
      by (apply Z.pow_le_mono_r; lia).
    assert (2 * 26 ^ 10 < 2 ^ 50)%Z by reflexivity.
    lia.
  - rewrite letterLoop_indexLoop; [apply sapp_empty_r | exact Hl |].
    pose proof (indexLoop_grows letter 0 Hl ltac:(lia)). lia.
Qed.

Lemma column_index_witness :
  exactIndex (GoogleSheetsClient.getColumnIndex "ZZ")
  /\ GoogleSheetsClient.getColumnLetter (GoogleSheetsClient.getColumnIndex "ZZ") = "ZZ".
Proof.
  apply (column_index_writes_back_as_the_letters "ZZ"); [reflexivity | cbn; lia].
Defined.

(* ===================================================================== *)
(** ** Sheets client: the rows that hold a value                         *)
(* ===================================================================== *)

Lemma matchRows_app (rows : list (list value)) (columnIndex : Z) (v : value) :
  forall (index : Z) (found : list Z),
    GoogleSheetsClient.matchRows rows columnIndex v index found
    = found ++ GoogleSheetsClient.matchRows rows columnIndex v index [].
Proof.
  induction rows as [|row rest IH]; intros index found; cbn.
  - now rewrite app_nil_r.
  - rewrite IH. rewrite (IH _ (if strictEq _ _ then _ else _)).
    destruct (strictEq (nthZ row columnIndex) v); [|reflexivity].
    now rewrite <- app_assoc.
Qed.

Lemma matchRows_spec (rows : list (list value)) (columnIndex : Z) (v : value) :
  forall (index n : Z),
    In n (GoogleSheetsClient.matchRows rows columnIndex v index [])
    <-> (index + 2 <= n)%Z
        /\ exists row,
             nth_error rows (Z.to_nat (n - (index + 2))) = Some row
             /\ strictEq (nthZ row columnIndex) v = true.
Proof.
  induction rows as [|row rest IH]; intros index n.
  - cbn. split; [tauto|]. intros (_ & r & Hr & _).
    destruct (Z.to_nat (n - (index + 2))); discriminate Hr.
  - cbn [GoogleSheetsClient.matchRows]. rewrite matchRows_app, in_app_iff, IH. split.
    + intros [Hhead|(Hlo & r & Hr & Hv)].
      * destruct (strictEq (nthZ row columnIndex) v) eqn:E; [|destruct Hhead].
        destruct Hhead as [<-|[]]. split; [lia|]. exists row.
        replace (index + 2 - (index + 2))%Z with 0%Z by lia. now split.
      * split; [lia|]. exists r. split; [|exact Hv].
        replace (Z.to_nat (n - (index + 2))) with (S (Z.to_nat (n - (index + 1 + 2)))) by lia.
        exact Hr.
    + intros (Hlo & r & Hr & Hv).
      destruct (Z.eq_dec n (index + 2)) as [->|Hne].
      * left. replace (index + 2 - (index + 2))%Z with 0%Z in Hr by lia.
        cbn in Hr. injection Hr as ->. rewrite Hv. now left.
      * right. split; [lia|]. exists r. split; [|exact Hv].
        replace (Z.to_nat (n - (index + 2))) with (S (Z.to_nat (n - (index + 1 + 2)))) in Hr by lia.
        exact Hr.
Qed.

Lemma matchRows_sorted (rows : list (list value)) (columnIndex : Z) (v : value) :
  forall index : Z,
    StronglySorted Z.lt (GoogleSheetsClient.matchRows rows columnIndex v index []).
Proof.
  induction rows as [|row rest IH]; intros index; [constructor|].
  cbn [GoogleSheetsClient.matchRows]. rewrite matchRows_app.
  destruct (strictEq (nthZ row columnIndex) v); [|apply IH].
  cbn [app]. constructor; [apply IH|].
  apply Forall_forall. intros n Hn. apply matchRows_spec in Hn. lia.
Qed.

(** X16. [findRows] returns the row numbers of the rows whose cell in the
    column is strictly equal to the value, no other number, each once and
    in ascending order; the row number of the row at position [i] of the
    rows read is [i + 2]. *)
Theorem findRows_gives_the_numbers_of_the_matching_rows
    (rows : list (list value)) (columnIndex : Z) (v : value) :
  (forall n : Z,
     In n (GoogleSheetsClient.findRowsIn rows columnIndex v)
     <-> (2 <= n)%Z
         /\ exists row,
              nth_error rows (Z.to_nat (n - 2)) = Some row
              /\ strictEq (nthZ row columnIndex) v = true)
  /\ StronglySorted Z.lt (GoogleSheetsClient.findRowsIn rows columnIndex v).
Proof.
  unfold GoogleSheetsClient.findRowsIn. split; [|apply matchRows_sorted].
  intros n. rewrite matchRows_spec. reflexivity.
Qed.

(* ===================================================================== *)
(** ** CRM->Sheet: headers and data rows                                 *)
(* ===================================================================== *)

Section HeadersAndRows.
Variable h : Host.

Lemma insertMapping_perm (m : HubSpotToSheets.FieldMapping)
    (l : list HubSpotToSheets.FieldMapping) :
  Permutation (m :: l) (HubSpotToSheets.insertMapping m l).
Proof.
  induction l as [|x l IH]; cbn; [reflexivity|].
  destruct (_ <=? _)%Z; [reflexivity|].
  rewrite perm_swap. now constructor.
Qed.

Lemma insertMapping_sorted (m : HubSpotToSheets.FieldMapping)
    (l : list HubSpotToSheets.FieldMapping) :
  StronglySorted byColumnIndex l ->
  StronglySorted byColumnIndex (HubSpotToSheets.insertMapping m l).
Proof.
  induction l as [|x l IH]; intros Hs; cbn.
  - constructor; constructor.
  - inversion Hs as [|? ? Hl Hx]; subst.
    destruct (_ <=? _)%Z eqn:E.
    + apply Z.leb_le in E. constructor; [exact Hs|].
      constructor; [exact E|].
      eapply Forall_impl; [|exact Hx]. unfold byColumnIndex. intros; lia.
    + apply Z.leb_gt in E. constructor; [now apply IH|].
      apply Forall_forall. intros y Hy.
      apply (Permutation_in _ (Permutation_sym (insertMapping_perm m l))) in Hy.
      destruct Hy as [<-|Hy]; [unfold byColumnIndex; lia|].
      rewrite Forall_forall in Hx. now apply Hx.
Qed.

Lemma arraySet_nat_app (done todo : list value) (t v : value) :
  HubSpotToSheets.arraySet_nat (done ++ t :: todo) (List.length done) v
  = done ++ v :: todo.
Proof.
  induction done as [|x done IH]; cbn; [reflexivity|]. now rewrite IH.
Qed.

Lemma arraySet_nat_length (l : list value) (i : nat) (v : value) :
  List.length l <= List.length (HubSpotToSheets.arraySet_nat l i v).
Proof.
  revert l. induction i as [|i IH]; intros [|x l]; cbn; try lia.
  specialize (IH l). lia.
Qed.

Lemma nth_arraySet_nat (l : list value) (i j : nat) (v : value) :
  nth j (HubSpotToSheets.arraySet_nat l i v) VUndefined
  = if Nat.eqb j i then v else nth j l VUndefined.
Proof.
  revert l j. induction i as [|i IH]; intros [|x l] [|j]; cbn; try reflexivity.
  - now destruct j.
  - rewrite IH. destruct (Nat.eqb j i); [reflexivity | now destruct j].
  - apply IH.
Qed.

Lemma filled_or_else (v : value) : filled (or_else v (VStr "")).
Proof.
  unfold filled, or_else. destruct (truthy v) eqn:E; [left; exact E | right; reflexivity].
Qed.

Lemma fillRow_cells (record props : value) (ms : list HubSpotToSheets.FieldMapping) :
  getStrict record "properties" = Ok props ->
  forall row : list value,
  exists row',
    HubSpotToSheets.fillRow h record ms row = Ok row'
    /\ List.length row <= List.length row'
    /\ (forall j, filled (nth j row VUndefined) -> filled (nth j row' VUndefined))
    /\ (forall m, In m ms -> (0 <= HubSpotToSheets.columnIndex m)%Z ->
          filled (nth (Z.to_nat (HubSpotToSheets.columnIndex m)) row' VUndefined)).
Proof.
  intros Hprops. induction ms as [|m ms IH]; intros row.
  - exists row. cbn. repeat split; auto. intros m [].
  - cbn [HubSpotToSheets.fillRow]. unfold HubSpotToSheets.propertyOf.
    rewrite Hprops. cbn [obind].
    fold (cellOf h props m).
    destruct (IH (HubSpotToSheets.arraySet row (HubSpotToSheets.columnIndex m)
                    (cellOf h props m))) as (row' & Hrun & Hlen & Hkeep & Hcells).
    exists row'. split; [exact Hrun|].
    unfold HubSpotToSheets.arraySet in *.
    destruct (HubSpotToSheets.columnIndex m <? 0)%Z eqn:E.
    + apply Z.ltb_lt in E. repeat split; auto.
      intros m' [<-|Hin] Hpos; [lia | now apply Hcells].
    + pose proof (arraySet_nat_length row (Z.to_nat (HubSpotToSheets.columnIndex m))
                    (cellOf h props m)).
      repeat split; [lia | |].
      * intros j Hj. apply Hkeep. rewrite nth_arraySet_nat.
        destruct (Nat.eqb j _); [apply filled_or_else | exact Hj].
      * intros m' [<-|Hin] Hpos; [|now apply Hcells].
        apply Hkeep. rewrite nth_arraySet_nat, Nat.eqb_refl. apply filled_or_else.
Qed.

Lemma fillRow_consecutive (record props : value) (ms : list HubSpotToSheets.FieldMapping) :
  getStrict record "properties" = Ok props ->
  forall done todo : list value,
    map HubSpotToSheets.columnIndex ms
    = map Z.of_nat (seq (List.length done) (List.length ms)) ->
    List.length todo = List.length ms ->
    HubSpotToSheets.fillRow h record ms (done ++ todo)
    = Ok (done ++ map (cellOf h props) ms).
Proof.
  intros Hprops. induction ms as [|m ms IH]; intros done todo Hidx Hlen.
  - destruct todo; [reflexivity | discriminate Hlen].
  - destruct todo as [|t todo]; [discriminate Hlen|].
    cbn [HubSpotToSheets.fillRow]. unfold HubSpotToSheets.propertyOf.
    rewrite Hprops. cbn [obind]. fold (cellOf h props m).
    cbn in Hidx. injection Hidx as Hm Hrest.
    unfold HubSpotToSheets.arraySet. rewrite Hm.
    destruct (Z.of_nat (List.length done) <? 0)%Z eqn:E; [apply Z.ltb_lt in E; lia|].
    rewrite Nat2Z.id, arraySet_nat_app.
    change (done ++ cellOf h props m :: todo) with (done ++ [cellOf h props m] ++ todo).
    rewrite app_assoc. rewrite IH.
    + rewrite <- app_assoc. reflexivity.
    + rewrite length_app. cbn. rewrite Nat.add_1_r. exact Hrest.
    + now injection Hlen.
Qed.

End HeadersAndRows.

(** The header row is [HubSpot ID] followed by one column name per
    mapping, in ascending order of the column indexes, whatever the order
    of the mappings in the configuration. *)
Theorem prepareHeaders_follows_the_column_indexes
    (mappings : list HubSpotToSheets.FieldMapping) :
  Permutation mappings (HubSpotToSheets.sortMappings mappings)
  /\ StronglySorted byColumnIndex (HubSpotToSheets.sortMappings mappings)
  /\ HubSpotToSheets.prepareHeaders (HubSpotToSheets.sortMappings mappings)
     = "HubSpot ID" :: map HubSpotToSheets.sheetColumn (HubSpotToSheets.sortMappings mappings)
  /\ List.length (HubSpotToSheets.prepareHeaders (HubSpotToSheets.sortMappings mappings))
     = S (List.length mappings).
Proof.
  assert (Hperm : Permutation mappings (HubSpotToSheets.sortMappings mappings)).
  { induction mappings as [|m l IH]; cbn; [constructor|].
    etransitivity; [|apply insertMapping_perm]. now constructor. }
  split; [exact Hperm|]. split; [|split; [reflexivity|]].
  - induction mappings as [|m l IH]; cbn; [constructor|].
    apply insertMapping_sorted. apply IH.
    clear. induction l as [|m l IH]; cbn; [constructor|].
    etransitivity; [|apply insertMapping_perm]. now constructor.
  - cbn. rewrite length_map. f_equal. symmetry. now apply Permutation_length.
Qed.

(** X17. [transformData] gives one row per record, in order; the row starts
    with the record id, has room for every mapping, and the cell of a
    mapping with a column index from 0 on is a truthy value or the empty
    text, never [null], [undefined], [0], [false] or [NaN].  It throws
    only when a record is [null] or [undefined]. *)
Theorem transformData_gives_a_row_per_record
    (h : Host) (records : list value) (mappings : list HubSpotToSheets.FieldMapping) :
  match HubSpotToSheets.transformData h records mappings with
  | Ok rows =>
      Forall2 (fun record row =>
                 exists id cells,
                   row = id :: cells
                   /\ getStrict record "id" = Ok id
                   /\ List.length mappings <= List.length cells
                   /\ forall m, In m mappings ->
                        (0 <= HubSpotToSheets.columnIndex m)%Z ->
                        filled (nthZ row (HubSpotToSheets.columnIndex m + 1)))
              records rows
  | Throw _ => exists record, In record records /\ is_nullish record = true
  end.
Proof.
  induction records as [|record rest IH]; cbn [HubSpotToSheets.transformData].
  - constructor.
  - unfold HubSpotToSheets.transformRecord.
    destruct (is_nullish record) eqn:Enull.
    { assert (Hthrow : exists msg,
                 HubSpotToSheets.fillRow h record mappings
                   (repeat VUndefined (List.length mappings)) = Throw msg
                 \/ (exists row, HubSpotToSheets.fillRow h record mappings
                                   (repeat VUndefined (List.length mappings)) = Ok row
                                 /\ getStrict record "id" = Throw msg)).
      { destruct record; try discriminate Enull;
          (destruct mappings as [|m ms]; cbn; eauto). }
      destruct Hthrow as [msg [-> | (row & -> & Hid)]]; cbn; [|rewrite Hid; cbn];
        exists record; split; auto; now left. }
    assert (Hprops : exists props, getStrict record "properties" = Ok props)
      by (destruct record; try discriminate Enull; cbn; eauto).
    assert (Hid : exists id, getStrict record "id" = Ok id)
      by (destruct record; try discriminate Enull; cbn; eauto).
    destruct Hprops as [props Hprops]. destruct Hid as [id Hid].
    destruct (fillRow_cells h record props mappings Hprops
                (repeat VUndefined (List.length mappings)))
      as (cells & Hrun & Hlen & _ & Hcells).
    rewrite Hrun, Hid. cbn [obind].
    destruct (HubSpotToSheets.transformData h rest mappings) as [rows|msg]; cbn [obind].
    + constructor; [|exact IH]. exists id, cells. rewrite repeat_length in Hlen.
      repeat split; auto. intros m Hin Hpos. unfold nthZ.
      destruct (_ <? 0)%Z eqn:E; [apply Z.ltb_lt in E; lia|].
      replace (Z.to_nat (HubSpotToSheets.columnIndex m + 1))
        with (S (Z.to_nat (HubSpotToSheets.columnIndex m))) by lia.
      cbn [nth]. now apply Hcells.
    + destruct IH as (r & Hin & Hr). exists r. split; [now right | exact Hr].
Qed.

(** X18. When the column indexes of the mappings are 0, 1, 2, ... in this
    order, every data row lines up with the header row: the cell under the
    column name of a mapping is the cell of that mapping, and the record id
    is under [HubSpot ID]. *)
Theorem data_rows_line_up_with_the_headers
    (h : Host) (records : list value) (mappings : list HubSpotToSheets.FieldMapping)
    (rows : list (list value)) :
  consecutive mappings ->
  HubSpotToSheets.transformData h records mappings = Ok rows ->
  Forall2 (fun record row =>
             exists id props,
               getStrict record "id" = Ok id
               /\ getStrict record "properties" = Ok props
               /\ List.length row = List.length (HubSpotToSheets.prepareHeaders mappings)
               /\ combine (HubSpotToSheets.prepareHeaders mappings) row
                  = ("HubSpot ID", id)
                    :: map (fun m => (HubSpotToSheets.sheetColumn m, cellOf h props m))
                           mappings)
          records rows.
Proof.
  intros Hidx. revert rows.
  induction records as [|record rest IH]; intros rows; cbn [HubSpotToSheets.transformData].
  - intros Hrows. injection Hrows as <-. constructor.
  - unfold HubSpotToSheets.transformRecord.
    destruct (is_nullish record) eqn:Enull.
    { destruct record; try discriminate Enull;
        (destruct mappings as [|m ms]; cbn; discriminate). }
    assert (Hprops : exists props, getStrict record "properties" = Ok props)
      by (destruct record; try discriminate Enull; cbn; eauto).
    assert (Hid : exists id, getStrict record "id" = Ok id)
      by (destruct record; try discriminate Enull; cbn; eauto).
    destruct Hprops as [props Hprops]. destruct Hid as [id Hid].
    pose proof (fillRow_consecutive h record props mappings Hprops []
                  (repeat VUndefined (List.length mappings)) Hidx
                  (repeat_length _ _)) as Hrun.
    cbn [app] in Hrun. rewrite Hrun, Hid. cbn [obind].
    destruct (HubSpotToSheets.transformData h rest mappings) as [rows'|msg];
      cbn [obind]; [|discriminate].
    intros Hrows. injection Hrows as <-. constructor; [|now apply IH].
    exists id, props. repeat split; auto.
    + cbn. now rewrite !length_map.
    + cbn. f_equal. clear. induction mappings as [|m ms IHm]; cbn; [reflexivity|].
      now rewrite IHm.
Qed.

Lemma data_rows_line_up_witness :
  Forall2 (fun record row =>
             exists id props,
               getStrict record "id" = Ok id
               /\ getStrict record "properties" = Ok props
               /\ List.length row
                  = List.length (HubSpotToSheets.prepareHeaders Examples.crmMappings)
               /\ combine (HubSpotToSheets.prepareHeaders Examples.crmMappings) row
                  = ("HubSpot ID", id)
                    :: map (fun m => (HubSpotToSheets.sheetColumn m,
                                      cellOf Examples.exampleHost props m))
                           Examples.crmMappings)
          Examples.twoContacts
          [[VStr "1"; VStr "a@x.com"; VStr "Ann"]; [VStr "3"; VStr "c@x.com"; VStr "Cy"]].
Proof.
  exact (data_rows_line_up_with_the_headers Examples.exampleHost Examples.twoContacts
           Examples.crmMappings _ eq_refl eq_refl).
Defined.

(* ===================================================================== *)
(** ** CRM->Sheet: what a run returns                                    *)
(* ===================================================================== *)

Section CrmRun.
Variable h : Host.
Variable W : World.

Lemma stateless_ret {S A} (a : A) : stateless (@ret S A a).
Proof. intros s hs. reflexivity. Qed.

Lemma stateless_throw {S A} (msg : string) : stateless (@throw S A msg).
Proof. intros s hs. reflexivity. Qed.

Lemma stateless_lift {S A} (o : outcome A) : stateless (@lift S A o).
Proof. intros s hs. reflexivity. Qed.

Lemma stateless_call {S A} (e : event) (answer : history -> outcome A) :
  stateless (@call S A e answer).
Proof. intros s hs. reflexivity. Qed.

Lemma stateless_bind {S A B} (m : M S A) (k : A -> M S B) :
  stateless m -> (forall a, stateless (k a)) -> stateless (bind m k).
Proof.
  intros Hm Hk s hs. unfold bind. specialize (Hm s hs).
  destruct (m s hs) as [[[a|msg] s1] hs1]; cbn in Hm; subst s1; [apply Hk | reflexivity].
Qed.

Lemma stateless_fetchLoop {S} (fuel : nat) (entityType : string) (properties : list string) :
  forall (results : list value) (after : value),
    stateless (@HubSpotToSheets.fetchLoop W S fuel entityType properties results after).
Proof.
  induction fuel as [|fuel IH]; intros results after; cbn [HubSpotToSheets.fetchLoop].
  - apply stateless_ret.
  - destruct (HubSpotToSheets.supported entityType); [|apply stateless_throw].
    apply stateless_bind; [apply stateless_call|]. intros response.
    apply stateless_bind; [apply stateless_lift|]. intros found.
    destruct (truthy _); [apply IH | apply stateless_ret].
Qed.

Lemma stateless_updateSheet {S} (spreadsheetId sheetName : string)
    (existingData : SheetData) (newData : list (list value)) (keyColumn : string) :
  stateless (@HubSpotToSheets.updateSheet h W S spreadsheetId sheetName existingData
               newData keyColumn).
Proof.
  unfold HubSpotToSheets.updateSheet. cbv zeta.
  destruct (_ =? -1)%Z; [apply stateless_throw|].
  apply stateless_bind.
  { destruct (HubSpotToSheets.updates _); [apply stateless_ret | apply stateless_call]. }
  intros _. apply stateless_bind; [|intros _; apply stateless_ret].
  destruct (HubSpotToSheets.appends _); [apply stateless_ret | apply stateless_call].
Qed.

Lemma stateless_updateSyncState {S} (spreadsheetId : string) (data : list (list value)) :
  forall index : Z,
    stateless (@HubSpotToSheets.updateSyncState h W S spreadsheetId data index).
Proof.
  induction data as [|row rest IH]; intros index; cbn [HubSpotToSheets.updateSyncState].
  - apply stateless_ret.
  - apply stateless_bind; [apply stateless_call | intros _; apply IH].
Qed.

Lemma transformData_length (records : list value)
    (mappings : list HubSpotToSheets.FieldMapping) :
  forall rows, HubSpotToSheets.transformData h records mappings = Ok rows ->
               List.length rows = List.length records.
Proof.
  induction records as [|record rest IH]; intros rows; cbn [HubSpotToSheets.transformData].
  - intros H. injection H as <-. reflexivity.
  - destruct (HubSpotToSheets.transformRecord h mappings record); [|discriminate].
    cbn [obind]. destruct (HubSpotToSheets.transformData h rest mappings) as [rows'|];
      [|discriminate].
    cbn [obind]. intros H. injection H as <-. cbn. f_equal. now apply IH.
Qed.

Lemma planRows_total (sheetName : string) (existingRecords : list (string * Z))
    (keyColumnIndex : Z) (newData : list (list value)) :
  forall p0 : HubSpotToSheets.Plan,
    let c := HubSpotToSheets.counts
               (fold_left (HubSpotToSheets.planRow h sheetName existingRecords keyColumnIndex)
                          newData p0) in
    HubSpotToSheets.created c + HubSpotToSheets.updated c + HubSpotToSheets.skipped c
    = HubSpotToSheets.created (HubSpotToSheets.counts p0)
      + HubSpotToSheets.updated (HubSpotToSheets.counts p0)
      + HubSpotToSheets.skipped (HubSpotToSheets.counts p0)
      + List.length newData.
Proof.
  induction newData as [|row rest IH]; intros p0; cbv zeta; cbn [fold_left List.length];
    [lia|].
  specialize (IH (HubSpotToSheets.planRow h sheetName existingRecords keyColumnIndex p0 row)).
  cbv zeta in IH. rewrite IH. unfold HubSpotToSheets.planRow.
  destruct (negb _); [cbn; lia|].
  destruct (JSMap.get String.eqb _ existingRecords) as [n|]; [|cbn; lia].
  destruct (n =? 0)%Z; cbn; lia.
Qed.

Lemma updateSheet_counts {S : Type} (spreadsheetId sheetName : string)
    (existingData : SheetData) (newData : list (list value)) (keyColumn : string)
    (s s' : S) (hs hs' : history) (c : HubSpotToSheets.UpdateCounts) :
  HubSpotToSheets.updateSheet h W spreadsheetId sheetName existingData newData keyColumn s hs
  = (Ok c, s', hs') ->
  HubSpotToSheets.created c + HubSpotToSheets.updated c + HubSpotToSheets.skipped c
  = List.length newData.
Proof.
  unfold HubSpotToSheets.updateSheet. cbv zeta.
  destruct (_ =? -1)%Z; [discriminate|].
  pose proof (planRows_total sheetName
                (HubSpotToSheets.indexRows h (indexOf (headers existingData) keyColumn)
                   (rows existingData) 0 [])
                (indexOf (headers existingData) keyColumn) newData HubSpotToSheets.emptyPlan)
    as Htotal.
  cbv zeta in Htotal. fold (HubSpotToSheets.planRows h sheetName
                              (HubSpotToSheets.indexRows h
                                 (indexOf (headers existingData) keyColumn)
                                 (rows existingData) 0 [])
                              (indexOf (headers existingData) keyColumn) newData) in Htotal.
  cbn in Htotal.
  unfold bind, call, ret.
  destruct (HubSpotToSheets.updates _); [|destruct (updateCells W hs _ _); [|discriminate]];
    (destruct (HubSpotToSheets.appends _);
     [|destruct (Effects.appendToSheet W _ _ _ _); [|discriminate]]);
    intros H; injection H as <- _ _; lia.
Qed.

(** The [switch] on the mode either throws with the result as it was, or
    sets counts and leaves [success] and [errors] alone; in one of the
    three modes the counts add up to the number of data rows, in any other
    mode nothing happens at all. *)
Lemma writeByMode_state (config : HubSpotToSheets.HubSpotToSheetsSyncConfig)
    (sheetData : SheetData) (headers : list string) (data : list (list value))
    (s : HubSpotToSheets.SyncResult) (hs : history)
    (o : outcome unit) (s' : HubSpotToSheets.SyncResult) (hs' : history) :
  HubSpotToSheets.writeByMode h W config sheetData headers data s hs = (o, s', hs') ->
  (exists msg, o = Throw msg /\ s' = s)
  \/ (o = Ok tt
      /\ HubSpotToSheets.errors s' = HubSpotToSheets.errors s
      /\ (In (HubSpotToSheets.syncMode config) writeModes ->
          HubSpotToSheets.recordsUpdated s = 0 -> HubSpotToSheets.recordsSkipped s = 0 ->
          placed s' = List.length data)
      /\ (~ In (HubSpotToSheets.syncMode config) writeModes -> s' = s /\ hs' = hs)).
Proof.
  unfold HubSpotToSheets.writeByMode, writeModes.
  destruct (String.eqb _ "overwrite") eqn:E1.
  { apply String.eqb_eq in E1.
    unfold HubSpotToSheets.overwriteSheet, bind, call, modify.
    destruct (clearRange W hs _ _ _);
      [|intros H; injection H as <- <- <-; left; eauto].
    destruct (writeSheet W _ _ _ _ _) as [[]|];
      intros H; injection H as <- <- <-; [right | left; eauto].
    split; [reflexivity|]. split; [reflexivity|]. split;
      [|intros Hno; exfalso; apply Hno; rewrite E1; cbn; tauto].
    intros _ Hu Hs. unfold placed. cbn. lia. }
  destruct (String.eqb _ "append") eqn:E2.
  { apply String.eqb_eq in E2.
    unfold HubSpotToSheets.appendToSheet, bind, call, modify.
    destruct (Effects.appendToSheet W hs _ _ _) as [[]|];
      intros H; injection H as <- <- <-; [right | left; eauto].
    split; [reflexivity|]. split; [reflexivity|]. split;
      [|intros Hno; exfalso; apply Hno; rewrite E2; cbn; tauto].
    intros _ Hu Hs. unfold placed. cbn. lia. }
  destruct (String.eqb _ "update") eqn:E3.
  2:{ intros H; injection H as <- <- <-. right.
      split; [reflexivity|]. split; [reflexivity|]. split; [|now split].
      intros [Hm|[Hm|[Hm|[]]]]; symmetry in Hm; apply String.eqb_eq in Hm; congruence. }
  apply String.eqb_eq in E3.
  unfold bind at 1.
  pose proof (stateless_updateSheet (S := HubSpotToSheets.SyncResult)
                (HubSpotToSheets.spreadsheetId config) (HubSpotToSheets.sheetName config)
                sheetData data
                (HubSpotToSheets.keyColumnOrEmail (HubSpotToSheets.keyColumn config)) s hs)
    as Hst.
  destruct (HubSpotToSheets.updateSheet h W _ _ _ _ _ s hs) as [[[c|msg] s1] hs1] eqn:Eu;
    cbn in Hst; subst s1; unfold modify;
    intros H; injection H as <- <- <-; [right | left; eauto].
  apply updateSheet_counts in Eu.
  split; [reflexivity|]. split; [reflexivity|]. split;
    [|intros Hno; exfalso; apply Hno; rewrite E3; cbn; tauto].
  intros _ _ _. unfold placed. cbn. lia.
Qed.

(** The [try] of a run leaves the result as it was, or sets [success] and
    leaves the errors as they were; it ends normally only in the second
    case. *)
Lemma syncBody_state (fuel : nat) (config : HubSpotToSheets.HubSpotToSheetsSyncConfig)
    (jobId : string) (s : HubSpotToSheets.SyncResult) (hs : history)
    (o : outcome (option unit)) (s' : HubSpotToSheets.SyncResult) (hs' : history) :
  HubSpotToSheets.syncBody h W fuel config jobId s hs = (o, s', hs') ->
  (s' = s /\ o <> Ok (Some tt))
  \/ (HubSpotToSheets.success s' = true
      /\ HubSpotToSheets.errors s' = HubSpotToSheets.errors s
      /\ o <> Ok None
      /\ (In (HubSpotToSheets.syncMode config) writeModes ->
          HubSpotToSheets.recordsUpdated s = 0 -> HubSpotToSheets.recordsSkipped s = 0 ->
          HubSpotToSheets.recordsProcessed s' = placed s')
      /\ (~ In (HubSpotToSheets.syncMode config) writeModes -> placed s' = placed s)).
Proof.
  unfold HubSpotToSheets.syncBody, HubSpotToSheets.fetchHubSpotData.
  unfold bind at 1.
  pose proof (stateless_fetchLoop (S := HubSpotToSheets.SyncResult) fuel
                (HubSpotToSheets.hubspotEntityType config)
                (map HubSpotToSheets.hubspotProperty (HubSpotToSheets.fieldMappings config))
                [] VUndefined s hs) as Hst.
  destruct (HubSpotToSheets.fetchLoop W fuel _ _ [] VUndefined s hs)
    as [[[[hubspotData|]|msg] s1] hs1]; cbn in Hst; subst s1;
    [|intros H; injection H as <- <- <-; left; split; [reflexivity | discriminate]
     |intros H; injection H as <- <- <-; left; split; [reflexivity | discriminate]].
  unfold bind at 1. unfold call at 1.
  destruct (readSheet W hs1 _ _) as [sheetData|msg];
    [|intros H; injection H as <- <- <-; left; split; [reflexivity | discriminate]].
  unfold bind at 1. unfold lift at 1.
  destruct (HubSpotToSheets.transformData h hubspotData _) as [data|msg] eqn:Edata;
    [|intros H; injection H as <- <- <-; left; split; [reflexivity | discriminate]].
  apply transformData_length in Edata.
  unfold bind at 1.
  destruct (HubSpotToSheets.writeByMode h W config sheetData _ data s _)
    as [[ow s2] hs2] eqn:Ewrite.
  apply writeByMode_state in Ewrite.
  destruct Ewrite as [(msg & -> & ->)|(-> & He & Hin & Hout)].
  { intros H; injection H as <- <- <-. left. split; [reflexivity | discriminate]. }
  assert (Hdone :
            HubSpotToSheets.success (HubSpotToSheets.setDone (List.length hubspotData) s2)
            = true
            /\ HubSpotToSheets.errors (HubSpotToSheets.setDone (List.length hubspotData) s2)
               = HubSpotToSheets.errors s
            /\ (In (HubSpotToSheets.syncMode config) writeModes ->
                HubSpotToSheets.recordsUpdated s = 0 ->
                HubSpotToSheets.recordsSkipped s = 0 ->
                HubSpotToSheets.recordsProcessed
                  (HubSpotToSheets.setDone (List.length hubspotData) s2)
                = placed (HubSpotToSheets.setDone (List.length hubspotData) s2))
            /\ (~ In (HubSpotToSheets.syncMode config) writeModes ->
                placed (HubSpotToSheets.setDone (List.length hubspotData) s2) = placed s)).
  { split; [reflexivity|]. split; [exact He|]. split.
    - intros Hm Hu Hs. specialize (Hin Hm Hu Hs). unfold placed in *. cbn. lia.
    - intros Hm. destruct (Hout Hm) as [-> _]. reflexivity. }
  destruct Hdone as (Hsuccess & Herrors & Hcounts & Hsame).
  unfold bind at 1. unfold modify at 1.
  unfold bind at 1. unfold get at 1.
  unfold bind at 1. unfold HubSpotToSheets.doJobUpdate, call at 1.
  destruct (jobUpdate W hs2 jobId _) as [[]|msg];
    [|intros H; injection H as <- <- <-; right;
      split; [exact Hsuccess|]; split; [exact Herrors|];
      split; [discriminate|]; split; assumption].
  unfold bind at 1.
  match goal with
  | |- context [HubSpotToSheets.updateSyncState h W ?sid data 0%Z ?st ?hist] =>
      pose proof (stateless_updateSyncState (S := HubSpotToSheets.SyncResult)
                    sid data 0%Z st hist) as Hst;
      destruct (HubSpotToSheets.updateSyncState h W sid data 0%Z st hist)
        as [[[[]|msg] s3] hs3]; cbn in Hst; subst s3
  end; intros H; injection H as <- <- <-; right;
    (split; [exact Hsuccess|]; split; [exact Herrors|];
     split; [discriminate|]; split; assumption).
Qed.

End CrmRun.

(** X19. A result that the CRM->Sheet run returns has at most one error,
    the one its [catch] adds, with no record.  Either the run got past its
    write and says [success], or the result is the initial one plus that
    error: a run that failed before the write is over reports no counts.
    A result without an error always says [success]. *)
Theorem crm_run_result_has_at_most_one_error
    (h : Host) (W : World) (fuel : nat)
    (config : HubSpotToSheets.HubSpotToSheetsSyncConfig) (hs : history)
    (r : HubSpotToSheets.SyncResult) :
  fst (HubSpotToSheets.executeSync h W fuel config hs) = Ok (Some r) ->
  (HubSpotToSheets.success r = true
   /\ (HubSpotToSheets.errors r = []
       \/ exists message, HubSpotToSheets.errors r = [runError message]))
  \/ exists message,
       r = HubSpotToSheets.pushError (runError message) HubSpotToSheets.initialResult.
Proof.
  unfold HubSpotToSheets.executeSync, HubSpotToSheets.executeSync_on.
  unfold bind at 1. unfold call at 1.
  destruct (jobCreate W hs _) as [jobId|msg]; [|discriminate].
  unfold bind at 1. unfold tryCatch.
  destruct (HubSpotToSheets.syncBody h W fuel config jobId _ _)
    as [[[[[]|]|msg] s1] hs1] eqn:Ebody;
    apply syncBody_state in Ebody; rename Ebody into Hbody; cbn in Hbody.
  - (* the try ended normally *)
    cbn. intros Hr. injection Hr as <-.
    destruct Hbody as [[_ Hno]|(Hs & He & _)]; [congruence|]. left. split; auto.
  - discriminate.
  - (* the catch *)
    unfold HubSpotToSheets.syncCatch, bind, modify, HubSpotToSheets.doJobUpdate, call, ret, get.
    destruct (jobUpdate W hs1 jobId _) as [[]|msg']; [|discriminate].
    cbn. intros Hr. injection Hr as <-.
    destruct Hbody as [[-> _]|(Hs & He & _)].
    + right. exists msg. reflexivity.
    + left. cbn. split; [exact Hs|]. right. exists msg. rewrite He. reflexivity.
Qed.

Lemma crm_run_result_witness :
  (HubSpotToSheets.success
     (HubSpotToSheets.pushError (runError "HTTP 502") HubSpotToSheets.initialResult) = true
   /\ (HubSpotToSheets.errors
         (HubSpotToSheets.pushError (runError "HTTP 502") HubSpotToSheets.initialResult) = []
       \/ exists message,
            HubSpotToSheets.errors
              (HubSpotToSheets.pushError (runError "HTTP 502") HubSpotToSheets.initialResult)
            = [runError message]))
  \/ exists message,
       HubSpotToSheets.pushError (runError "HTTP 502") HubSpotToSheets.initialResult
       = HubSpotToSheets.pushError (runError message) HubSpotToSheets.initialResult.
Proof.
  apply (crm_run_result_has_at_most_one_error Examples.exampleHost
           (Examples.crmDownWorld Examples.keyedSheet) 1
           (Examples.crmConfig "overwrite") []).
  reflexivity.
Defined.

(** X20. The CRM->Sheet run throws only when the job table fails: when the
    job cannot be created, or when the update that marks it FAILED is
    itself rejected.  Every other failure is caught and returned in the
    result. *)
Theorem crm_run_throws_only_from_the_job_table
    (h : Host) (W : World) (fuel : nat)
    (config : HubSpotToSheets.HubSpotToSheetsSyncConfig) (hs : history) (message : string) :
  fst (HubSpotToSheets.executeSync h W fuel config hs) = Throw message ->
  jobCreate W hs (HubSpotToSheets.syncConfigId config) = Throw message
  \/ exists hs1 jobId cause,
       jobCreate W hs (HubSpotToSheets.syncConfigId config) = Ok jobId
       /\ jobUpdate W hs1 jobId (HubSpotToSheets.failedJobUpdate cause) = Throw message
       /\ snd (HubSpotToSheets.executeSync h W fuel config hs)
          = hs1 ++ [EJobUpdate jobId (HubSpotToSheets.failedJobUpdate cause)].
Proof.
  destruct (HubSpotToSheets.executeSync h W fuel config hs) as [o hs'] eqn:Erun.
  cbn [fst snd]. intros ->. revert Erun.
  unfold HubSpotToSheets.executeSync, HubSpotToSheets.executeSync_on.
  unfold bind at 1. unfold call at 1.
  destruct (jobCreate W hs _) as [jobId|msg];
    [|cbn; intros H; injection H as <- _; now left].
  unfold bind at 1. unfold tryCatch.
  destruct (HubSpotToSheets.syncBody h W fuel config jobId _ _) as [[[[[]|]|msg] s1] hs1];
    try (cbn; discriminate).
  unfold HubSpotToSheets.syncCatch, bind, modify, HubSpotToSheets.doJobUpdate, call, ret, get.
  destruct (jobUpdate W hs1 jobId _) as [[]|msg'] eqn:Ej; cbn; [discriminate|].
  intros H. injection H as <- <-. right. exists hs1, jobId, msg. auto.
Qed.

Lemma crm_run_throws_witness :
  jobCreate (Examples.jobTableDownWorld Examples.keyedSheet Examples.twoContacts) []
    (HubSpotToSheets.syncConfigId (Examples.crmConfig "overwrite"))
  = Throw "connection terminated"
  \/ exists hs1 jobId cause,
       jobCreate (Examples.jobTableDownWorld Examples.keyedSheet Examples.twoContacts) []
         (HubSpotToSheets.syncConfigId (Examples.crmConfig "overwrite")) = Ok jobId
       /\ jobUpdate (Examples.jobTableDownWorld Examples.keyedSheet Examples.twoContacts)
            hs1 jobId (HubSpotToSheets.failedJobUpdate cause)
          = Throw "connection terminated"
       /\ snd (HubSpotToSheets.executeSync Examples.exampleHost
                 (Examples.jobTableDownWorld Examples.keyedSheet Examples.twoContacts)
                 5 (Examples.crmConfig "overwrite") [])
          = hs1 ++ [EJobUpdate jobId (HubSpotToSheets.failedJobUpdate cause)].
Proof.
  apply (crm_run_throws_only_from_the_job_table Examples.exampleHost
           (Examples.jobTableDownWorld Examples.keyedSheet Examples.twoContacts)
           5 (Examples.crmConfig "overwrite") [] "connection terminated").
  reflexivity.
Defined.

(** X21. For an entity type other than contacts, companies and deals the
    CRM->Sheet run fetches no page, reads no sheet and writes nothing: it
    creates the job, marks it FAILED and returns the initial result with
    the error [Unsupported entity type]. *)
Theorem crm_run_of_an_unsupported_entity_type
    (h : Host) (W : World) (fuel : nat)
    (config : HubSpotToSheets.HubSpotToSheetsSyncConfig) (hs : history) (jobId : string) :
  HubSpotToSheets.supported (HubSpotToSheets.hubspotEntityType config) = false ->
  jobCreate W hs (HubSpotToSheets.syncConfigId config) = Ok jobId ->
  let message := "Unsupported entity type: " +++ HubSpotToSheets.hubspotEntityType config in
  let hs1 := hs ++ [EJobCreate (HubSpotToSheets.syncConfigId config) "IN_PROGRESS"] in
  HubSpotToSheets.executeSync h W (S fuel) config hs
  = (match jobUpdate W hs1 jobId (HubSpotToSheets.failedJobUpdate message) with
     | Ok _ => Ok (Some (HubSpotToSheets.pushError (runError message)
                           HubSpotToSheets.initialResult))
     | Throw m => Throw m
     end,
     hs1 ++ [EJobUpdate jobId (HubSpotToSheets.failedJobUpdate message)]).
Proof.
  intros Hun Hjob message hs1.
  unfold HubSpotToSheets.executeSync, HubSpotToSheets.executeSync_on.
  unfold bind at 1. unfold call at 1. rewrite Hjob.
  unfold bind at 1. unfold tryCatch.
  unfold HubSpotToSheets.syncBody, HubSpotToSheets.fetchHubSpotData.
  cbn [HubSpotToSheets.fetchLoop]. rewrite Hun.
  unfold bind at 1. unfold throw at 1.
  unfold HubSpotToSheets.syncCatch, bind, modify, HubSpotToSheets.doJobUpdate, call, ret, get.
  fold message. fold hs1.
  destruct (jobUpdate W hs1 jobId _) as [[]|m]; reflexivity.
Qed.

Lemma crm_run_unsupported_witness :
  HubSpotToSheets.executeSync Examples.exampleHost
    (Examples.calmWorld Examples.keyedSheet Examples.twoContacts) 1
    {| HubSpotToSheets.syncConfigId := "cfg-1";
       HubSpotToSheets.userId := "user-1";
       HubSpotToSheets.spreadsheetId := "sheet-1";
       HubSpotToSheets.sheetName := "Tickets";
       HubSpotToSheets.hubspotEntityType := "tickets";
       HubSpotToSheets.fieldMappings := Examples.crmMappings;
       HubSpotToSheets.syncMode := "overwrite";
       HubSpotToSheets.keyColumn := None |} []
  = (Ok (Some (HubSpotToSheets.pushError (runError "Unsupported entity type: tickets")
                 HubSpotToSheets.initialResult)),
     [EJobCreate "cfg-1" "IN_PROGRESS";
      EJobUpdate "job-1"
        (HubSpotToSheets.failedJobUpdate "Unsupported entity type: tickets")]).
Proof.
  exact (crm_run_of_an_unsupported_entity_type Examples.exampleHost
           (Examples.calmWorld Examples.keyedSheet Examples.twoContacts) 0
           {| HubSpotToSheets.syncConfigId := "cfg-1";
              HubSpotToSheets.userId := "user-1";
              HubSpotToSheets.spreadsheetId := "sheet-1";
              HubSpotToSheets.sheetName := "Tickets";
              HubSpotToSheets.hubspotEntityType := "tickets";
              HubSpotToSheets.fieldMappings := Examples.crmMappings;
              HubSpotToSheets.syncMode := "overwrite";
              HubSpotToSheets.keyColumn := None |} [] "job-1" eq_refl eq_refl).
Defined.

(* ===================================================================== *)
(** ** CRM->Sheet: the paging                                            *)
(* ===================================================================== *)

Lemma pageRequests_app (a b : history) :
  pageRequests (a ++ b) = pageRequests a ++ pageRequests b.
Proof. apply filter_app. Qed.

(** X22. The paging of [fetchHubSpotData] ends only when the CRM returns a
    page without a next cursor.  Against a CRM whose every page names a
    next page, every bound on the number of pages is reached: one request
    per page allowed, and no result. *)
Theorem paging_ends_only_when_the_crm_ends_it
    (W : World) (S : Type) (entityType : string) (properties : list string) :
  HubSpotToSheets.supported entityType = true ->
  (forall hs after,
     exists response,
       getPage W hs entityType after properties = Ok response /\ hasNextPage response) ->
  forall (fuel : nat) (s : S) (hs : history),
  exists hs',
    HubSpotToSheets.fetchHubSpotData W fuel entityType properties s hs = (Ok None, s, hs')
    /\ List.length (pageRequests hs') = List.length (pageRequests hs) + fuel.
Proof.
  intros Hsup Hpages fuel. unfold HubSpotToSheets.fetchHubSpotData.
  generalize (@nil value) as results. generalize VUndefined as after.
  induction fuel as [|fuel IH]; intros after results s hs; cbn [HubSpotToSheets.fetchLoop].
  - exists hs. split; [reflexivity | lia].
  - rewrite Hsup. unfold bind at 1. unfold call at 1.
    destruct (Hpages hs after) as (response & -> & (found & Hfound) & Hnext).
    unfold bind at 1. unfold lift at 1. rewrite Hfound, Hnext.
    destruct (IH (getOpt (getOpt (getOpt response "paging") "next") "after")
                (results ++ found) s (hs ++ [EGetPage entityType after properties]))
      as (hs' & -> & Hcount).
    exists hs'. split; [reflexivity|].
    rewrite Hcount, pageRequests_app, length_app. cbn. lia.
Qed.

Lemma paging_witness :
  exists hs',
    HubSpotToSheets.fetchHubSpotData
      (Examples.endlessWorld Examples.keyedSheet Examples.twoContacts) 3
      "contacts" ["email"] tt []
    = (Ok None, tt, hs')
    /\ List.length (pageRequests hs') = List.length (pageRequests []) + 3.
Proof.
  apply (paging_ends_only_when_the_crm_ends_it
           (Examples.endlessWorld Examples.keyedSheet Examples.twoContacts)
           unit "contacts" ["email"] eq_refl).
  intros hs after. eexists. split; [reflexivity|].
  split; [eexists; reflexivity | reflexivity].
Defined.

(* ===================================================================== *)
(** ** The fingerprints one direction stores, read by the other          *)
(* ===================================================================== *)

Section Fingerprints.
Variable h : Host.













End Fingerprints.



(** Without distinct record ids the store keeps one state for two rows,
    and the row that lost its state is reported as new. *)
Lemma one_record_id_on_two_rows_is_a_change :
  let data := [[VStr "1"; VStr "a@x.com"]; [VStr "1"; VStr "b@x.com"]] in
  List.length (storedBy (upserts Examples.exampleHost "sheet-1" data 0)) = 1
  /\ SheetsToHubSpot.changesOf Examples.exampleHost data
       (storedBy (upserts Examples.exampleHost "sheet-1" data 0))
     = [{| SheetsToHubSpot.changeRow := 2%Z; SheetsToHubSpot.changeType := SheetsToHubSpot.New |}].
Proof. split; reflexivity. Qed.

(* ===================================================================== *)
(** ** Sheet->CRM: from the cells of a row to the CRM properties         *)
(* ===================================================================== *)

Section RowToProperties.
Variable h : Host.

Lemma transformRow_from_other (row : list value) (ms : list SheetsToHubSpot.FieldMapping) :
  forall (props : list (string * value)) (k : string),
    ~ In k (map SheetsToHubSpot.hubspotProperty ms) ->
    lookup_field k (SheetsToHubSpot.transformRow_from h props row ms)
    = lookup_field k props.
Proof.
  induction ms as [|m ms IH]; intros props k Hnot; [reflexivity|].
  cbn [SheetsToHubSpot.transformRow_from]. cbn in Hnot.
  destruct (SheetsToHubSpot.has_content _).
  - rewrite IH by tauto. unfold SheetsToHubSpot.setField. rewrite lookup_field_set.
    destruct (String.eqb k (SheetsToHubSpot.hubspotProperty m)) eqn:E; [|reflexivity].
    apply String.eqb_eq in E. subst k. tauto.
  - apply IH. tauto.
Qed.

Lemma transformRow_from_mapped (row : list value) (ms : list SheetsToHubSpot.FieldMapping) :
  NoDup (map SheetsToHubSpot.hubspotProperty ms) ->
  forall (props : list (string * value)) (m : SheetsToHubSpot.FieldMapping),
    In m ms ->
    lookup_field (SheetsToHubSpot.hubspotProperty m)
      (SheetsToHubSpot.transformRow_from h props row ms)
    = if SheetsToHubSpot.has_content (cellFor row m)
      then SheetsToHubSpot.applyTransformation h (cellFor row m)
             (SheetsToHubSpot.transformType m)
      else lookup_field (SheetsToHubSpot.hubspotProperty m) props.
Proof.
  induction ms as [|m0 ms IH]; intros Hnd props m Hin; [destruct Hin|].
  cbn in Hnd. inversion Hnd as [|? ? Hfresh Hrest]; subst.
  cbn [SheetsToHubSpot.transformRow_from]. destruct Hin as [->|Hin].
  - unfold cellFor.
    destruct (SheetsToHubSpot.has_content (nthZ row (SheetsToHubSpot.columnIndex m)));
      rewrite transformRow_from_other by exact Hfresh; [|reflexivity].
    unfold SheetsToHubSpot.setField. now rewrite lookup_field_set, String.eqb_refl.
  - assert (Hne : String.eqb (SheetsToHubSpot.hubspotProperty m)
                    (SheetsToHubSpot.hubspotProperty m0) = false).
    { apply String.eqb_neq. intros Heq. apply Hfresh. rewrite <- Heq.
      now apply in_map. }
    destruct (SheetsToHubSpot.has_content (nthZ row (SheetsToHubSpot.columnIndex m0)));
      rewrite (IH Hrest _ m Hin); [|reflexivity].
    unfold SheetsToHubSpot.setField. now rewrite lookup_field_set, Hne.
Qed.

(** Under a name that objects do not inherit, [!!o[k]] reads the field of
    the object itself. *)
Lemma truthyAt_own (k : string) (fs : list (string * value)) :
  inherits k = false -> truthyAt k fs = truthy (lookup_field k fs).
Proof.
  intros Hk. unfold truthyAt.
  destruct (String.eqb k "__proto__") eqn:E.
  { apply String.eqb_eq in E. subst k. discriminate Hk. }
  rewrite Hk. induction fs as [|[k' v] fs IH]; cbn; [reflexivity|].
  destruct (String.eqb k k'); [reflexivity | exact IH].
Qed.

End RowToProperties.

(** X24. With no CRM property mapped twice and none named like a member
    that every object inherits ([constructor], [toString], [__proto__],
    ...), [transformRowToHubSpot] gives each mapped property the
    transformed cell when the cell has content and leaves it out
    otherwise, and the row lacks exactly the required columns whose cell
    has no content or transforms to a falsy value: these are the columns
    the error of the row names, in the order of the mappings. *)
Theorem row_validity_reads_the_mapped_cells
    (h : Host) (row : list value) (mappings : list SheetsToHubSpot.FieldMapping) :
  NoDup (map SheetsToHubSpot.hubspotProperty mappings) ->
  (forall m, In m mappings -> inherits (SheetsToHubSpot.hubspotProperty m) = false) ->
  let data := SheetsToHubSpot.transformRowToHubSpot h row mappings in
  (forall m, In m mappings ->
     lookup_field (SheetsToHubSpot.hubspotProperty m) data
     = if SheetsToHubSpot.has_content (cellFor row m)
       then SheetsToHubSpot.applyTransformation h (cellFor row m)
              (SheetsToHubSpot.transformType m)
       else VUndefined)
  /\ SheetsToHubSpot.missingFields data mappings
     = map SheetsToHubSpot.sheetColumn (filter (lacksValue h row) mappings)
  /\ (SheetsToHubSpot.valid data mappings = true
      <-> forall m, In m mappings -> lacksValue h row m = false).
Proof.
  intros Hnd Hown data.
  assert (Hlookup : forall m, In m mappings ->
            lookup_field (SheetsToHubSpot.hubspotProperty m) data
            = if SheetsToHubSpot.has_content (cellFor row m)
              then SheetsToHubSpot.applyTransformation h (cellFor row m)
                     (SheetsToHubSpot.transformType m)
              else VUndefined).
  { intros m Hin. unfold data, SheetsToHubSpot.transformRowToHubSpot.
    now rewrite (transformRow_from_mapped h row mappings Hnd [] m Hin). }
  assert (Hmissing : forall ms, incl ms mappings ->
            SheetsToHubSpot.missingFields data ms
            = map SheetsToHubSpot.sheetColumn (filter (lacksValue h row) ms)).
  { induction ms as [|m ms IH]; intros Hincl; [reflexivity|].
    cbn [SheetsToHubSpot.missingFields filter].
    rewrite (truthyAt_own _ _ (Hown m (Hincl m (or_introl eq_refl)))).
    rewrite (Hlookup m (Hincl m (or_introl eq_refl))).
    rewrite IH by (intros x Hx; apply Hincl; now right).
    match goal with
    | |- (if ?b then _ else _) = _ =>
        replace b with (lacksValue h row m)
          by (unfold lacksValue; destruct (SheetsToHubSpot.isRequired m); [|reflexivity];
              destruct (SheetsToHubSpot.has_content (cellFor row m)); reflexivity)
    end.
    destruct (lacksValue h row m); reflexivity. }
  split; [exact Hlookup|]. split; [apply Hmissing, incl_refl|].
  unfold SheetsToHubSpot.valid. rewrite (Hmissing mappings (incl_refl _)).
  split.
  - intros Hvalid m Hin. destruct (lacksValue h row m) eqn:E; [|reflexivity].
    assert (Hf : In m (filter (lacksValue h row) mappings)) by (apply filter_In; auto).
    destruct (filter (lacksValue h row) mappings); [destruct Hf | discriminate Hvalid].
  - intros Hall. destruct (filter (lacksValue h row) mappings) as [|m rest] eqn:E;
      [reflexivity|].
    assert (Hf : In m (filter (lacksValue h row) mappings)) by (rewrite E; now left).
    apply filter_In in Hf. destruct Hf as [Hin Hl]. rewrite (Hall m Hin) in Hl.
    discriminate Hl.
Qed.

Lemma row_validity_witness :
  let data := SheetsToHubSpot.transformRowToHubSpot Examples.exampleHost
                [VStr ""; VStr "Jo"] Examples.contactMappings in
  (forall m, In m Examples.contactMappings ->
     lookup_field (SheetsToHubSpot.hubspotProperty m) data
     = if SheetsToHubSpot.has_content (cellFor [VStr ""; VStr "Jo"] m)
       then SheetsToHubSpot.applyTransformation Examples.exampleHost
              (cellFor [VStr ""; VStr "Jo"] m) (SheetsToHubSpot.transformType m)
       else VUndefined)
  /\ SheetsToHubSpot.missingFields data Examples.contactMappings
     = map SheetsToHubSpot.sheetColumn
         (filter (lacksValue Examples.exampleHost [VStr ""; VStr "Jo"])
            Examples.contactMappings)
  /\ (SheetsToHubSpot.valid data Examples.contactMappings = true
      <-> forall m, In m Examples.contactMappings ->
            lacksValue Examples.exampleHost [VStr ""; VStr "Jo"] m = false).
Proof.
  apply (row_validity_reads_the_mapped_cells Examples.exampleHost
           [VStr ""; VStr "Jo"] Examples.contactMappings).
  - repeat constructor; cbn; intuition discriminate.
  - intros m [<-|[<-|[]]]; reflexivity.
Defined.

(* ===================================================================== *)
(** ** Sheet->CRM: the counters of the result                            *)
(* ===================================================================== *)

Section Counters.
Variable h : Host.
Variable W : World.

Lemma findHubSpotRecord_state {S : Type} (entityType property : string)
    (v : value) (s : S) (hs : history) :
  exists found hs',
    SheetsToHubSpot.findHubSpotRecord W entityType property v s hs = (Ok found, s, hs').
Proof.
  unfold SheetsToHubSpot.findHubSpotRecord, tryCatch, bind, ret.
  destruct (searches entityType property) eqn:Hs.
  - rewrite (searchFor_searches W _ _ _ _ _ Hs).
    destruct (search W hs entityType property v); eauto.
  - rewrite (searchFor_without_search W _ _ _ _ _ Hs). eauto.
Qed.

Lemma countsARow_processRow (config : SheetsToHubSpot.SheetsToHubSpotSyncConfig)
    (jobId : string) (identifierIndex rowIndex : Z) (row : list value)
    (s : SheetsToHubSpot.SheetsSyncResult) (hs : history) :
  countsARow s (snd (fst (SheetsToHubSpot.processRow h W config jobId identifierIndex
                            rowIndex row s hs))).
Proof.
  unfold SheetsToHubSpot.processRow, tryCatch, SheetsToHubSpot.rowBody.
  destruct (SheetsToHubSpot.isEmptyRow h row).
  { unfold countsARow, tally. cbn. lia. }
  destruct (SheetsToHubSpot.valid _ _); cbn [negb].
  2:{ destruct (SheetsToHubSpot.skipInvalid config);
        unfold SheetsToHubSpot.rowCatch, SheetsToHubSpot.logSyncOperation,
          bind, modify, call, throw, countsARow, tally; cbn;
        rewrite ?length_app; cbn; lia. }
  unfold bind at 1.
  destruct (findHubSpotRecord_state (SheetsToHubSpot.hubspotEntityType config)
              (SheetsToHubSpot.identifierColumn config) (nthZ row identifierIndex) s hs)
    as (found & hs1 & ->).
  unfold SheetsToHubSpot.whenFound, SheetsToHubSpot.whenNotFound,
    SheetsToHubSpot.updateHubSpotRecord, SheetsToHubSpot.createHubSpotRecord,
    SheetsToHubSpot.rowCatch, SheetsToHubSpot.logSyncOperation,
    SheetsToHubSpot.updateSyncState.
  destruct (truthy found);
    [destruct (SheetsToHubSpot.updateExisting config)
    |destruct (SheetsToHubSpot.createNew config)];
    try destruct (SheetsToHubSpot.supported _);
    unfold bind, modify, call, throw, lift;
    repeat match goal with
           | |- context [match ?x with Ok _ => _ | Throw _ => _ end] => destruct x
           end;
    unfold countsARow, tally; cbn; rewrite ?length_app; cbn; lia.
Qed.

Lemma rowLoop_counts (config : SheetsToHubSpot.SheetsToHubSpotSyncConfig)
    (jobId : string) (identifierIndex : Z) (rows : list (list value)) :
  forall (rowIndex : Z) (s : SheetsToHubSpot.SheetsSyncResult) (hs : history),
    let res := SheetsToHubSpot.rowLoop h W config jobId identifierIndex rowIndex rows s hs in
    let s' := snd (fst res) in
    tally s <= tally s' <= tally s + List.length rows
    /\ SheetsToHubSpot.rowsProcessed s' + tally s
       <= tally s' + SheetsToHubSpot.rowsProcessed s
    /\ (forall u, fst (fst res) = Ok u ->
          tally s + List.length (SheetsToHubSpot.errors s) + List.length rows
          <= tally s' + List.length (SheetsToHubSpot.errors s')).
Proof.
  induction rows as [|row rest IH]; intros rowIndex s hs.
  - cbn. repeat split; lia.
  - cbv zeta. cbn [SheetsToHubSpot.rowLoop List.length]. unfold bind.
    pose proof (countsARow_processRow config jobId identifierIndex rowIndex row s hs)
      as Hrow.
    destruct (SheetsToHubSpot.processRow h W config jobId identifierIndex rowIndex row s hs)
      as [[[u1|msg] s1] hs1]; cbn [fst snd] in Hrow; unfold countsARow in Hrow.
    + specialize (IH (rowIndex + 1)%Z s1 hs1). cbv zeta in IH.
      destruct (SheetsToHubSpot.rowLoop h W config jobId identifierIndex (rowIndex + 1)
                  rest s1 hs1) as [[o2 s2] hs2]; cbn [fst snd] in *.
      destruct IH as (Ht & Hp & Hok). repeat split; try lia.
      intros u Hu. specialize (Hok u Hu). lia.
    + cbn [fst snd]. repeat split; try lia. discriminate.
Qed.

End Counters.

(** X25. The counters of a result that the Sheet->CRM run returns.  Every
    row moves at most one of created, updated and skipped, so their sum is
    at most the number of rows; a row is counted as processed only after
    one of them went up; and every row left a count or an error. *)
Theorem sheet_run_counts_each_row_at_most_once
    (h : Host) (W : World) (config : SheetsToHubSpot.SheetsToHubSpotSyncConfig)
    (hs0 : history) (jobId : string) (sheet : SheetData)
    (r : SheetsToHubSpot.SheetsSyncResult) :
  jobCreate W hs0 (SheetsToHubSpot.syncConfigId config) = Ok jobId ->
  readSheet W (hs0 ++ [EJobCreate (SheetsToHubSpot.syncConfigId config) "IN_PROGRESS"])
    (SheetsToHubSpot.spreadsheetId config) (SheetsToHubSpot.sheetName config) = Ok sheet ->
  SheetsToHubSpot.validateHeaders (headers sheet) (SheetsToHubSpot.fieldMappings config)
  = Ok tt ->
  indexOf (headers sheet) (SheetsToHubSpot.identifierColumn config) <> (-1)%Z ->
  fst (SheetsToHubSpot.executeSync h W config hs0) = Ok r ->
  tally r <= List.length (rows sheet)
  /\ SheetsToHubSpot.rowsProcessed r <= tally r
  /\ List.length (rows sheet) <= tally r + List.length (SheetsToHubSpot.errors r).
Proof.
  intros Hjob Hread Hheaders Hident.
  rewrite (executeSync_after_checks h W config hs0 jobId sheet Hjob Hread Hheaders Hident).
  pose proof (rowLoop_counts h W config jobId
                (indexOf (headers sheet) (SheetsToHubSpot.identifierColumn config))
                (rows sheet) 0%Z SheetsToHubSpot.initialResult
                ((hs0 ++ [EJobCreate (SheetsToHubSpot.syncConfigId config) "IN_PROGRESS"])
                 ++ [EReadSheet (SheetsToHubSpot.spreadsheetId config)
                       (SheetsToHubSpot.sheetName config)])) as Hloop.
  cbv zeta in Hloop.
  destruct (SheetsToHubSpot.rowLoop h W config jobId _ 0 (rows sheet) _ _)
    as [[[u|msg] s3] hs3]; cbn [fst snd] in Hloop.
  - destruct Hloop as (Ht & Hp & Hok). specialize (Hok u eq_refl).
    cbv zeta. destruct (jobUpdate W hs3 jobId _).
    + cbn. intros Hr. injection Hr as <-. unfold tally in *. cbn in *. lia.
    + destruct (jobUpdate W _ jobId _); discriminate.
  - destruct (jobUpdate W hs3 jobId _); discriminate.
Qed.

Lemma sheet_run_counts_witness :
  exists r,
    fst (SheetsToHubSpot.executeSync Examples.exampleHost
           (Examples.calmWorld Examples.contactSheet [])
           (Examples.sheetConfig "contacts" "email" true) []) = Ok r
    /\ tally r <= List.length (rows Examples.contactSheet)
    /\ SheetsToHubSpot.rowsProcessed r <= tally r
    /\ List.length (rows Examples.contactSheet)
       <= tally r + List.length (SheetsToHubSpot.errors r).
Proof.
  eexists. split; [reflexivity|].
  refine (sheet_run_counts_each_row_at_most_once Examples.exampleHost
            (Examples.calmWorld Examples.contactSheet [])
            (Examples.sheetConfig "contacts" "email" true) [] "job-1" Examples.contactSheet
            _ eq_refl eq_refl eq_refl _ eq_refl).
  discriminate.
Defined.

(* ===================================================================== *)
(** ** CRM->Sheet: the counts of a run, and the write modes              *)
(* ===================================================================== *)

(** X26. In the modes overwrite, append and update, a CRM->Sheet result
    that says [success] counts every fetched record once: the records
    processed are the records created, updated and skipped together. *)
Theorem crm_run_counts_add_up
    (h : Host) (W : World) (fuel : nat)
    (config : HubSpotToSheets.HubSpotToSheetsSyncConfig) (hs : history)
    (r : HubSpotToSheets.SyncResult) :
  In (HubSpotToSheets.syncMode config) writeModes ->
  fst (HubSpotToSheets.executeSync h W fuel config hs) = Ok (Some r) ->
  HubSpotToSheets.success r = true ->
  HubSpotToSheets.recordsProcessed r = placed r.
Proof.
  intros Hmode.
  unfold HubSpotToSheets.executeSync, HubSpotToSheets.executeSync_on.
  unfold bind at 1. unfold call at 1.
  destruct (jobCreate W hs _) as [jobId|msg]; [|discriminate].
  unfold bind at 1. unfold tryCatch.
  destruct (HubSpotToSheets.syncBody h W fuel config jobId _ _)
    as [[[[[]|]|msg] s1] hs1] eqn:Ebody;
    apply syncBody_state in Ebody; rename Ebody into Hbody.
  - cbn. intros Hr _. injection Hr as <-.
    destruct Hbody as [[_ Hno]|(_ & _ & _ & Hcounts & _)]; [congruence|].
    now apply Hcounts.
  - discriminate.
  - unfold HubSpotToSheets.syncCatch, bind, modify, HubSpotToSheets.doJobUpdate, call, ret, get.
    destruct (jobUpdate W hs1 jobId _) as [[]|msg']; [|discriminate].
    cbn. intros Hr. injection Hr as <-. cbn. intros Hsuccess.
    destruct Hbody as [[-> _]|(_ & _ & _ & Hcounts & _)]; [discriminate Hsuccess|].
    unfold placed in *. cbn. now apply Hcounts.
Qed.

Lemma crm_run_counts_witness :
  exists r,
    fst (HubSpotToSheets.executeSync Examples.exampleHost
           (Examples.calmWorld Examples.keyedSheet Examples.twoContacts) 5
           (Examples.crmConfig "update") []) = Ok (Some r)
    /\ HubSpotToSheets.recordsProcessed r = placed r.
Proof.
  eexists. split; [reflexivity|].
  apply (crm_run_counts_add_up Examples.exampleHost
           (Examples.calmWorld Examples.keyedSheet Examples.twoContacts) 5
           (Examples.crmConfig "update") []).
  - cbn. tauto.
  - reflexivity.
  - reflexivity.
Defined.

Section WriteModes.
Variable h : Host.
Variable W : World.

Lemma sheetWrites_app (a b : history) : sheetWrites (a ++ b) = sheetWrites a ++ sheetWrites b.
Proof. apply filter_app. Qed.

Lemma writesNothing_ret {S A} (a : A) : writesNothing (@ret S A a).
Proof. intros s hs. reflexivity. Qed.

Lemma writesNothing_throw {S A} (msg : string) : writesNothing (@throw S A msg).
Proof. intros s hs. reflexivity. Qed.

Lemma writesNothing_lift {S A} (o : outcome A) : writesNothing (@lift S A o).
Proof. intros s hs. reflexivity. Qed.

Lemma writesNothing_get {S} : writesNothing (@get S).
Proof. intros s hs. reflexivity. Qed.

Lemma writesNothing_modify {S} (f : S -> S) : writesNothing (modify f).
Proof. intros s hs. reflexivity. Qed.

Lemma writesNothing_call {S A} (e : event) (answer : history -> outcome A) :
  isWrite e = false -> writesNothing (@call S A e answer).
Proof.
  intros He s hs. unfold call. cbn [snd]. rewrite sheetWrites_app.
  unfold sheetWrites at 2. cbn. rewrite He. apply app_nil_r.
Qed.

Lemma writesNothing_bind {S A B} (m : M S A) (k : A -> M S B) :
  writesNothing m -> (forall a, writesNothing (k a)) -> writesNothing (bind m k).
Proof.
  intros Hm Hk s hs. unfold bind. specialize (Hm s hs).
  destruct (m s hs) as [[[a|msg] s1] hs1]; cbn [snd] in *; [|exact Hm].
  now rewrite Hk.
Qed.

Lemma writesNothing_tryCatch {S A} (m : M S A) (handler : string -> M S A) :
  writesNothing m -> (forall msg, writesNothing (handler msg)) ->
  writesNothing (tryCatch m handler).
Proof.
  intros Hm Hk s hs. unfold tryCatch. specialize (Hm s hs).
  destruct (m s hs) as [[[a|msg] s1] hs1]; cbn [snd] in *; [exact Hm|].
  now rewrite Hk.
Qed.

Lemma writesNothing_fetchLoop {S} (fuel : nat) (entityType : string)
    (properties : list string) :
  forall (results : list value) (after : value),
    writesNothing (@HubSpotToSheets.fetchLoop W S fuel entityType properties results after).
Proof.
  induction fuel as [|fuel IH]; intros results after; cbn [HubSpotToSheets.fetchLoop].
  - apply writesNothing_ret.
  - destruct (HubSpotToSheets.supported entityType); [|apply writesNothing_throw].
    apply writesNothing_bind; [now apply writesNothing_call|]. intros response.
    apply writesNothing_bind; [apply writesNothing_lift|]. intros found.
    destruct (truthy _); [apply IH | apply writesNothing_ret].
Qed.

Lemma writesNothing_updateSyncState {S} (spreadsheetId : string)
    (data : list (list value)) :
  forall index : Z,
    writesNothing (@HubSpotToSheets.updateSyncState h W S spreadsheetId data index).
Proof.
  induction data as [|row rest IH]; intros index; cbn [HubSpotToSheets.updateSyncState].
  - apply writesNothing_ret.
  - apply writesNothing_bind; [now apply writesNothing_call | intros _; apply IH].
Qed.

Lemma writesNothing_syncBody (fuel : nat)
    (config : HubSpotToSheets.HubSpotToSheetsSyncConfig) (jobId : string) :
  ~ In (HubSpotToSheets.syncMode config) writeModes ->
  writesNothing (HubSpotToSheets.syncBody h W fuel config jobId).
Proof.
  intros Hmode. unfold HubSpotToSheets.syncBody, HubSpotToSheets.fetchHubSpotData.
  apply writesNothing_bind; [apply writesNothing_fetchLoop|].
  intros [hubspotData|]; [|apply writesNothing_ret].
  apply writesNothing_bind; [now apply writesNothing_call|]. intros sheetData.
  apply writesNothing_bind; [apply writesNothing_lift|]. intros data.
  apply writesNothing_bind.
  { unfold HubSpotToSheets.writeByMode, writeModes in *.
    destruct (String.eqb _ "overwrite") eqn:E1;
      [apply String.eqb_eq in E1; exfalso; apply Hmode; rewrite E1; cbn; tauto|].
    destruct (String.eqb _ "append") eqn:E2;
      [apply String.eqb_eq in E2; exfalso; apply Hmode; rewrite E2; cbn; tauto|].
    destruct (String.eqb _ "update") eqn:E3;
      [apply String.eqb_eq in E3; exfalso; apply Hmode; rewrite E3; cbn; tauto|].
    apply writesNothing_ret. }
  intros _. apply writesNothing_bind; [apply writesNothing_modify|]. intros _.
  apply writesNothing_bind; [apply writesNothing_get|]. intros r.
  apply writesNothing_bind;
    [unfold HubSpotToSheets.doJobUpdate; now apply writesNothing_call|]. intros _.
  apply writesNothing_bind; [apply writesNothing_updateSyncState|]. intros _.
  apply writesNothing_ret.
Qed.

End WriteModes.

(** X27. The [switch] on the write mode has no default.  With a mode other
    than overwrite, append and update the CRM->Sheet run never changes the
    sheet, and a result it returns counts no record as created, updated or
    skipped. *)
Theorem crm_run_in_an_unknown_mode_writes_nothing
    (h : Host) (W : World) (fuel : nat)
    (config : HubSpotToSheets.HubSpotToSheetsSyncConfig) (hs : history) :
  ~ In (HubSpotToSheets.syncMode config) writeModes ->
  sheetWrites (snd (HubSpotToSheets.executeSync h W fuel config hs)) = sheetWrites hs
  /\ forall r, fst (HubSpotToSheets.executeSync h W fuel config hs) = Ok (Some r) ->
               placed r = 0.
Proof.
  intros Hmode. split.
  - assert (Hrun : writesNothing (HubSpotToSheets.executeSync_on h W fuel config)).
    { unfold HubSpotToSheets.executeSync_on.
      apply writesNothing_bind; [now apply writesNothing_call|]. intros jobId.
      apply writesNothing_bind.
      - apply writesNothing_tryCatch; [now apply writesNothing_syncBody|].
        intros msg. unfold HubSpotToSheets.syncCatch, HubSpotToSheets.doJobUpdate.
        apply writesNothing_bind; [apply writesNothing_modify|]. intros _.
        apply writesNothing_bind; [now apply writesNothing_call|]. intros _.
        apply writesNothing_ret.
      - intros [u|]; [|apply writesNothing_ret].
        apply writesNothing_bind; [apply writesNothing_get|]. intros r.
        apply writesNothing_ret. }
    specialize (Hrun HubSpotToSheets.initialResult hs).
    unfold HubSpotToSheets.executeSync.
    destruct (HubSpotToSheets.executeSync_on h W fuel config _ hs) as [[o s1] hs1].
    exact Hrun.
  - intros r.
    unfold HubSpotToSheets.executeSync, HubSpotToSheets.executeSync_on.
    unfold bind at 1. unfold call at 1.
    destruct (jobCreate W hs _) as [jobId|msg]; [|discriminate].
    unfold bind at 1. unfold tryCatch.
    destruct (HubSpotToSheets.syncBody h W fuel config jobId _ _)
      as [[[[[]|]|msg] s1] hs1] eqn:Ebody;
      apply syncBody_state in Ebody; rename Ebody into Hbody.
    + cbn. intros Hr. injection Hr as <-.
      destruct Hbody as [[_ Hno]|(_ & _ & _ & _ & Hsame)]; [congruence|].
      now rewrite Hsame.
    + discriminate.
    + unfold HubSpotToSheets.syncCatch, bind, modify, HubSpotToSheets.doJobUpdate,
        call, ret, get.
      destruct (jobUpdate W hs1 jobId _) as [[]|msg']; [|discriminate].
      cbn. intros Hr. injection Hr as <-.
      destruct Hbody as [[-> _]|(_ & _ & _ & _ & Hsame)]; [reflexivity|].
      specialize (Hsame Hmode). unfold placed in *. cbn in *. exact Hsame.
Qed.

Lemma crm_run_unknown_mode_witness :
  sheetWrites (snd (HubSpotToSheets.executeSync Examples.exampleHost
                      (Examples.calmWorld Examples.keyedSheet Examples.twoContacts) 5
                      (Examples.crmConfig "replace") [])) = sheetWrites []
  /\ forall r,
       fst (HubSpotToSheets.executeSync Examples.exampleHost
              (Examples.calmWorld Examples.keyedSheet Examples.twoContacts) 5
              (Examples.crmConfig "replace") []) = Ok (Some r) ->
       placed r = 0.
Proof.
  apply (crm_run_in_an_unknown_mode_writes_nothing Examples.exampleHost
           (Examples.calmWorld Examples.keyedSheet Examples.twoContacts) 5
           (Examples.crmConfig "replace") []).
  cbn. intuition discriminate.
Defined.

(* ===================================================================== *)
(** ** Sheet->CRM: a row of an entity type the CRM code does not know    *)
(* ===================================================================== *)

(** X28. For an entity type other than contacts, companies and deals the
    Sheet->CRM loop never calls the CRM.  A valid row finds no record
    without a search; with [createNew] it becomes a row error
    [Unsupported entity type] and a SKIP entry in the log, without
    [createNew] it is counted as skipped and processed. *)
Theorem sheet_row_of_an_unsupported_entity_type
    (h : Host) (W : World) (config : SheetsToHubSpot.SheetsToHubSpotSyncConfig)
    (jobId : string) (identifierIndex rowIndex : Z) (row : list value)
    (s : SheetsToHubSpot.SheetsSyncResult) (hs : history) :
  SheetsToHubSpot.supported (SheetsToHubSpot.hubspotEntityType config) = false ->
  SheetsToHubSpot.isEmptyRow h row = false ->
  SheetsToHubSpot.valid
    (SheetsToHubSpot.transformRowToHubSpot h row (SheetsToHubSpot.fieldMappings config))
    (SheetsToHubSpot.fieldMappings config) = true ->
  let message := "Unsupported entity type: " +++ SheetsToHubSpot.hubspotEntityType config in
  let entry := ELog jobId "SKIP" (toUpperCase (SheetsToHubSpot.hubspotEntityType config))
                 (VStr "") "ERROR" (Some message) in
  SheetsToHubSpot.processRow h W config jobId identifierIndex rowIndex row s hs
  = if SheetsToHubSpot.createNew config
    then (logCreate W hs entry,
          SheetsToHubSpot.pushError
            {| SheetsToHubSpot.row := (rowIndex + 2)%Z; SheetsToHubSpot.data := row;
               SheetsToHubSpot.error := message |} s,
          hs ++ [entry])
    else (Ok tt, SheetsToHubSpot.incProcessed (SheetsToHubSpot.incSkipped s), hs).
Proof.
  intros Hun Hrow Hvalid message entry.
  assert (Hsearch : searches (SheetsToHubSpot.hubspotEntityType config)
                      (SheetsToHubSpot.identifierColumn config) = false).
  { unfold SheetsToHubSpot.supported in Hun. unfold searches.
    destruct (String.eqb _ "contacts"); [discriminate Hun|].
    destruct (String.eqb _ "companies"); [discriminate Hun|].
    destruct (String.eqb _ "deals"); [discriminate Hun | reflexivity]. }
  unfold SheetsToHubSpot.processRow, tryCatch, SheetsToHubSpot.rowBody.
  rewrite Hrow, Hvalid. cbn [negb].
  unfold bind at 1. unfold SheetsToHubSpot.findHubSpotRecord, tryCatch.
  unfold bind at 1. rewrite (searchFor_without_search W _ _ _ _ _ Hsearch).
  cbn [ret SheetsToHubSpot.firstResult getOpt or_else truthy].
  unfold SheetsToHubSpot.whenNotFound, SheetsToHubSpot.createHubSpotRecord.
  rewrite Hun. destruct (SheetsToHubSpot.createNew config).
  - unfold SheetsToHubSpot.rowCatch, SheetsToHubSpot.logSyncOperation,
      bind, throw, modify, call.
    fold message. fold entry. destruct (logCreate W hs entry) as [[]|]; reflexivity.
  - reflexivity.
Qed.

Lemma sheet_row_unsupported_witness :
  SheetsToHubSpot.processRow Examples.exampleHost
    (Examples.calmWorld Examples.contactSheet [])
    (Examples.sheetConfig "tickets" "email" false) "job-1" 0%Z 1%Z
    [VStr "ada@x.com"; VStr "Ada"] SheetsToHubSpot.initialResult []
  = (Ok tt,
     SheetsToHubSpot.pushError
       {| SheetsToHubSpot.row := 3%Z; SheetsToHubSpot.data := [VStr "ada@x.com"; VStr "Ada"];
          SheetsToHubSpot.error := "Unsupported entity type: tickets" |}
       SheetsToHubSpot.initialResult,
     [ELog "job-1" "SKIP" "TICKETS" (VStr "") "ERROR"
        (Some "Unsupported entity type: tickets")]).
Proof.
  exact (sheet_row_of_an_unsupported_entity_type Examples.exampleHost
           (Examples.calmWorld Examples.contactSheet [])
           (Examples.sheetConfig "tickets" "email" false) "job-1" 0%Z 1%Z
           [VStr "ada@x.com"; VStr "Ada"] SheetsToHubSpot.initialResult []
           eq_refl eq_refl eq_refl).
Defined.

(* ===================================================================== *)
(** ** Overwrite mode: what is written reads back                        *)
(* ===================================================================== *)

(** X29. [overwriteSheet] clears columns A to Z and then writes the header
    row and the data rows from cell A1 in one call; [readSheet] splits
    these very values into the same headers and the same data rows. *)
Theorem overwrite_layout_reads_back
    (h : Host) (W : World) (S : Type) (spreadsheetId sheetName : string)
    (headers : list string) (data : list (list value)) (s : S) (hs : history) :
  clearRange W hs spreadsheetId sheetName "A:Z" = Ok tt ->
  exists allData,
    snd (HubSpotToSheets.overwriteSheet W spreadsheetId sheetName headers data s hs)
    = hs ++ [EClearRange spreadsheetId sheetName "A:Z";
             EWriteSheet spreadsheetId sheetName allData "A1"]
    /\ GoogleSheetsClient.sheetOfValues h (Some allData)
       = {| Effects.headers := headers; rows := data |}.
Proof.
  intros Hclear. exists (map VStr headers :: data). split.
  - unfold HubSpotToSheets.overwriteSheet, bind, call. rewrite Hclear. cbn [snd].
    now rewrite <- app_assoc.
  - unfold GoogleSheetsClient.sheetOfValues. cbn. f_equal.
    rewrite map_map. cbn. apply map_id.
Qed.

Lemma overwrite_layout_witness :
  exists allData,
    snd (HubSpotToSheets.overwriteSheet
           (Examples.calmWorld Examples.keyedSheet Examples.twoContacts)
           "sheet-1" "Contacts" ["HubSpot ID"; "email"]
           [[VStr "1"; VStr "a@x.com"]] tt [])
    = [] ++ [EClearRange "sheet-1" "Contacts" "A:Z";
             EWriteSheet "sheet-1" "Contacts" allData "A1"]
    /\ GoogleSheetsClient.sheetOfValues Examples.exampleHost (Some allData)
       = {| headers := ["HubSpot ID"; "email"]; rows := [[VStr "1"; VStr "a@x.com"]] |}.
Proof.
  apply (overwrite_layout_reads_back Examples.exampleHost
           (Examples.calmWorld Examples.keyedSheet Examples.twoContacts) unit
           "sheet-1" "Contacts" ["HubSpot ID"; "email"] [[VStr "1"; VStr "a@x.com"]] tt []).
  reflexivity.
Defined.

(* ===================================================================== *)
(** ** Sheet->CRM: a run that throws                                     *)
(* ===================================================================== *)

(** X30. A Sheet->CRM run that throws either could not create its job, or
    made as its last call the update that marks the job FAILED with the
    message of the failure; the run then throws that message, or the error
    of this last update when it fails too. *)
Theorem sheet_run_throws_after_marking_the_job_failed
    (h : Host) (W : World) (config : SheetsToHubSpot.SheetsToHubSpotSyncConfig)
    (hs : history) (message : string) :
  fst (SheetsToHubSpot.executeSync h W config hs) = Throw message ->
  jobCreate W hs (SheetsToHubSpot.syncConfigId config) = Throw message
  \/ exists hs1 jobId cause,
       jobCreate W hs (SheetsToHubSpot.syncConfigId config) = Ok jobId
       /\ snd (SheetsToHubSpot.executeSync h W config hs)
          = hs1 ++ [EJobUpdate jobId (SheetsToHubSpot.failedJobUpdate cause)]
       /\ ((jobUpdate W hs1 jobId (SheetsToHubSpot.failedJobUpdate cause) = Ok tt
            /\ message = cause)
           \/ jobUpdate W hs1 jobId (SheetsToHubSpot.failedJobUpdate cause) = Throw message).
Proof.
  destruct (SheetsToHubSpot.executeSync h W config hs) as [o hs'] eqn:Erun.
  cbn [fst snd]. intros ->. revert Erun.
  unfold SheetsToHubSpot.executeSync, SheetsToHubSpot.executeSync_on.
  unfold bind at 1. unfold call at 1.
  destruct (jobCreate W hs _) as [jobId|msg];
    [|cbn; intros H; injection H as <- _; now left].
  unfold bind at 1. unfold tryCatch.
  destruct (SheetsToHubSpot.syncBody h W config jobId _ _) as [[[[]|cause] s1] hs1].
  - cbn. discriminate.
  - unfold SheetsToHubSpot.doJobUpdate, bind, call, throw.
    destruct (jobUpdate W hs1 jobId _) as [[]|msg'] eqn:Ej; cbn;
      intros H; injection H as <- <-; right; exists hs1, jobId, cause; auto.
Qed.

Lemma sheet_run_throws_witness :
  jobCreate (Examples.calmWorld Examples.contactSheet []) []
    (SheetsToHubSpot.syncConfigId (Examples.sheetConfig "contacts" "phone" false))
  = Throw ("Identifier column " +++ dq +++ "phone" +++ dq +++ " not found")
  \/ exists hs1 jobId cause,
       jobCreate (Examples.calmWorld Examples.contactSheet []) []
         (SheetsToHubSpot.syncConfigId (Examples.sheetConfig "contacts" "phone" false))
       = Ok jobId
       /\ snd (SheetsToHubSpot.executeSync Examples.exampleHost
                 (Examples.calmWorld Examples.contactSheet [])
                 (Examples.sheetConfig "contacts" "phone" false) [])
          = hs1 ++ [EJobUpdate jobId (SheetsToHubSpot.failedJobUpdate cause)]
       /\ ((jobUpdate (Examples.calmWorld Examples.contactSheet []) hs1 jobId
              (SheetsToHubSpot.failedJobUpdate cause) = Ok tt
            /\ "Identifier column " +++ dq +++ "phone" +++ dq +++ " not found" = cause)
           \/ jobUpdate (Examples.calmWorld Examples.contactSheet []) hs1 jobId
                (SheetsToHubSpot.failedJobUpdate cause)
              = Throw ("Identifier column " +++ dq +++ "phone" +++ dq +++ " not found")).
Proof.
  apply (sheet_run_throws_after_marking_the_job_failed Examples.exampleHost
           (Examples.calmWorld Examples.contactSheet [])
           (Examples.sheetConfig "contacts" "phone" false) []).
  reflexivity.
Defined.
